(** * eks-pricing-exporter: pricing cache and node price resolution

    A shallow embedding of [pkg/pricing] (provider, repository) and of the
    node model of [pkg/model], followed by the properties of the
    specification that were checked against it.

    Conventions of the embedding:
    - Go [float64] is Rocq's primitive binary64 [float]; [==] on floats is
      [PrimFloat.eqb] (so [NaN == NaN] is false and [-0 == 0] is true).
    - A Go [map[string]T] read by key is a [gmap string T]; a map that the
      code only ranges over is the list of its entries in iteration order
      (Go leaves that order unspecified, so statements quantify over it).
    - A Go [(value, error)] result is a pair whose second component is
      [None] for a nil error; a pointer result is an [option].
    - [time.Time] is an integer clock reading; [time.Now()] is an explicit
      argument [now].
    - A run-time panic is the outcome [Panics]. *)

From Stdlib Require Import Floats ZArith List.
From stdpp Require Import gmap strings.

#[local] Set Warnings "-inexact-float,-register-all".
#[local] Open Scope string_scope.

(** ** Go run-time values shared by both packages *)

(** Go [error] values: [errors.New]/[fmt.Errorf] without [%w], [fmt.Errorf]
    with [%w], and the combined error of [go.uber.org/multierr]. *)
Inductive error : Type :=
| errorString (s : string)
| wrapError (msg : string) (err : error)
| multiError (errs : list error).

(** What a call does: it returns, or the goroutine panics. *)
Inductive outcome (A : Type) : Type :=
| Returns (a : A)
| Panics (msg : string).
Arguments Returns {A} a.
Arguments Panics {A} msg.

Definition nil_dereference : string :=
  "runtime error: invalid memory address or nil pointer dereference".

(** [context.Context]: only handed through to the external clients. *)
Inductive Context : Type :=
| ctx (cancelled : bool).

(** [time.Time] as a clock reading; the zero [time.Time] is [0]. *)
Definition Time : Type := Z.

(** [multierr.Combine(errs...)] on a slice of non-nil errors: nil for the
    empty slice, the error itself for a single one, and otherwise one
    [multiError] in which nested [multiError]s are spliced. *)
Definition multierr_flatten (e : error) : list error :=
  match e with
  | multiError es => es
  | _ => [e]
  end.

Definition multierr_Combine (errs : list error) : option error :=
  match errs with
  | [] => None
  | [e] => Some e
  | _ => Some (multiError (concat (map multierr_flatten errs)))
  end.

(** * Package [pricing] *)

Module pricing.

(** ** Price tables and the provider interface *)

(** [OnDemandPriceList] is [map[string]float64] and [SpotPriceList] is
    [map[string]map[string]float64]. *)
Abbreviation OnDemandPriceList := (gmap string float).
Abbreviation SpotPriceList := (gmap string (gmap string float)).

Record FargatePrice : Type := mkFargatePrice {
  VCPUPerHour : float;
  GBPerHour : float
}.

(** The zero value [FargatePrice{}]. *)
Definition FargatePrice_zero : FargatePrice := mkFargatePrice 0%float 0%float.

(** [type Provider interface]. *)
Record Provider : Type := mkProvider {
  GetOnDemandPricing : Context -> outcome (OnDemandPriceList * option error);
  GetSpotPricing : Context -> outcome (SpotPriceList * option error);
  GetFargatePricing : Context -> outcome (FargatePrice * option error)
}.

(** ** The repository *)

(** [type Repository struct]; the lock [mu] has no field here, every
    function below is one critical section or takes no lock at all. *)
Record Repository : Type := mkRepository {
  pricingProvider : Provider;
  onDemandUpdateTime : Time;
  onDemandPrices : OnDemandPriceList;
  spotUpdateTime : Time;
  spotPrices : SpotPriceList;
  fargateUpdateTime : Time;
  fargatePrice : FargatePrice
}.

Definition NewRepository (provider : Provider) : Repository :=
  {| pricingProvider := provider;
     onDemandUpdateTime := 0%Z;
     onDemandPrices := ∅;
     spotUpdateTime := 0%Z;
     spotPrices := ∅;
     fargateUpdateTime := 0%Z;
     fargatePrice := FargatePrice_zero |}.

(** [UpdateOnDemandPricing]: the fetch, and on success the locked write of
    the table and of [time.Now()], read as [now]. *)
Definition UpdateOnDemandPricing (c : Context) (now : Time) (pr : Repository)
  : outcome (Repository * option error) :=
  match GetOnDemandPricing (pricingProvider pr) c with
  | Panics msg => Panics msg
  | Returns (_, Some err) => Returns (pr, Some err)
  | Returns (pricing, None) =>
      Returns ({| pricingProvider := pricingProvider pr;
                  onDemandUpdateTime := now;
                  onDemandPrices := pricing;
                  spotUpdateTime := spotUpdateTime pr;
                  spotPrices := spotPrices pr;
                  fargateUpdateTime := fargateUpdateTime pr;
                  fargatePrice := fargatePrice pr |}, None)
  end.

Definition UpdateSpotPricing (c : Context) (now : Time) (pr : Repository)
  : outcome (Repository * option error) :=
  match GetSpotPricing (pricingProvider pr) c with
  | Panics msg => Panics msg
  | Returns (_, Some err) => Returns (pr, Some err)
  | Returns (pricing, None) =>
      Returns ({| pricingProvider := pricingProvider pr;
                  onDemandUpdateTime := onDemandUpdateTime pr;
                  onDemandPrices := onDemandPrices pr;
                  spotUpdateTime := now;
                  spotPrices := pricing;
                  fargateUpdateTime := fargateUpdateTime pr;
                  fargatePrice := fargatePrice pr |}, None)
  end.

Definition UpdateFargatePricing (c : Context) (now : Time) (pr : Repository)
  : outcome (Repository * option error) :=
  match GetFargatePricing (pricingProvider pr) c with
  | Panics msg => Panics msg
  | Returns (_, Some err) => Returns (pr, Some err)
  | Returns (pricing, None) =>
      Returns ({| pricingProvider := pricingProvider pr;
                  onDemandUpdateTime := onDemandUpdateTime pr;
                  onDemandPrices := onDemandPrices pr;
                  spotUpdateTime := spotUpdateTime pr;
                  spotPrices := spotPrices pr;
                  fargateUpdateTime := now;
                  fargatePrice := pricing |}, None)
  end.

(** ** Point lookups *)

Definition OnDemandLastUpdated (pr : Repository) : Time := onDemandUpdateTime pr.
Definition SpotLastUpdated (pr : Repository) : Time := spotUpdateTime pr.
Definition FargateLastUpdated (pr : Repository) : Time := fargateUpdateTime pr.

Definition OnDemandPrice (pr : Repository) (instanceType : string) : float * bool :=
  match onDemandPrices pr !! instanceType with
  | None => (0%float, false)
  | Some price => (price, true)
  end.

(** [Repository.FargatePrice(cpu, memory)]. *)
Definition Repository_FargatePrice (pr : Repository) (cpu memory : float) : float * bool :=
  if PrimFloat.eqb (GBPerHour (fargatePrice pr)) 0%float
     || PrimFloat.eqb (VCPUPerHour (fargatePrice pr)) 0%float
  then (0%float, false)
  else ((cpu * VCPUPerHour (fargatePrice pr) + memory * GBPerHour (fargatePrice pr))%float, true).

Definition SpotPrice (pr : Repository) (instanceType zone : string) : float * bool :=
  match spotPrices pr !! instanceType with
  | Some zones =>
      match zones !! zone with
      | Some price => (price, true)
      | None => (0%float, false)
      end
  | None => (0%float, false)
  end.

(** [lo.Keys]: the keys of a map, in the order a range yields them (Go
    leaves the order open; the statements about it do not depend on it). *)
Definition lo_Keys {A} (m : gmap string A) : list string := (map_to_list m).*1.

(** [lo.Union]: the elements of the lists in order, each one only where it
    first occurs. *)
Fixpoint lo_Union_from (seen : gset string) (l : list string) : list string :=
  match l with
  | [] => []
  | e :: l' =>
      if decide (e ∈ seen) then lo_Union_from seen l'
      else e :: lo_Union_from ({[ e ]} ∪ seen) l'
  end.

Definition lo_Union (a b : list string) : list string := lo_Union_from ∅ (a ++ b).

(** [InstanceTypes]. *)
Definition InstanceTypes (pr : Repository) : list string :=
  lo_Union (lo_Keys (onDemandPrices pr)) (lo_Keys (spotPrices pr)).

(** ** The static provider *)

Section Static.

(** The table [initialOnDemandPrices] is declared in a file of the package
    that is not part of the sources at hand; it is a parameter. *)
Variable initialOnDemandPrices : OnDemandPriceList.

Definition StaticProvider : Provider :=
  {| GetOnDemandPricing := fun _ => Returns (initialOnDemandPrices, None);
     GetSpotPricing := fun _ => Returns (∅, None);
     GetFargatePricing := fun _ => Returns (FargatePrice_zero, None) |}.

End Static.

(** ** The external clients of the live provider *)

(** [pricingtypes.Filter]; every filter of the package is a term match. *)
Inductive FilterType : Type :=
| FilterTypeTermMatch.

Record Filter : Type := mkFilter {
  Field : string;
  Type_ : FilterType;
  Value : string
}.

Definition termMatch (field value : string) : Filter :=
  mkFilter field FilterTypeTermMatch value.

Record GetProductsInput : Type := mkGetProductsInput {
  Filters : list Filter;
  ServiceCode : string
}.

Record GetProductsOutput : Type := mkGetProductsOutput {
  PriceList : list string
}.

(** [ec2types.SpotPrice], the fields the package reads; pointer fields are
    options. *)
Record ec2_SpotPrice : Type := mkSpotPrice {
  sph_AvailabilityZone : option string;
  sph_InstanceType : string;
  sph_SpotPrice : option string;
  sph_Timestamp : option Time
}.

Record DescribeSpotPriceHistoryInput : Type := mkDescribeSpotPriceHistoryInput {
  ProductDescriptions : list string;
  StartTime : option Time
}.

Record DescribeSpotPriceHistoryOutput : Type := mkDescribeSpotPriceHistoryOutput {
  SpotPriceHistory : list ec2_SpotPrice
}.

(** A client together with the SDK paginator built on it: for a request,
    the outcomes of the successive [NextPage] calls, [inl err] for a failed
    call, until [HasMorePages] is false. *)
Definition GetProductsAPIClient : Type :=
  Context -> GetProductsInput -> list (error + GetProductsOutput).

Definition DescribeSpotPriceHistoryAPIClient : Type :=
  Context -> DescribeSpotPriceHistoryInput -> list (error + DescribeSpotPriceHistoryOutput).

Record AWSProvider : Type := mkAWSProvider {
  Region : string;
  EC2Client : DescribeSpotPriceHistoryAPIClient;
  PricingClient : GetProductsAPIClient
}.

(** [aws.ToString]: the empty string for a nil pointer. *)
Definition aws_ToString (s : option string) : string := default "" s.

(** [strings.Contains]. *)
Fixpoint strings_Contains (s substr : string) : bool :=
  String.prefix substr s ||
  match s with
  | EmptyString => false
  | String _ s' => strings_Contains s' substr
  end.

(** [len(m) == 0] on a map. *)
Definition len_is_zero {A} (m : gmap string A) : bool := bool_decide (size m = 0).

(** The projections that [json.Unmarshal] fills: [Terms.OnDemand] and its
    [PriceDimensions] are maps that are only ranged over. *)
Record priceDimension : Type := mkPriceDimension {
  PricePerUnit_USD : string
}.

Record term : Type := mkTerm {
  PriceDimensions : list (string * priceDimension)
}.

Record onDemandPriceItem : Type := mkOnDemandPriceItem {
  od_InstanceType : string;
  od_OnDemand : list (string * term)
}.

Record fargatePriceItem : Type := mkFargatePriceItem {
  fg_UsageType : string;
  fg_OnDemand : list (string * term)
}.

(** A loop body that may leave the function with an error. *)
Fixpoint foldl_err {A B : Type} (f : A -> B -> error + A) (a : A) (l : list B) : error + A :=
  match l with
  | [] => inr a
  | b :: l' =>
      match f a b with
      | inl e => inl e
      | inr a' => foldl_err f a' l'
      end
  end.

(** ** The live provider *)

Section Live.

(** [strconv.ParseFloat(s, 64)]: [None] when it returns an error. *)
Variable ParseFloat : string -> option float.

(** [json.Unmarshal] into the [priceItem] of [parseOnDemandPage] and into
    the one of [parseFargatePage]: [inl err] on a decoding error. *)
Variable Unmarshal_onDemand : string -> error + onDemandPriceItem.
Variable Unmarshal_fargate : string -> error + fargatePriceItem.

(** *** Spot *)

(** The body of [for _, sph := range output.SpotPriceHistory]. *)
Definition GetSpotPricing_record (prices : SpotPriceList) (sph : ec2_SpotPrice) : SpotPriceList :=
  match ParseFloat (aws_ToString (sph_SpotPrice sph)) with
  | None => prices
  | Some spotPrice =>
      match sph_Timestamp sph with
      | None => prices
      | Some _ =>
          let instanceType := sph_InstanceType sph in
          let az := aws_ToString (sph_AvailabilityZone sph) in
          let zones := match prices !! instanceType with
                       | Some zones => zones
                       | None => ∅
                       end in
          <[instanceType := <[az := spotPrice]> zones]> prices
      end
  end.

(** The loop [for spotPriceHistoryPaginator.HasMorePages()]. *)
Fixpoint GetSpotPricing_pages (prices : SpotPriceList)
  (pages : list (error + DescribeSpotPriceHistoryOutput)) : SpotPriceList * option error :=
  match pages with
  | [] => (prices, None)
  | inl err :: _ => (∅, Some err)
  | inr output :: rest =>
      GetSpotPricing_pages (foldl GetSpotPricing_record prices (SpotPriceHistory output)) rest
  end.

(** The request of [GetSpotPricing]; [now] is its [time.Now()]. *)
Definition GetSpotPricing_input (now : Time) : DescribeSpotPriceHistoryInput :=
  {| ProductDescriptions := ["Linux/UNIX"; "Linux/UNIX (Amazon VPC)"];
     StartTime := Some now |}.

Definition AWSProvider_GetSpotPricing (p : AWSProvider) (now : Time) (c : Context)
  : SpotPriceList * option error :=
  match GetSpotPricing_pages ∅ (EC2Client p c (GetSpotPricing_input now)) with
  | (_, Some err) => (∅, Some err)
  | (prices, None) =>
      if len_is_zero prices
      then (∅, Some (errorString "no spot pricing found"))
      else (prices, None)
  end.

(** A record that the loop of [GetSpotPricing] passes over. *)
Definition spot_unusable (sph : ec2_SpotPrice) : Prop :=
  ParseFloat (aws_ToString (sph_SpotPrice sph)) = None \/ sph_Timestamp sph = None.

(** A record that the loop stores under [(instanceType, az)] with [price]. *)
Definition spot_stores (sph : ec2_SpotPrice) (instanceType az : string) (price : float) : Prop :=
  ParseFloat (aws_ToString (sph_SpotPrice sph)) = Some price /\
  sph_Timestamp sph <> None /\
  sph_InstanceType sph = instanceType /\
  aws_ToString (sph_AvailabilityZone sph) = az.

(** [prices[instanceType][az]], when both keys are present. *)
Definition spot_entry (prices : SpotPriceList) (instanceType az : string) : option float :=
  match prices !! instanceType with
  | Some zones => zones !! az
  | None => None
  end.

(** *** On-demand *)

(** The body of [for _, v := range term.PriceDimensions]. *)
Definition parseOnDemandPage_dimension (instanceType : string)
  (prices : OnDemandPriceList) (v : string * priceDimension) : OnDemandPriceList :=
  match ParseFloat (PricePerUnit_USD v.2) with
  | None => prices
  | Some price =>
      if PrimFloat.eqb price 0%float then prices
      else <[instanceType := price]> prices
  end.

Definition parseOnDemandPage_item (prices : OnDemandPriceList) (pItem : onDemandPriceItem)
  : OnDemandPriceList :=
  if String.eqb (od_InstanceType pItem) "" then prices
  else foldl (fun prices t =>
                foldl (parseOnDemandPage_dimension (od_InstanceType pItem)) prices
                      (PriceDimensions t.2))
             prices (od_OnDemand pItem).

Fixpoint parseOnDemandPage_list (prices : OnDemandPriceList) (priceList : list string)
  : OnDemandPriceList * option error :=
  match priceList with
  | [] => (prices, None)
  | outer :: rest =>
      match Unmarshal_onDemand outer with
      | inl err => (prices, Some (wrapError "decoding: " err))
      | inr pItem => parseOnDemandPage_list (parseOnDemandPage_item prices pItem) rest
      end
  end.

Definition parseOnDemandPage (prices : OnDemandPriceList) (output : GetProductsOutput)
  : OnDemandPriceList * option error :=
  parseOnDemandPage_list prices (PriceList output).

Fixpoint fetchOnDemandPricing_pages (prices : OnDemandPriceList)
  (pages : list (error + GetProductsOutput)) : OnDemandPriceList * option error :=
  match pages with
  | [] => (prices, None)
  | inl err :: _ => (∅, Some err)
  | inr output :: rest =>
      match parseOnDemandPage prices output with
      | (_, Some err) => (∅, Some err)
      | (prices', None) => fetchOnDemandPricing_pages prices' rest
      end
  end.

(** The request of [fetchOnDemandPricing]. *)
Definition fetchOnDemandPricing_input (p : AWSProvider) (additionalFilters : list Filter)
  : GetProductsInput :=
  let filters :=
    ([ termMatch "regionCode" (Region p);
       termMatch "serviceCode" "AmazonEC2";
       termMatch "preInstalledSw" "NA";
       termMatch "operatingSystem" "Linux";
       termMatch "capacitystatus" "Used";
       termMatch "marketoption" "OnDemand" ] ++ additionalFilters)%list in
  {| Filters := filters; ServiceCode := "AmazonEC2" |}.

Definition fetchOnDemandPricing (p : AWSProvider) (c : Context)
  (additionalFilters : list Filter) : OnDemandPriceList * option error :=
  fetchOnDemandPricing_pages ∅
    (PricingClient p c (fetchOnDemandPricing_input p additionalFilters)).

Definition sharedFilters : list Filter :=
  [ termMatch "tenancy" "Shared"; termMatch "productFamily" "Compute Instance" ].

Definition metalFilters : list Filter :=
  [ termMatch "tenancy" "Dedicated";
    termMatch "productFamily" "Compute Instance (bare metal)" ].

(** [lo.Assign(a, b)]: the entries of [b] win. *)
Definition lo_Assign (a b : OnDemandPriceList) : OnDemandPriceList := b ∪ a.

Definition AWSProvider_GetOnDemandPricing (p : AWSProvider) (c : Context)
  : OnDemandPriceList * option error :=
  match fetchOnDemandPricing p c sharedFilters with
  | (_, Some err) => (∅, Some err)
  | (onDemandPrices, None) =>
      match fetchOnDemandPricing p c metalFilters with
      | (_, Some err) => (∅, Some err)
      | (onDemandMetalPrices, None) =>
          if len_is_zero onDemandPrices || len_is_zero onDemandMetalPrices
          then (∅, Some (errorString "no on-demand pricing found"))
          else (lo_Assign onDemandPrices onDemandMetalPrices, None)
      end
  end.

(** *** Fargate *)

(** [fmt.Errorf("unsupported fargate price information found: %s", name)]. *)
Definition unsupported (name : string) : error :=
  errorString ("unsupported fargate price information found: " ++ name).

(** The body of [for _, v := range term.PriceDimensions] of
    [parseFargatePage]; [inl] is the [return nil, fmt.Errorf(...)]. *)
Definition parseFargatePage_dimension (name : string)
  (fargatePrice : FargatePrice) (v : string * priceDimension) : error + FargatePrice :=
  match ParseFloat (PricePerUnit_USD v.2) with
  | None => inr fargatePrice
  | Some price =>
      if PrimFloat.eqb price 0%float then inr fargatePrice
      else if strings_Contains name "vCPU-Hours"
      then inr (mkFargatePrice price (GBPerHour fargatePrice))
      else if strings_Contains name "GB-Hours"
      then inr (mkFargatePrice (VCPUPerHour fargatePrice) price)
      else inl (unsupported name)
  end.

(** The body of [for _, outer := range output.PriceList]. *)
Definition parseFargatePage_item (fargatePrice : FargatePrice) (outer : string)
  : error + FargatePrice :=
  match Unmarshal_fargate outer with
  | inl err => inl (wrapError "decoding: " err)
  | inr pItem =>
      if negb (strings_Contains (fg_UsageType pItem) "Fargate") then inr fargatePrice
      else
        let name := fg_UsageType pItem in
        foldl_err (fun fp t => foldl_err (parseFargatePage_dimension name) fp (PriceDimensions t.2))
                  fargatePrice (fg_OnDemand pItem)
  end.

(** [parseFargatePage]: [fargatePrice] is the struct its pointer argument
    refers to; the result is [(nil, err)] or that pointer, whose target by
    then holds the rates found, and a nil error. *)
Definition parseFargatePage (fargatePrice : FargatePrice) (output : GetProductsOutput)
  : option FargatePrice * option error :=
  match foldl_err parseFargatePage_item fargatePrice (PriceList output) with
  | inl err => (None, Some err)
  | inr fargatePrice' => (Some fargatePrice', None)
  end.

(** The loop of [GetFargatePricing]; [price] is the target of the pointer
    variable [price]. Both returns inside the loop evaluate [*price]: after
    a failed [parseFargatePage] the variable holds nil. *)
Fixpoint GetFargatePricing_pages (price : FargatePrice)
  (pages : list (error + GetProductsOutput)) : outcome (FargatePrice * option error) :=
  match pages with
  | [] => Returns (price, None)
  | inl err :: _ => Returns (price, Some err)
  | inr output :: rest =>
      match parseFargatePage price output with
      | (Some price', None) => GetFargatePricing_pages price' rest
      | (Some price', Some err) => Returns (price', Some err)
      | (None, _) => Panics nil_dereference
      end
  end.

(** The request of [GetFargatePricing]. *)
Definition GetFargatePricing_input (p : AWSProvider) : GetProductsInput :=
  let filters := [ termMatch "regionCode" (Region p) ] in
  {| Filters := filters; ServiceCode := "AmazonEKS" |}.

Definition AWSProvider_GetFargatePricing (p : AWSProvider) (c : Context)
  : outcome (FargatePrice * option error) :=
  GetFargatePricing_pages FargatePrice_zero (PricingClient p c (GetFargatePricing_input p)).

(** A price dimension that the inner loops of [parseOnDemandPage] and
    [parseFargatePage] pass over: its price string does not parse, or it
    parses to zero. *)
Definition dimension_skipped (v : string * priceDimension) : Prop :=
  ParseFloat (PricePerUnit_USD v.2) = None \/
  exists price, ParseFloat (PricePerUnit_USD v.2) = Some price /\
                PrimFloat.eqb price 0%float = true.

(** A price dimension with a price that parses and is not zero. *)
Definition dimension_priced (v : string * priceDimension) : Prop :=
  exists price, ParseFloat (PricePerUnit_USD v.2) = Some price /\
                PrimFloat.eqb price 0%float = false.

(** A decoded record that [parseFargatePage] takes to be about Fargate. *)
Definition fargate_relevant (pItem : fargatePriceItem) : Prop :=
  strings_Contains (fg_UsageType pItem) "Fargate" = true.

(** A usage type with neither of the two unit markers. *)
Definition unit_unrecognized (name : string) : Prop :=
  strings_Contains name "vCPU-Hours" = false /\ strings_Contains name "GB-Hours" = false.

(** A price list entry from which [parseFargatePage] takes no rate: it
    decodes, and it is not about Fargate or all its price dimensions are
    passed over. *)
Definition fargate_unusable (outer : string) : Prop :=
  exists pItem, Unmarshal_fargate outer = inr pItem /\
    (strings_Contains (fg_UsageType pItem) "Fargate" = false \/
     Forall (fun t => Forall dimension_skipped (PriceDimensions t.2)) (fg_OnDemand pItem)).

(** The live provider as a [Provider]; [now] is the clock reading that
    [GetSpotPricing] takes for the start of its window. *)
Definition AWSProvider_Provider (p : AWSProvider) (now : Time) : Provider :=
  {| GetOnDemandPricing := fun c => Returns (AWSProvider_GetOnDemandPricing p c);
     GetSpotPricing := fun c => Returns (AWSProvider_GetSpotPricing p now c);
     GetFargatePricing := fun c => AWSProvider_GetFargatePricing p c |}.

End Live.

Section LiveRecords.

Variable ParseFloat : string -> option float.
Variable Unmarshal_onDemand : string -> error + onDemandPriceItem.

(** A price list entry that [parseOnDemandPage] decodes. *)
Definition onDemand_decodes (outer : string) : Prop :=
  exists pItem, Unmarshal_onDemand outer = inr pItem.

(** A price list entry from which [parseOnDemandPage] takes no price: it
    decodes, and it names no instance type or all its price dimensions are
    passed over. *)
Definition onDemand_unusable (outer : string) : Prop :=
  exists pItem, Unmarshal_onDemand outer = inr pItem /\
    (od_InstanceType pItem = "" \/
     Forall (fun t => Forall (dimension_skipped ParseFloat) (PriceDimensions t.2))
            (od_OnDemand pItem)).

(** A price list entry that offers [price] for [instanceType]: it decodes
    to a record of that instance type with a price dimension that parses
    to [price], and [price] is not zero. *)
Definition onDemand_offers (outer : string) (instanceType : string) (price : float) : Prop :=
  exists pItem t v,
    Unmarshal_onDemand outer = inr pItem /\
    od_InstanceType pItem = instanceType /\
    instanceType <> "" /\
    t ∈ od_OnDemand pItem /\
    v ∈ PriceDimensions t.2 /\
    ParseFloat (PricePerUnit_USD v.2) = Some price /\
    PrimFloat.eqb price 0%float = false.

(** A page that arrives and whose entries all decode. *)
Definition onDemand_page_decodes (pg : error + GetProductsOutput) : Prop :=
  exists output, pg = inr output /\ Forall onDemand_decodes (PriceList output).

(** A page that fails, or an entry of a page that does not decode, with
    the error that [fetchOnDemandPricing] makes of it. *)
Definition onDemand_failure (pages : list (error + GetProductsOutput)) (err : error) : Prop :=
  inl err ∈ pages \/
  exists output outer cause,
    inr output ∈ pages /\ outer ∈ PriceList output /\
    Unmarshal_onDemand outer = inl cause /\ err = wrapError "decoding: " cause.

(** A price list entry that offers [price] as a Fargate rate in the unit
    [marker]: it decodes to a record about Fargate whose usage type holds
    the marker, with a price dimension that parses to [price], and [price]
    is not zero. *)
Variable Unmarshal_fargate : string -> error + fargatePriceItem.

Definition fargate_offers (outer : string) (marker : string) (price : float) : Prop :=
  exists pItem t v,
    Unmarshal_fargate outer = inr pItem /\
    strings_Contains (fg_UsageType pItem) "Fargate" = true /\
    strings_Contains (fg_UsageType pItem) marker = true /\
    t ∈ fg_OnDemand pItem /\
    v ∈ PriceDimensions t.2 /\
    ParseFloat (PricePerUnit_USD v.2) = Some price /\
    PrimFloat.eqb price 0%float = false.

(** No instance type of the table is left without a zone. *)
Definition zones_nonempty (prices : SpotPriceList) : Prop :=
  forall instanceType zones, prices !! instanceType = Some zones -> zones <> ∅.

End LiveRecords.

(** ** [UpdatePricing]: three goroutines and the caller *)

(** [UpdatePricing] starts one goroutine per category and then goes on
    to read [errs]; the source has no [wg.Wait()] between the two. The
    goroutines and the caller are interleaved by the Go scheduler: a
    schedule is the list of who moves next. A goroutine's move is its
    whole body (the refresh, the append to [errs], the deferred
    [wg.Done()]); a caller's move is its next statement group. *)
Inductive category : Type :=
| catOnDemand
| catSpot
| catFargate.

Inductive mover : Type :=
| Caller
| Goroutine (k : category).

Record UpdatePricing_state : Type := mkState {
  st_repo : Repository;
  st_clock : Time;
  st_errs : list error;
  st_wg : Z;
  st_started : list category;
  st_finished : list category;
  st_pc : nat;
  st_result : option (option error);
  st_panic : option string
}.

Definition category_eqb (a b : category) : bool :=
  match a, b with
  | catOnDemand, catOnDemand | catSpot, catSpot | catFargate, catFargate => true
  | _, _ => false
  end.

Definition has (k : category) (l : list category) : bool :=
  existsb (category_eqb k) l.

Definition UpdatePricing_init (pr : Repository) (clock : Time) : UpdatePricing_state :=
  {| st_repo := pr; st_clock := clock; st_errs := []; st_wg := 0%Z;
     st_started := []; st_finished := []; st_pc := 0;
     st_result := None; st_panic := None |}.

Definition refresh (k : category) : Context -> Time -> Repository -> outcome (Repository * option error) :=
  match k with
  | catOnDemand => UpdateOnDemandPricing
  | catSpot => UpdateSpotPricing
  | catFargate => UpdateFargatePricing
  end.

(** [wg.Add(1); go func() {...}()] for category [k]. *)
Definition spawn (k : category) (s : UpdatePricing_state) : UpdatePricing_state :=
  {| st_repo := st_repo s; st_clock := st_clock s; st_errs := st_errs s;
     st_wg := (st_wg s + 1)%Z;
     st_started := k :: st_started s; st_finished := st_finished s;
     st_pc := S (st_pc s);
     st_result := st_result s; st_panic := st_panic s |}.

(** The caller: three spawns, then
    [if len(errs) != 0 { return multierr.Combine(errs...) }; return nil]. *)
Definition caller_step (s : UpdatePricing_state) : option UpdatePricing_state :=
  match st_pc s with
  | 0 => Some (spawn catOnDemand s)
  | 1 => Some (spawn catSpot s)
  | 2 => Some (spawn catFargate s)
  | 3 =>
      Some {| st_repo := st_repo s; st_clock := st_clock s; st_errs := st_errs s;
              st_wg := st_wg s;
              st_started := st_started s; st_finished := st_finished s;
              st_pc := 4;
              st_result := Some (match st_errs s with
                                 | [] => None
                                 | _ => multierr_Combine (st_errs s)
                                 end);
              st_panic := st_panic s |}
  | _ => None
  end.

(** The goroutine of category [k]; the clock moves on while it runs. *)
Definition goroutine_step (c : Context) (k : category) (s : UpdatePricing_state)
  : option UpdatePricing_state :=
  if has k (st_started s) && negb (has k (st_finished s)) then
    match refresh k c (st_clock s + 1)%Z (st_repo s) with
    | Panics msg =>
        Some {| st_repo := st_repo s; st_clock := (st_clock s + 1)%Z;
                st_errs := st_errs s; st_wg := (st_wg s - 1)%Z;
                st_started := st_started s; st_finished := k :: st_finished s;
                st_pc := st_pc s; st_result := st_result s;
                st_panic := Some msg |}
    | Returns (pr', err) =>
        Some {| st_repo := pr'; st_clock := (st_clock s + 1)%Z;
                st_errs := match err with
                           | Some e => (st_errs s ++ [e])%list
                           | None => st_errs s
                           end;
                st_wg := (st_wg s - 1)%Z;
                st_started := st_started s; st_finished := k :: st_finished s;
                st_pc := st_pc s; st_result := st_result s;
                st_panic := st_panic s |}
    end
  else None.

(** One move; nobody moves once a goroutine has panicked. *)
Definition step (c : Context) (m : mover) (s : UpdatePricing_state)
  : option UpdatePricing_state :=
  match st_panic s with
  | Some _ => None
  | None =>
      match m with
      | Caller => caller_step s
      | Goroutine k => goroutine_step c k s
      end
  end.

(** A schedule, run from a state; [None] when it asks for a move that is
    not enabled. *)
Fixpoint UpdatePricing_run (c : Context) (schedule : list mover) (s : UpdatePricing_state)
  : option UpdatePricing_state :=
  match schedule with
  | [] => Some s
  | m :: rest =>
      match step c m s with
      | Some s' => UpdatePricing_run c rest s'
      | None => None
      end
  end.

(** The goroutines that the caller has started when it is at [pc]. *)
Definition started_at (pc : nat) : list category :=
  match pc with
  | 0 => []
  | 1 => [catOnDemand]
  | 2 => [catSpot; catOnDemand]
  | _ => [catFargate; catSpot; catOnDemand]
  end.

(** The schedule on which the caller does not move until every goroutine
    has finished, which is what a [wg.Wait()] before the test of [errs]
    would enforce. *)
Definition joined_schedule : list mover :=
  [Caller; Caller; Caller;
   Goroutine catOnDemand; Goroutine catSpot; Goroutine catFargate; Caller].

(** The schedule on which the caller runs to its return first. *)
Definition caller_first_schedule : list mover :=
  [Caller; Caller; Caller; Caller].

(** ** [UpdatePricing], statement by statement *)

(** The same program with every statement a move of its own, and the
    accesses to the shared slice [errs] told apart. A goroutine calls the
    provider, then (on success) runs the locked section of its
    [Update...Pricing], tests the error, reads [errs] for the append,
    writes [errs], and at last runs the deferred [wg.Done()]. The caller
    runs [wg.Add(1)] and [go] three times, tests [len(errs)], and reads
    [errs] again for [multierr.Combine]. Shared variables are read and
    written one move at a time, in the order of the schedule. *)

(** What a provider call brought back for the locked section. *)
Inductive fetched : Type :=
| fetchedOnDemand (pricing : OnDemandPriceList)
| fetchedSpot (pricing : SpotPriceList)
| fetchedFargate (pricing : FargatePrice).

(** The first statement of [Update...Pricing]: the call of the provider. *)
Definition fetch (k : category) (c : Context) (provider : Provider)
  : outcome (fetched * option error) :=
  match k with
  | catOnDemand =>
      match GetOnDemandPricing provider c with
      | Panics msg => Panics msg
      | Returns (pricing, err) => Returns (fetchedOnDemand pricing, err)
      end
  | catSpot =>
      match GetSpotPricing provider c with
      | Panics msg => Panics msg
      | Returns (pricing, err) => Returns (fetchedSpot pricing, err)
      end
  | catFargate =>
      match GetFargatePricing provider c with
      | Panics msg => Panics msg
      | Returns (pricing, err) => Returns (fetchedFargate pricing, err)
      end
  end.

(** The locked section of [Update...Pricing]: the table and [time.Now()]. *)
Definition commit (f : fetched) (now : Time) (pr : Repository) : Repository :=
  match f with
  | fetchedOnDemand pricing =>
      {| pricingProvider := pricingProvider pr;
         onDemandUpdateTime := now;
         onDemandPrices := pricing;
         spotUpdateTime := spotUpdateTime pr;
         spotPrices := spotPrices pr;
         fargateUpdateTime := fargateUpdateTime pr;
         fargatePrice := fargatePrice pr |}
  | fetchedSpot pricing =>
      {| pricingProvider := pricingProvider pr;
         onDemandUpdateTime := onDemandUpdateTime pr;
         onDemandPrices := onDemandPrices pr;
         spotUpdateTime := now;
         spotPrices := pricing;
         fargateUpdateTime := fargateUpdateTime pr;
         fargatePrice := fargatePrice pr |}
  | fetchedFargate pricing =>
      {| pricingProvider := pricingProvider pr;
         onDemandUpdateTime := onDemandUpdateTime pr;
         onDemandPrices := onDemandPrices pr;
         spotUpdateTime := spotUpdateTime pr;
         spotPrices := spotPrices pr;
         fargateUpdateTime := now;
         fargatePrice := pricing |}
  end.

(** Where a goroutine stands. *)
Inductive goroutine_pc : Type :=
| atFetch
| atCommit (f : fetched)
| atTest (err : option error)
| atWrite (snapshot : list error) (e : error)
| atDone
| atUnwind (msg : string)
| atEnd.

(** The three goroutines; [None] for one that is not started. *)
Record goroutines : Type := mkGoroutines {
  g_onDemand : option goroutine_pc;
  g_spot : option goroutine_pc;
  g_fargate : option goroutine_pc
}.

Definition goroutine_of (k : category) (g : goroutines) : option goroutine_pc :=
  match k with
  | catOnDemand => g_onDemand g
  | catSpot => g_spot g
  | catFargate => g_fargate g
  end.

Definition set_goroutine (k : category) (pc : goroutine_pc) (g : goroutines) : goroutines :=
  match k with
  | catOnDemand => mkGoroutines (Some pc) (g_spot g) (g_fargate g)
  | catSpot => mkGoroutines (g_onDemand g) (Some pc) (g_fargate g)
  | catFargate => mkGoroutines (g_onDemand g) (g_spot g) (Some pc)
  end.

Record Interleaving_state : Type := mkInterleaving {
  il_repo : Repository;
  il_clock : Time;
  il_errs : list error;
  il_wg : Z;
  il_goroutines : goroutines;
  il_pc : nat;
  il_result : option (option error);
  il_panic : option string
}.

Definition Interleaving_init (pr : Repository) (clock : Time) : Interleaving_state :=
  mkInterleaving pr clock [] 0%Z (mkGoroutines None None None) 0 None None.

(** The caller: [wg.Add(1)] at 0, 2 and 4, [go] at 1, 3 and 5, the test of
    [len(errs)] at 6, [return multierr.Combine(errs...)] at 7. *)
Definition caller_statement (s : Interleaving_state) : option Interleaving_state :=
  let add := Some (mkInterleaving (il_repo s) (il_clock s) (il_errs s) (il_wg s + 1)%Z
                     (il_goroutines s) (S (il_pc s)) (il_result s) (il_panic s)) in
  let go k := Some (mkInterleaving (il_repo s) (il_clock s) (il_errs s) (il_wg s)
                      (set_goroutine k atFetch (il_goroutines s)) (S (il_pc s))
                      (il_result s) (il_panic s)) in
  match il_pc s with
  | 0 => add
  | 1 => go catOnDemand
  | 2 => add
  | 3 => go catSpot
  | 4 => add
  | 5 => go catFargate
  | 6 =>
      match il_errs s with
      | [] => Some (mkInterleaving (il_repo s) (il_clock s) (il_errs s) (il_wg s)
                      (il_goroutines s) 8 (Some None) (il_panic s))
      | _ => Some (mkInterleaving (il_repo s) (il_clock s) (il_errs s) (il_wg s)
                     (il_goroutines s) 7 (il_result s) (il_panic s))
      end
  | 7 => Some (mkInterleaving (il_repo s) (il_clock s) (il_errs s) (il_wg s)
                 (il_goroutines s) 8 (Some (multierr_Combine (il_errs s))) (il_panic s))
  | _ => None
  end.

(** The next statement of the goroutine of category [k]. The clock moves
    on during the provider call; the locked section reads it. *)
Definition goroutine_statement (c : Context) (k : category) (s : Interleaving_state)
  : option Interleaving_state :=
  let at_ pc := set_goroutine k pc (il_goroutines s) in
  match goroutine_of k (il_goroutines s) with
  | Some atFetch =>
      let next :=
        match fetch k c (pricingProvider (il_repo s)) with
        | Panics msg => atUnwind msg
        | Returns (_, Some err) => atTest (Some err)
        | Returns (f, None) => atCommit f
        end in
      Some (mkInterleaving (il_repo s) (il_clock s + 1)%Z (il_errs s) (il_wg s)
              (at_ next) (il_pc s) (il_result s) (il_panic s))
  | Some (atCommit f) =>
      Some (mkInterleaving (commit f (il_clock s) (il_repo s)) (il_clock s) (il_errs s)
              (il_wg s) (at_ (atTest None)) (il_pc s) (il_result s) (il_panic s))
  | Some (atTest None) =>
      Some (mkInterleaving (il_repo s) (il_clock s) (il_errs s) (il_wg s)
              (at_ atDone) (il_pc s) (il_result s) (il_panic s))
  | Some (atTest (Some e)) =>
      Some (mkInterleaving (il_repo s) (il_clock s) (il_errs s) (il_wg s)
              (at_ (atWrite (il_errs s) e)) (il_pc s) (il_result s) (il_panic s))
  | Some (atWrite snapshot e) =>
      Some (mkInterleaving (il_repo s) (il_clock s) (snapshot ++ [e])%list (il_wg s)
              (at_ atDone) (il_pc s) (il_result s) (il_panic s))
  | Some atDone =>
      Some (mkInterleaving (il_repo s) (il_clock s) (il_errs s) (il_wg s - 1)%Z
              (at_ atEnd) (il_pc s) (il_result s) (il_panic s))
  | Some (atUnwind msg) =>
      Some (mkInterleaving (il_repo s) (il_clock s) (il_errs s) (il_wg s - 1)%Z
              (at_ atEnd) (il_pc s) (il_result s) (Some msg))
  | Some atEnd | None => None
  end.

(** One statement; nobody moves once a panic has left its goroutine. *)
Definition statement (c : Context) (m : mover) (s : Interleaving_state)
  : option Interleaving_state :=
  match il_panic s with
  | Some _ => None
  | None =>
      match m with
      | Caller => caller_statement s
      | Goroutine k => goroutine_statement c k s
      end
  end.

Fixpoint UpdatePricing_interleave (c : Context) (schedule : list mover)
  (s : Interleaving_state) : option Interleaving_state :=
  match schedule with
  | [] => Some s
  | m :: rest =>
      match statement c m s with
      | Some s' => UpdatePricing_interleave c rest s'
      | None => None
      end
  end.

(** The number of [wg.Add(1)] that the caller has run when it is at [pc],
    and the number of [wg.Done()] that the goroutines have run. *)
Definition adds_at (pc : nat) : Z :=
  match pc with
  | 0 => 0
  | 1 | 2 => 1
  | 3 | 4 => 2
  | _ => 3
  end.

Definition ended (pc : option goroutine_pc) : bool :=
  match pc with
  | Some atEnd => true
  | _ => false
  end.

Definition dones (g : goroutines) : Z :=
  (Z.b2z (ended (g_onDemand g)) + Z.b2z (ended (g_spot g)) + Z.b2z (ended (g_fargate g)))%Z.

(** What every statement keeps, for the repository [pr] that
    [UpdatePricing] was called on. *)
Definition Interleaving_invariant (pr : Repository) (s : Interleaving_state) : Prop :=
  il_pc s <= 8 /\
  (il_pc s < 2 -> g_onDemand (il_goroutines s) = None) /\
  (il_pc s < 4 -> g_spot (il_goroutines s) = None) /\
  (il_pc s < 6 -> g_fargate (il_goroutines s) = None) /\
  il_wg s = (adds_at (il_pc s) - dones (il_goroutines s))%Z /\
  pricingProvider (il_repo s) = pricingProvider pr /\
  (il_result s = None <-> il_pc s < 8).

(** A state of the coarser model above as a state of this one: a
    goroutine that has not moved stands before its provider call, one that
    has moved has ended. *)
Definition embed_goroutine (s : UpdatePricing_state) (k : category) : option goroutine_pc :=
  if has k (st_finished s) then Some atEnd
  else if has k (st_started s) then Some atFetch
  else None.

Definition embed (s : UpdatePricing_state) : Interleaving_state :=
  {| il_repo := st_repo s;
     il_clock := st_clock s;
     il_errs := st_errs s;
     il_wg := st_wg s;
     il_goroutines := mkGoroutines (embed_goroutine s catOnDemand)
                                   (embed_goroutine s catSpot)
                                   (embed_goroutine s catFargate);
     il_pc := match st_pc s with 0 => 0 | 1 => 2 | 2 => 4 | 3 => 6 | _ => 8 end;
     il_result := st_result s;
     il_panic := st_panic s |}.

(** The states of the coarser model that its schedules reach: the caller
    has started the goroutines of its [pc], and only started goroutines
    have finished. *)
Definition well_started (s : UpdatePricing_state) : Prop :=
  st_pc s <= 4 /\
  st_started s = started_at (st_pc s) /\
  forall k, has k (st_finished s) = true -> has k (st_started s) = true.

(** The statements that one move of the coarser model stands for: the
    caller's [wg.Add(1)] and [go], or its test of [len(errs)] and, when
    the slice is not empty, its [multierr.Combine]; the statements of a
    goroutine from its provider call to its [wg.Done()], run without
    another mover in between. *)
Definition statements_of (c : Context) (m : mover) (s : UpdatePricing_state) : list mover :=
  match m with
  | Caller =>
      match st_pc s, st_errs s with
      | 3, [] => [Caller]
      | _, _ => [Caller; Caller]
      end
  | Goroutine k =>
      match refresh k c (st_clock s + 1)%Z (st_repo s) with
      | Panics _ => [Goroutine k; Goroutine k]
      | Returns _ => [Goroutine k; Goroutine k; Goroutine k; Goroutine k]
      end
  end.

(** The schedule of statements that a schedule of the coarser model
    stands for, from the state [s]. *)
Fixpoint UpdatePricing_refine (c : Context) (schedule : list mover) (s : UpdatePricing_state)
  : list mover :=
  match schedule with
  | [] => []
  | m :: rest =>
      match step c m s with
      | Some s' => (statements_of c m s ++ UpdatePricing_refine c rest s')%list
      | None => []
      end
  end.

End pricing.

(** * Package [model]: the node *)

Module model.

Import pricing.

Inductive NodeCapacityType : Type :=
| NodeUnknownCapacityType
| NodeOnDemand
| NodeSpot
| NodeFargate.

Definition NodeCapacityType_String (nct : NodeCapacityType) : string :=
  match nct with
  | NodeUnknownCapacityType => ""
  | NodeOnDemand => "on-demand"
  | NodeSpot => "spot"
  | NodeFargate => "fargate"
  end.

(** Well-known label keys of [k8s.io/api/core/v1]. *)
Definition LabelInstanceTypeStable : string := "node.kubernetes.io/instance-type".
Definition LabelTopologyZone : string := "topology.kubernetes.io/zone".
Definition LabelTopologyRegion : string := "topology.kubernetes.io/region".

Section Node.

(** [Pod] and its method [FargateCapacityProvisioned] are declared in a
    file of the package that is not part of the sources at hand; so is the
    rendering of [fmt.Sprintf("%gvCPU-%gGB", cpu, mem)]. *)
Variable Pod : Type.
Variable FargateCapacityProvisioned : Pod -> float * float * bool.
Variable Sprintf_shape : float -> float -> string.

(** [type objectKey struct { namespace, name string }]. *)
Definition objectKey : Type := (string * string)%type.

(** [type Node struct], the fields that classification and pricing read:
    [node.Labels], [pods] and [Price]. *)
Record Node : Type := mkNode {
  Labels : gmap string string;
  pods : gmap objectKey Pod;
  Price : float
}.

(** [n.node.Labels[key]]: the empty string for a missing key. *)
Definition label (n : Node) (key : string) : string :=
  default "" (Labels n !! key).

Definition IsOnDemand (n : Node) : bool :=
  String.eqb (label n "karpenter.sh/capacity-type") "on-demand"
  || String.eqb (label n "eks.amazonaws.com/capacityType") "ON_DEMAND".

Definition IsSpot (n : Node) : bool :=
  String.eqb (label n "karpenter.sh/capacity-type") "spot"
  || String.eqb (label n "eks.amazonaws.com/capacityType") "SPOT".

Definition IsFargate (n : Node) : bool :=
  String.eqb (label n "eks.amazonaws.com/compute-type") "fargate".

Definition CapacityType (n : Node) : NodeCapacityType :=
  if IsOnDemand n then NodeOnDemand
  else if IsSpot n then NodeSpot
  else if IsFargate n then NodeFargate
  else NodeUnknownCapacityType.

(** [Pods]: the values of the map, in the order the range yields them. *)
Definition Pods (n : Node) : list Pod := (map_to_list (pods n)).*2.

Definition InstanceType (n : Node) : string :=
  if IsFargate n then
    match Pods n with
    | [p] =>
        let '(cpu, mem, ok) := FargateCapacityProvisioned p in
        if ok then Sprintf_shape cpu mem else "Fargate"
    | _ => "Fargate"
    end
  else label n LabelInstanceTypeStable.

Definition Zone (n : Node) : string := label n LabelTopologyZone.

Definition Region (n : Node) : string := label n LabelTopologyRegion.

Definition setPrice (n : Node) (price : float) : Node :=
  {| Labels := Labels n; pods := pods n; Price := price |}.

(** [HasPrice]: [n.Price == n.Price]. *)
Definition HasPrice (n : Node) : bool := PrimFloat.eqb (Price n) (Price n).

(** [UpdatePrice]; [n.Pods()[0]] is only reached when [len(n.Pods()) == 1]. *)
Definition UpdatePrice (pricingRepository : Repository) (n : Node) : Node :=
  let n := setPrice n nan in
  if IsOnDemand n then
    match OnDemandPrice pricingRepository (InstanceType n) with
    | (price, true) => setPrice n price
    | (_, false) => n
    end
  else if IsSpot n then
    match SpotPrice pricingRepository (InstanceType n) (Zone n) with
    | (price, true) => setPrice n price
    | (_, false) => n
    end
  else if IsFargate n && Nat.eqb (length (Pods n)) 1 then
    match Pods n with
    | p :: _ =>
        let '(cpu, mem, ok) := FargateCapacityProvisioned p in
        if ok then
          match Repository_FargatePrice pricingRepository cpu mem with
          | (price, true) => setPrice n price
          | (_, false) => n
          end
        else n
    | [] => n
    end
  else n.

End Node.

Arguments Labels {Pod} n.
Arguments pods {Pod} n.
Arguments Price {Pod} n.
Arguments label {Pod} n key.
Arguments IsOnDemand {Pod} n.
Arguments IsSpot {Pod} n.
Arguments IsFargate {Pod} n.
Arguments CapacityType {Pod} n.
Arguments Pods {Pod} n.
Arguments Zone {Pod} n.
Arguments Region {Pod} n.
Arguments setPrice {Pod} n price.
Arguments HasPrice {Pod} n.
Arguments InstanceType {Pod} FargateCapacityProvisioned Sprintf_shape n.
Arguments UpdatePrice {Pod} FargateCapacityProvisioned Sprintf_shape pricingRepository n.

(** ** Pods bound to a node *)

Section Accounting.

(** [Pod] with its methods [Namespace], [Name] and [Requested], and the
    [resource.Quantity] of [k8s.io/apimachinery] with its zero value and
    its [Add] and [Sub], are declared outside the files at hand. A
    [v1.ResourceList] is a [map[ResourceName]Quantity]. *)
Variable Pod : Type.
Variable Namespace Name : Pod -> string.
Variable Quantity : Type.
Variable Quantity_zero : Quantity.
Variable Quantity_Add Quantity_Sub : Quantity -> Quantity -> Quantity.
Variable Requested : Pod -> gmap string Quantity.

(** [used[rn]]: the zero quantity for a missing resource name. *)
Definition quantity (used : gmap string Quantity) (rn : string) : Quantity :=
  default Quantity_zero (used !! rn).

(** [for rn, q := range requests { existing := used[rn]; existing.Add(q);
    used[rn] = existing }], and the same with [Sub]. *)
Definition account (op : Quantity -> Quantity -> Quantity)
  (used : gmap string Quantity) (requests : list (string * Quantity)) : gmap string Quantity :=
  foldl (fun used rq => <[rq.1 := op (quantity used rq.1) rq.2]> used) used requests.

(** The field [used] of the node is kept beside the record [Node], which
    holds the fields that pricing reads. *)
Definition BindPod (n : Node Pod) (used : gmap string Quantity) (pod : Pod)
  : Node Pod * gmap string Quantity :=
  let key := (Namespace pod, Name pod) in
  let alreadyBound := match pods n !! key with Some _ => true | None => false end in
  let n' := {| Labels := Labels n; pods := <[key := pod]> (pods n); Price := Price n |} in
  if alreadyBound then (n', used)
  else (n', account Quantity_Add used (map_to_list (Requested pod))).

Definition DeletePod (n : Node Pod) (used : gmap string Quantity) (namespace name : string)
  : Node Pod * gmap string Quantity :=
  let key := (namespace, name) in
  match pods n !! key with
  | Some p =>
      ({| Labels := Labels n; pods := delete key (pods n); Price := Price n |},
       account Quantity_Sub used (map_to_list (Requested p)))
  | None => (n, used)
  end.

Definition NumPods (n : Node Pod) : nat := size (pods n).

End Accounting.

Arguments quantity {Quantity} Quantity_zero used rn.
Arguments account {Quantity} Quantity_zero op used requests.
Arguments BindPod {Pod} Namespace Name {Quantity} Quantity_zero Quantity_Add Requested n used pod.
Arguments DeletePod {Pod Quantity} Quantity_zero Quantity_Sub Requested n used namespace name.
Arguments NumPods {Pod} n.

End model.

(** * Package [k8spaginator] *)

Module k8spaginator.

Section Paginator.

Variable V : Type.

(** [type ListFunc[V]]: a Go function value may answer differently from
    one call to the next, so the answer depends on the number of the call
    as well: [(items, continue token, error)]. *)
Definition ListFunc : Type := nat -> Context -> string -> list V * string * option error.

(** The loop of [Get]. [cont] is the variable declared before the loop;
    the [:=] inside the loop declares one of the same name for the body,
    so the outer one is what every call receives and it is never assigned.
    [fuel] bounds the number of calls; [None] means the loop is still
    running when it is used up. *)
Fixpoint Get_loop (listFunc : ListFunc) (c : Context) (cont : string)
  (fuel call : nat) (result : list V) : option (list V * option error) :=
  match fuel with
  | 0 => None
  | S fuel' =>
      let '(items, cont', err) := listFunc call c cont in
      match err with
      | Some e => Some (result, Some e)
      | None =>
          let result := (result ++ items)%list in
          if String.eqb cont' "" then Some (result, None)
          else Get_loop listFunc c cont fuel' (S call) result
      end
  end.

Definition Get (listFunc : ListFunc) (c : Context) (fuel : nat)
  : option (list V * option error) :=
  Get_loop listFunc c "" fuel 0 [].

End Paginator.

Arguments Get_loop {V} listFunc c cont fuel call result.
Arguments Get {V} listFunc c fuel.

End k8spaginator.

(** * Sample inputs

    Concrete providers, repositories and nodes on which the statements
    below are evaluated. *)

Module samples.

Import pricing model.

Definition background : Context := ctx false.

Definition timeout_error : error := errorString "context deadline exceeded".

(** A provider whose three fetches fail. *)
Definition failingProvider : Provider :=
  {| GetOnDemandPricing := fun _ => Returns (∅, Some timeout_error);
     GetSpotPricing := fun _ => Returns (∅, Some timeout_error);
     GetFargatePricing := fun _ => Returns (FargatePrice_zero, Some timeout_error) |}.

Definition onDemandTable : OnDemandPriceList := {[ "m5.large" := 0.096%float ]}.

Definition spotTable : SpotPriceList :=
  {[ "m5.large" := {[ "us-east-1a" := 0.03%float ]} ]}.

Definition fargateRates : FargatePrice := mkFargatePrice 0.04048%float 0.004445%float.

(** A repository that was filled at times 10, 20 and 30. *)
Definition filled (provider : Provider) : Repository :=
  {| pricingProvider := provider;
     onDemandUpdateTime := 10%Z; onDemandPrices := onDemandTable;
     spotUpdateTime := 20%Z; spotPrices := spotTable;
     fargateUpdateTime := 30%Z; fargatePrice := fargateRates |}.

(** A provider whose spot fetch fails while the other two succeed. *)
Definition spotFailingProvider : Provider :=
  {| GetOnDemandPricing := fun _ => Returns (onDemandTable, None);
     GetSpotPricing := fun _ => Returns (∅, Some timeout_error);
     GetFargatePricing := fun _ => Returns (fargateRates, None) |}.

(** Pods that carry the answer of [FargateCapacityProvisioned]. *)
Definition Pod : Type := (float * float * bool)%type.

Definition FargateCapacityProvisioned (p : Pod) : float * float * bool := p.

Definition Sprintf_shape (cpu mem : float) : string := "vCPU-GB".

Definition node (labels : list (string * string)) (ps : list (objectKey * Pod)) : Node Pod :=
  {| Labels := list_to_map labels; pods := list_to_map ps; Price := 0%float |}.

(** Both labelling schemes on one node, in conflict. *)
Definition conflictingNode : Node Pod :=
  node [("karpenter.sh/capacity-type", "on-demand");
        ("eks.amazonaws.com/capacityType", "SPOT")] [].

Definition unlabelledNode : Node Pod :=
  node [(LabelInstanceTypeStable, "m5.large")] [].

(** A Fargate node that hosts two pods with a provisioned shape. *)
Definition crowdedFargateNode : Node Pod :=
  node [("eks.amazonaws.com/compute-type", "fargate")]
       [(("default", "a"), (0.5%float, 1%float, true));
        (("default", "b"), (0.25%float, 0.5%float, true))].

(** The serverless lookup on the rates and the shape of the example in
    the specification. *)
Definition example_price : float * bool :=
  Repository_FargatePrice (filled failingProvider) 0.5%float 1%float.

(** [strconv.ParseFloat] on the price strings of the samples; every other
    string stands for one that it rejects. *)
Definition ParseFloat (s : string) : option float :=
  if String.eqb s "0.03" then Some 0.03%float
  else if String.eqb s "0.031" then Some 0.031%float
  else if String.eqb s "0.05" then Some 0.05%float
  else if String.eqb s "0.0000000000" then Some 0%float
  else if String.eqb s "0.04048" then Some 0.04048%float
  else if String.eqb s "0.004445" then Some 0.004445%float
  else if String.eqb s "0.096" then Some 0.096%float
  else if String.eqb s "4.608" then Some 4.608%float
  else None.

(** A spot feed of two pages: a good record, one whose price does not
    parse, one without a timestamp, and on the second page a later record
    for the key of the first. *)
Definition spotFirst : ec2_SpotPrice :=
  mkSpotPrice (Some "us-east-1a") "m5.large" (Some "0.03") (Some 100%Z).

Definition spotGarbled : ec2_SpotPrice :=
  mkSpotPrice (Some "us-east-1a") "m5.large" (Some "n/a") (Some 100%Z).

Definition spotUndated : ec2_SpotPrice :=
  mkSpotPrice (Some "us-east-1a") "m5.large" (Some "0.05") None.

Definition spotLater : ec2_SpotPrice :=
  mkSpotPrice (Some "us-east-1a") "m5.large" (Some "0.031") (Some 101%Z).

Definition spotFeed : list DescribeSpotPriceHistoryOutput :=
  [ mkDescribeSpotPriceHistoryOutput [spotFirst; spotGarbled; spotUndated];
    mkDescribeSpotPriceHistoryOutput [spotLater] ].

Definition spotFeedCleaned : list DescribeSpotPriceHistoryOutput :=
  [ mkDescribeSpotPriceHistoryOutput [spotFirst; spotUndated];
    mkDescribeSpotPriceHistoryOutput [spotLater] ].

Definition noProducts : GetProductsAPIClient :=
  fun _ _ => [inr (mkGetProductsOutput [])].

(** The price list entries of the samples are named, not spelled out as
    JSON documents; the two decoders give the projection that
    [json.Unmarshal] reads off each, and a decoding error for any other
    entry. *)
Definition oneDimension (usd : string) : list (string * term) :=
  [("JRTCKXETXF", mkTerm [("6YS6EN2CT7", mkPriceDimension usd)])].

Definition syntax_error : error := errorString "unexpected end of JSON input".

Definition Unmarshal_onDemand (outer : string) : error + onDemandPriceItem :=
  if String.eqb outer "m5.large" then inr (mkOnDemandPriceItem "m5.large" (oneDimension "0.096"))
  else if String.eqb outer "m5.metal" then inr (mkOnDemandPriceItem "m5.metal" (oneDimension "4.608"))
  else inl syntax_error.

Definition Unmarshal_fargate (outer : string) : error + fargatePriceItem :=
  if String.eqb outer "fargate-vcpu"
  then inr (mkFargatePriceItem "USE1-Fargate-vCPU-Hours:perCPU" (oneDimension "0.04048"))
  else if String.eqb outer "fargate-gb"
  then inr (mkFargatePriceItem "USE1-Fargate-GB-Hours" (oneDimension "0.004445"))
  else if String.eqb outer "fargate-seconds"
  then inr (mkFargatePriceItem "USE1-Fargate-Seconds" (oneDimension "0.05"))
  else if String.eqb outer "fargate-seconds-free"
  then inr (mkFargatePriceItem "USE1-Fargate-Seconds" (oneDimension "0.0000000000"))
  else if String.eqb outer "cluster-hours"
  then inr (mkFargatePriceItem "USE1-AmazonEKS-Hours:perCluster" (oneDimension "0.05"))
  else inl syntax_error.

(** A catalog: the pages it serves for the shared-tenancy query, for the
    bare-metal query and for the Fargate query. *)
Definition catalog (shared metal eks : list (error + GetProductsOutput)) : GetProductsAPIClient :=
  fun _ input =>
    if String.eqb (ServiceCode input) "AmazonEKS" then eks
    else if existsb (fun f => String.eqb (Value f) "Shared") (Filters input) then shared
    else metal.

Definition page (entries : list string) : error + GetProductsOutput :=
  inr (mkGetProductsOutput entries).

Definition catalogProvider (shared metal eks : list (error + GetProductsOutput)) : AWSProvider :=
  {| pricing.Region := "us-east-1";
     EC2Client := fun _ _ => inr <$> spotFeed;
     PricingClient := catalog shared metal eks |}.

(** A catalog without bare-metal instances and without Fargate rates. *)
Definition sparseCatalog : AWSProvider :=
  catalogProvider [page ["m5.large"]] [page []] [page ["cluster-hours"]].

(** A catalog with a Fargate record in a unit that the parser does not
    know, after the two records it knows. *)
Definition driftedCatalog : AWSProvider :=
  catalogProvider [page ["m5.large"]] [page ["m5.metal"]]
                  [page ["fargate-vcpu"; "fargate-gb"; "fargate-seconds"]].

(** The same, with a zero price on the unknown unit. *)
Definition driftedFreeCatalog : AWSProvider :=
  catalogProvider [page ["m5.large"]] [page ["m5.metal"]]
                  [page ["fargate-vcpu"; "fargate-seconds-free"; "fargate-gb"]].

(** A spot feed in which no record can be used. *)
Definition spotFeedUnusable : list DescribeSpotPriceHistoryOutput :=
  [ mkDescribeSpotPriceHistoryOutput [spotGarbled; spotUndated] ].

Definition plainCatalog : AWSProvider :=
  catalogProvider [page ["m5.large"]] [page ["m5.metal"]]
                  [page ["fargate-vcpu"; "fargate-gb"]].

Definition spotProvider (feed : list DescribeSpotPriceHistoryOutput) : AWSProvider :=
  {| pricing.Region := "us-east-1";
     EC2Client := fun _ _ => inr <$> feed;
     PricingClient := noProducts |}.

(** A second decoder for on-demand entries: two entries for one instance
    type, an entry without instance type and an entry with a zero price. *)
Definition Unmarshal_onDemand_more (outer : string) : error + onDemandPriceItem :=
  if String.eqb outer "m5.large/shared"
  then inr (mkOnDemandPriceItem "m5.large" (oneDimension "0.096"))
  else if String.eqb outer "m5.large/dedicated"
  then inr (mkOnDemandPriceItem "m5.large" (oneDimension "4.608"))
  else if String.eqb outer "c5.large/shared"
  then inr (mkOnDemandPriceItem "c5.large" (oneDimension "0.05"))
  else if String.eqb outer "untyped"
  then inr (mkOnDemandPriceItem "" (oneDimension "0.05"))
  else if String.eqb outer "t2.free"
  then inr (mkOnDemandPriceItem "t2.free" (oneDimension "0.0000000000"))
  else inl syntax_error.

(** A catalog in which both on-demand queries price m5.large. *)
Definition overlappingCatalog : AWSProvider :=
  catalogProvider [page ["m5.large/shared"; "c5.large/shared"]] [page ["m5.large/dedicated"]]
                  [page []].

(** A catalog whose shared-tenancy query loses its second page, and one
    whose shared-tenancy query holds an entry that does not decode. *)
Definition interruptedCatalog : AWSProvider :=
  catalogProvider [page ["m5.large"]; inl timeout_error] [page ["m5.metal"]] [page []].

Definition garbledCatalog : AWSProvider :=
  catalogProvider [page ["m5.large"; "<html>"]] [page ["m5.metal"]] [page ["<html>"]].

(** A spot feed whose second page fails. *)
Definition interruptedSpotProvider : AWSProvider :=
  {| pricing.Region := "us-east-1";
     EC2Client := fun _ _ =>
       [ inr (mkDescribeSpotPriceHistoryOutput [spotFirst]);
         inl timeout_error;
         inr (mkDescribeSpotPriceHistoryOutput [spotLater]) ];
     PricingClient := noProducts |}.

(** A catalog whose Fargate query loses its second page. *)
Definition interruptedFargateCatalog : AWSProvider :=
  catalogProvider [page ["m5.large"]] [page ["m5.metal"]]
                  [page ["fargate-vcpu"]; inl timeout_error; page ["fargate-gb"]].

(** Pods for the accounting of requests: namespace, name and requested
    quantities, the quantities being whole numbers of milli-units. *)
Definition boundPod : Type := (string * string * list (string * Z))%type.

Definition Namespace (p : boundPod) : string := p.1.1.

Definition Name (p : boundPod) : string := p.1.2.

Definition Requested (p : boundPod) : gmap string Z := list_to_map p.2.

Definition webPod : boundPod := ("default", "web", [("cpu", 250%Z); ("memory", 512%Z)]).

(** The same pod after its requests were raised. *)
Definition webPodGrown : boundPod := ("default", "web", [("cpu", 500%Z); ("memory", 512%Z)]).

Definition emptyNode : Node boundPod :=
  {| Labels := ∅; pods := ∅; Price := 0%float |}.

(** A Fargate node with one pod of shape (0.5, 1.0), and a spot node. *)
Definition fargateNode : Node Pod :=
  node [("eks.amazonaws.com/compute-type", "fargate")]
       [(("default", "a"), (0.5%float, 1%float, true))].

Definition spotNode : Node Pod :=
  node [("eks.amazonaws.com/capacityType", "SPOT");
        (LabelInstanceTypeStable, "m5.large");
        (LabelTopologyZone, "us-east-1a")] [].

Definition spotNodeElsewhere : Node Pod :=
  node [("eks.amazonaws.com/capacityType", "SPOT");
        (LabelInstanceTypeStable, "m5.large");
        (LabelTopologyZone, "us-east-1b")] [].

(** A list function that pages by token, as a Kubernetes list call does:
    two pages, the second one reached with the token of the first. *)
Definition twoPages : k8spaginator.ListFunc nat :=
  fun _ _ cont =>
    if String.eqb cont "" then ([1; 2], "page-2", None)
    else if String.eqb cont "page-2" then ([3], "", None)
    else ([], "", Some (errorString "invalid continue token")).

(** A list function that keeps its own cursor: it answers by the number
    of the call, whatever the token; the third call fails. *)
Definition ownCursor : k8spaginator.ListFunc nat :=
  fun call _ _ =>
    match call with
    | 0 => ([1; 2], "more", None)
    | 1 => ([3], "more", None)
    | _ => ([4], "", Some timeout_error)
    end.

End samples.

(** * Properties *)

Import pricing model.

(** ** The model on the sample inputs *)

Example OnDemandPrice_known :
  OnDemandPrice (samples.filled samples.failingProvider) "m5.large" = (0.096%float, true).
Proof. reflexivity. Qed.

Example OnDemandPrice_missing :
  OnDemandPrice (samples.filled samples.failingProvider) "m5.xlarge" = (0%float, false).
Proof. reflexivity. Qed.

Example SpotPrice_other_zone :
  SpotPrice (samples.filled samples.failingProvider) "m5.large" "us-east-1b" = (0%float, false).
Proof. reflexivity. Qed.

Example GetOnDemandPricing_merges :
  AWSProvider_GetOnDemandPricing samples.ParseFloat samples.Unmarshal_onDemand
    samples.plainCatalog samples.background
  = ({[ "m5.large" := 0.096%float; "m5.metal" := 4.608%float ]}, None).
Proof. reflexivity. Qed.

Example GetFargatePricing_both_rates :
  AWSProvider_GetFargatePricing samples.ParseFloat samples.Unmarshal_fargate
    samples.plainCatalog samples.background
  = Returns (samples.fargateRates, None).
Proof. reflexivity. Qed.

Example GetFargatePricing_free_unknown_unit :
  AWSProvider_GetFargatePricing samples.ParseFloat samples.Unmarshal_fargate
    samples.driftedFreeCatalog samples.background
  = Returns (samples.fargateRates, None).
Proof. reflexivity. Qed.

Example UpdatePrice_on_demand :
  Price (UpdatePrice samples.FargateCapacityProvisioned samples.Sprintf_shape
           (samples.filled samples.failingProvider)
           (samples.node [("karpenter.sh/capacity-type", "on-demand");
                          (LabelInstanceTypeStable, "m5.large")] []))
  = 0.096%float.
Proof. reflexivity. Qed.

(** ** The repository: one category at a time *)

(** C2. A per-category refresh whose provider fetch returns an error
    returns that very error and hands back the repository it was given:
    the table and the timestamp of the failing category and those of the
    other two categories are the ones from before the attempt. *)
Theorem refresh_error_leaves_repository_unchanged
  (c : Context) (now : Time) (pr : Repository) (err : error) :
  (forall pricing, GetOnDemandPricing (pricingProvider pr) c = Returns (pricing, Some err) ->
     UpdateOnDemandPricing c now pr = Returns (pr, Some err)) /\
  (forall pricing, GetSpotPricing (pricingProvider pr) c = Returns (pricing, Some err) ->
     UpdateSpotPricing c now pr = Returns (pr, Some err)) /\
  (forall pricing, GetFargatePricing (pricingProvider pr) c = Returns (pricing, Some err) ->
     UpdateFargatePricing c now pr = Returns (pr, Some err)).
Proof.
  repeat split; intros pricing Hfetch.
  - unfold UpdateOnDemandPricing. now rewrite Hfetch.
  - unfold UpdateSpotPricing. now rewrite Hfetch.
  - unfold UpdateFargatePricing. now rewrite Hfetch.
Qed.

Lemma refresh_error_leaves_repository_unchanged_witness :
  let pr := samples.filled samples.failingProvider in
  UpdateOnDemandPricing samples.background 40%Z pr = Returns (pr, Some samples.timeout_error) /\
  UpdateSpotPricing samples.background 40%Z pr = Returns (pr, Some samples.timeout_error) /\
  UpdateFargatePricing samples.background 40%Z pr = Returns (pr, Some samples.timeout_error).
Proof.
  intros pr.
  destruct (refresh_error_leaves_repository_unchanged
              samples.background 40%Z pr samples.timeout_error) as (Hod & Hspot & Hfg).
  split; [ | split ].
  - apply (Hod ∅). reflexivity.
  - apply (Hspot ∅). reflexivity.
  - apply (Hfg FargatePrice_zero). reflexivity.
Defined.

(** ** Point lookups *)

(** C7, as stated, at the example: the lookup does not return the float
    [0.024685]; the two products and the sum are rounded to binary64, and
    the result is the next float above it. *)
Lemma FargatePrice_example_is_not_exact :
  samples.example_price <> (0.024685%float, true).
Proof.
  intros H.
  assert (Heq : PrimFloat.eqb (fst samples.example_price) 0.024685%float = true)
    by (rewrite H; reflexivity).
  vm_compute in Heq. discriminate Heq.
Qed.

(** C7, amended. [Repository.FargatePrice(cpu, memory)] returns
    [(0, false)] whenever one of the two cached rates equals zero, and
    otherwise [(cpu * VCPUPerHour + memory * GBPerHour, true)], computed in
    binary64; with the rates (0.04048, 0.004445) and the shape (0.5, 1.0)
    that is 0.024685000000000002, less than 1e-17 away from 0.024685. *)
Theorem FargatePrice_lookup (pr : Repository) (cpu memory : float) :
  (PrimFloat.eqb (VCPUPerHour (fargatePrice pr)) 0%float = true \/
   PrimFloat.eqb (GBPerHour (fargatePrice pr)) 0%float = true ->
   Repository_FargatePrice pr cpu memory = (0%float, false)) /\
  (PrimFloat.eqb (VCPUPerHour (fargatePrice pr)) 0%float = false ->
   PrimFloat.eqb (GBPerHour (fargatePrice pr)) 0%float = false ->
   Repository_FargatePrice pr cpu memory =
     ((cpu * VCPUPerHour (fargatePrice pr) + memory * GBPerHour (fargatePrice pr))%float, true)) /\
  (fargatePrice pr = mkFargatePrice 0.04048%float 0.004445%float ->
   Repository_FargatePrice pr 0.5%float 1%float = (0.024685000000000002%float, true) /\
   PrimFloat.ltb (abs (fst (Repository_FargatePrice pr 0.5%float 1%float) - 0.024685)%float)
                 1e-17%float = true).
Proof.
  unfold Repository_FargatePrice. split; [ | split ].
  - intros [Hv | Hg].
    + rewrite Hv. now rewrite orb_true_r.
    + now rewrite Hg.
  - intros Hv Hg. now rewrite Hv, Hg.
  - intros Hrates. rewrite Hrates. split; reflexivity.
Qed.

Lemma FargatePrice_lookup_witness :
  Repository_FargatePrice (NewRepository samples.failingProvider) 2%float 4%float = (0%float, false) /\
  Repository_FargatePrice (samples.filled samples.failingProvider) 2%float 4%float =
    ((2 * 0.04048 + 4 * 0.004445)%float, true) /\
  samples.example_price = (0.024685000000000002%float, true).
Proof.
  split; [ | split ].
  - apply (FargatePrice_lookup (NewRepository samples.failingProvider) 2%float 4%float).
    left. reflexivity.
  - apply (FargatePrice_lookup (samples.filled samples.failingProvider) 2%float 4%float);
      reflexivity.
  - apply (FargatePrice_lookup (samples.filled samples.failingProvider) 0%float 0%float).
    reflexivity.
Defined.

(** ** Node classification and price resolution *)

Section NodeProperties.

Context {Pod : Type}.
Variable FargateCapacityProvisioned : Pod -> float * float * bool.
Variable Sprintf_shape : float -> float -> string.

Lemma label_lookup (n : Node Pod) (key value : string) :
  Labels n !! key = Some value -> label n key = value.
Proof. unfold label. now intros ->. Qed.

Lemma label_differs (n : Node Pod) (key value : string) :
  value <> "" -> Labels n !! key <> Some value -> String.eqb (label n key) value = false.
Proof.
  intros Hvalue Hlabel. apply String.eqb_neq. unfold label.
  destruct (Labels n !! key) as [found | ]; cbn; congruence.
Qed.

(** C5. Classification tests the on-demand indicators first, then the
    spot indicators, then the compute-type label. A node whose labels
    carry an on-demand indicator of either labelling scheme
    ([karpenter.sh/capacity-type=on-demand] or
    [eks.amazonaws.com/capacityType=ON_DEMAND]) is [NodeOnDemand] whatever
    its other labels are, a spot indicator of the other scheme included. A
    node without on-demand indicator whose labels carry a spot indicator
    ([karpenter.sh/capacity-type=spot] or
    [eks.amazonaws.com/capacityType=SPOT]) is [NodeSpot]. A node with
    neither, labelled [eks.amazonaws.com/compute-type=fargate], is
    [NodeFargate]. A node whose labels match none of the five indicators
    is unknown. *)
Theorem CapacityType_precedence (n : Node Pod) :
  (Labels n !! "karpenter.sh/capacity-type" = Some "on-demand" \/
   Labels n !! "eks.amazonaws.com/capacityType" = Some "ON_DEMAND" ->
   CapacityType n = NodeOnDemand) /\
  (Labels n !! "karpenter.sh/capacity-type" <> Some "on-demand" ->
   Labels n !! "eks.amazonaws.com/capacityType" <> Some "ON_DEMAND" ->
   Labels n !! "karpenter.sh/capacity-type" = Some "spot" \/
   Labels n !! "eks.amazonaws.com/capacityType" = Some "SPOT" ->
   CapacityType n = NodeSpot) /\
  (Labels n !! "karpenter.sh/capacity-type" <> Some "on-demand" ->
   Labels n !! "eks.amazonaws.com/capacityType" <> Some "ON_DEMAND" ->
   Labels n !! "karpenter.sh/capacity-type" <> Some "spot" ->
   Labels n !! "eks.amazonaws.com/capacityType" <> Some "SPOT" ->
   Labels n !! "eks.amazonaws.com/compute-type" = Some "fargate" ->
   CapacityType n = NodeFargate) /\
  (Labels n !! "karpenter.sh/capacity-type" <> Some "on-demand" ->
   Labels n !! "eks.amazonaws.com/capacityType" <> Some "ON_DEMAND" ->
   Labels n !! "karpenter.sh/capacity-type" <> Some "spot" ->
   Labels n !! "eks.amazonaws.com/capacityType" <> Some "SPOT" ->
   Labels n !! "eks.amazonaws.com/compute-type" <> Some "fargate" ->
   CapacityType n = NodeUnknownCapacityType).
Proof.
  unfold CapacityType, IsOnDemand, IsSpot, IsFargate. repeat split.
  - intros [H | H]; apply label_lookup in H; rewrite H.
    + reflexivity.
    + now rewrite orb_true_r.
  - intros Hk He Hspot.
    rewrite (label_differs n _ "on-demand") by (discriminate || exact Hk).
    rewrite (label_differs n _ "ON_DEMAND") by (discriminate || exact He).
    destruct Hspot as [H | H]; apply label_lookup in H; rewrite H.
    + reflexivity.
    + now rewrite orb_true_r.
  - intros Hk He Hks Hes Hfargate.
    rewrite (label_differs n _ "on-demand") by (discriminate || exact Hk).
    rewrite (label_differs n _ "ON_DEMAND") by (discriminate || exact He).
    rewrite (label_differs n _ "spot") by (discriminate || exact Hks).
    rewrite (label_differs n _ "SPOT") by (discriminate || exact Hes).
    apply label_lookup in Hfargate. now rewrite Hfargate.
  - intros Hk He Hks Hes Hfargate.
    rewrite (label_differs n _ "on-demand") by (discriminate || exact Hk).
    rewrite (label_differs n _ "ON_DEMAND") by (discriminate || exact He).
    rewrite (label_differs n _ "spot") by (discriminate || exact Hks).
    rewrite (label_differs n _ "SPOT") by (discriminate || exact Hes).
    now rewrite (label_differs n _ "fargate") by (discriminate || exact Hfargate).
Qed.

Lemma CapacityType_unknown (n : Node Pod) :
  CapacityType n = NodeUnknownCapacityType ->
  IsOnDemand n = false /\ IsSpot n = false /\ IsFargate n = false.
Proof.
  unfold CapacityType.
  destruct (IsOnDemand n), (IsSpot n), (IsFargate n); intros H; now try discriminate H.
Qed.

Lemma CapacityType_fargate (n : Node Pod) :
  CapacityType n = NodeFargate ->
  IsOnDemand n = false /\ IsSpot n = false /\ IsFargate n = true.
Proof.
  unfold CapacityType.
  destruct (IsOnDemand n), (IsSpot n), (IsFargate n); intros H; now try discriminate H.
Qed.

(** C6. [UpdatePrice] leaves the price at NaN, for which [HasPrice] is
    false, on every node classified unknown, and on every node classified
    Fargate unless it hosts exactly one pod and that pod has a provisioned
    shape. [UpdatePrice] has no error result: it is a total function to
    the updated node. *)
Theorem UpdatePrice_unknown (pricingRepository : Repository) (n : Node Pod) :
  let n' := UpdatePrice FargateCapacityProvisioned Sprintf_shape pricingRepository n in
  (CapacityType n = NodeUnknownCapacityType ->
   Price n' = nan /\ HasPrice n' = false) /\
  (CapacityType n = NodeFargate ->
   ~ (exists p cpu mem, Pods n = [p] /\ FargateCapacityProvisioned p = (cpu, mem, true)) ->
   Price n' = nan /\ HasPrice n' = false).
Proof.
  cbv zeta. unfold UpdatePrice.
  change (IsOnDemand (setPrice n nan)) with (IsOnDemand n).
  change (IsSpot (setPrice n nan)) with (IsSpot n).
  change (IsFargate (setPrice n nan)) with (IsFargate n).
  change (Pods (setPrice n nan)) with (Pods n).
  split.
  - intros (-> & -> & ->)%CapacityType_unknown. split; reflexivity.
  - intros (-> & -> & ->)%CapacityType_fargate Hshape. cbn [orb andb].
    destruct (Pods n) as [ | p [ | q ps ] ] eqn:Hpods; cbn [length Nat.eqb].
    + split; reflexivity.
    + destruct (FargateCapacityProvisioned p) as [[cpu mem] ok] eqn:Hp.
      destruct ok.
      * exfalso. apply Hshape. now exists p, cpu, mem.
      * split; reflexivity.
    + split; reflexivity.
Qed.

End NodeProperties.

Lemma CapacityType_precedence_witness :
  CapacityType samples.conflictingNode = NodeOnDemand /\
  CapacityType samples.spotNode = NodeSpot /\
  CapacityType samples.fargateNode = NodeFargate /\
  CapacityType samples.unlabelledNode = NodeUnknownCapacityType.
Proof.
  split; [ | split; [ | split ] ].
  - apply (CapacityType_precedence samples.conflictingNode). left. reflexivity.
  - destruct (CapacityType_precedence samples.spotNode) as (_ & Hspot & _).
    apply Hspot; [ vm_compute; discriminate | vm_compute; discriminate | ].
    right. reflexivity.
  - destruct (CapacityType_precedence samples.fargateNode) as (_ & _ & Hfargate & _).
    apply Hfargate; try (vm_compute; discriminate). reflexivity.
  - destruct (CapacityType_precedence samples.unlabelledNode) as (_ & _ & _ & Hunknown).
    apply Hunknown; vm_compute; discriminate.
Defined.

Lemma UpdatePrice_unknown_witness :
  let resolve := UpdatePrice samples.FargateCapacityProvisioned samples.Sprintf_shape
                   (samples.filled samples.failingProvider) in
  HasPrice (resolve samples.unlabelledNode) = false /\
  HasPrice (resolve samples.crowdedFargateNode) = false.
Proof.
  intros resolve. split.
  - destruct (UpdatePrice_unknown samples.FargateCapacityProvisioned samples.Sprintf_shape
                (samples.filled samples.failingProvider) samples.unlabelledNode)
      as [Hunknown _].
    apply Hunknown. reflexivity.
  - destruct (UpdatePrice_unknown samples.FargateCapacityProvisioned samples.Sprintf_shape
                (samples.filled samples.failingProvider) samples.crowdedFargateNode)
      as [_ Hfargate].
    apply Hfargate.
    + reflexivity.
    + intros (p & cpu & mem & Hpods & _). vm_compute in Hpods. discriminate Hpods.
Defined.

(** ** The spot fetch *)

Section SpotFetch.

Variable ParseFloat : string -> option float.

Lemma GetSpotPricing_record_unusable (prices : SpotPriceList) (sph : ec2_SpotPrice) :
  spot_unusable ParseFloat sph -> GetSpotPricing_record ParseFloat prices sph = prices.
Proof.
  unfold GetSpotPricing_record. intros [-> | Hts]; [ reflexivity | ].
  rewrite Hts. now destruct (ParseFloat _).
Qed.

Lemma GetSpotPricing_record_stores prices sph instanceType az price :
  spot_stores ParseFloat sph instanceType az price ->
  spot_entry (GetSpotPricing_record ParseFloat prices sph) instanceType az = Some price.
Proof.
  intros (Hprice & Hts & <- & <-). unfold GetSpotPricing_record, spot_entry.
  rewrite Hprice. destruct (sph_Timestamp sph); [ | congruence ].
  cbv zeta. rewrite lookup_insert_eq. apply lookup_insert_eq.
Qed.

Lemma GetSpotPricing_record_other prices sph instanceType az :
  (forall price, ~ spot_stores ParseFloat sph instanceType az price) ->
  spot_entry (GetSpotPricing_record ParseFloat prices sph) instanceType az
  = spot_entry prices instanceType az.
Proof.
  intros Hother. unfold GetSpotPricing_record, spot_entry.
  destruct (ParseFloat _) as [price | ] eqn:Hprice; [ | reflexivity ].
  destruct (sph_Timestamp sph) as [ts | ] eqn:Hts; [ | reflexivity ].
  cbv zeta.
  destruct (decide (sph_InstanceType sph = instanceType)) as [Hit | Hit].
  - rewrite Hit, lookup_insert_eq.
    destruct (decide (aws_ToString (sph_AvailabilityZone sph) = az)) as [Haz | Haz].
    + exfalso. apply (Hother price). unfold spot_stores. rewrite Hts. now repeat split.
    + rewrite lookup_insert_ne by exact Haz.
      destruct (prices !! instanceType); [ reflexivity | apply lookup_empty ].
  - now rewrite lookup_insert_ne.
Qed.

Lemma GetSpotPricing_records_other prices records instanceType az :
  Forall (fun sph => forall price, ~ spot_stores ParseFloat sph instanceType az price) records ->
  spot_entry (foldl (GetSpotPricing_record ParseFloat) prices records) instanceType az
  = spot_entry prices instanceType az.
Proof.
  intros Hall. revert prices.
  induction Hall as [ | sph records Hsph _ IH ]; intros prices; [ reflexivity | ].
  cbn [foldl]. rewrite IH. now apply GetSpotPricing_record_other.
Qed.

(** Without a failing page the loop is one pass over all the records. *)
Lemma GetSpotPricing_pages_ok prices (feed : list DescribeSpotPriceHistoryOutput) :
  GetSpotPricing_pages ParseFloat prices (inr <$> feed)
  = (foldl (GetSpotPricing_record ParseFloat) prices (concat (SpotPriceHistory <$> feed)), None).
Proof.
  revert prices. induction feed as [ | output feed IH ]; intros prices; [ reflexivity | ].
  cbn [fmap list_fmap GetSpotPricing_pages concat]. rewrite foldl_app. apply IH.
Qed.

Lemma GetSpotPricing_pages_skip prices pre before sph after post :
  spot_unusable ParseFloat sph ->
  GetSpotPricing_pages ParseFloat prices
    (pre ++ inr (mkDescribeSpotPriceHistoryOutput (before ++ sph :: after)) :: post)
  = GetSpotPricing_pages ParseFloat prices
    (pre ++ inr (mkDescribeSpotPriceHistoryOutput (before ++ after)) :: post).
Proof.
  intros Hsph. revert prices.
  induction pre as [ | [err | output] pre IH ]; intros prices; cbn.
  - rewrite !foldl_app. cbn [foldl].
    now rewrite (GetSpotPricing_record_unusable _ _ Hsph).
  - reflexivity.
  - apply IH.
Qed.

Lemma spot_entry_nonempty (prices : SpotPriceList) instanceType az price :
  spot_entry prices instanceType az = Some price -> len_is_zero prices = false.
Proof.
  unfold spot_entry, len_is_zero. intros Hentry.
  apply bool_decide_eq_false. intros Hsize%map_size_empty_iff.
  rewrite Hsize, lookup_empty in Hentry. discriminate Hentry.
Qed.

(** C9. In the spot fetch a record whose price does not parse or whose
    timestamp is missing is passed over: the fetch gives what it gives on
    the feed without that record, so the record itself never fails it.
    And when no page fails, the table holds for a key (instance type,
    zone) the price of the last record of the feed stored under that key,
    whatever earlier records said. *)
Theorem GetSpotPricing_skips_and_overwrites (now : Time) (c : Context) :
  (forall (p p' : AWSProvider) pre before sph after post,
     EC2Client p c (GetSpotPricing_input now)
       = (pre ++ inr (mkDescribeSpotPriceHistoryOutput (before ++ sph :: after)) :: post)%list ->
     EC2Client p' c (GetSpotPricing_input now)
       = (pre ++ inr (mkDescribeSpotPriceHistoryOutput (before ++ after)) :: post)%list ->
     spot_unusable ParseFloat sph ->
     AWSProvider_GetSpotPricing ParseFloat p now c
     = AWSProvider_GetSpotPricing ParseFloat p' now c) /\
  (forall (p : AWSProvider) feed earlier sph later instanceType az price,
     EC2Client p c (GetSpotPricing_input now) = inr <$> feed ->
     concat (SpotPriceHistory <$> feed) = (earlier ++ sph :: later)%list ->
     spot_stores ParseFloat sph instanceType az price ->
     Forall (fun sph' => forall price', ~ spot_stores ParseFloat sph' instanceType az price') later ->
     exists prices,
       AWSProvider_GetSpotPricing ParseFloat p now c = (prices, None) /\
       spot_entry prices instanceType az = Some price).
Proof.
  split.
  - intros p p' pre before sph after post Hp Hp' Hsph.
    unfold AWSProvider_GetSpotPricing. rewrite Hp, Hp'.
    now rewrite (GetSpotPricing_pages_skip _ _ _ _ _ _ Hsph).
  - intros p feed earlier sph later instanceType az price Hp Hfeed Hsph Hlater.
    unfold AWSProvider_GetSpotPricing.
    rewrite Hp, GetSpotPricing_pages_ok, Hfeed, foldl_app. cbn [foldl].
    set (prices := foldl _ (GetSpotPricing_record _ _ sph) later).
    assert (Hentry : spot_entry prices instanceType az = Some price).
    { subst prices. rewrite GetSpotPricing_records_other by exact Hlater.
      now apply GetSpotPricing_record_stores. }
    rewrite (spot_entry_nonempty _ _ _ _ Hentry). now exists prices.
Qed.

End SpotFetch.

Lemma GetSpotPricing_skips_and_overwrites_witness :
  AWSProvider_GetSpotPricing samples.ParseFloat (samples.spotProvider samples.spotFeed)
    50%Z samples.background
  = AWSProvider_GetSpotPricing samples.ParseFloat (samples.spotProvider samples.spotFeedCleaned)
    50%Z samples.background /\
  exists prices,
    AWSProvider_GetSpotPricing samples.ParseFloat (samples.spotProvider samples.spotFeed)
      50%Z samples.background = (prices, None) /\
    spot_entry prices "m5.large" "us-east-1a" = Some 0.031%float.
Proof.
  destruct (GetSpotPricing_skips_and_overwrites samples.ParseFloat 50%Z samples.background)
    as [Hskip Hlast].
  split.
  - apply (Hskip (samples.spotProvider samples.spotFeed)
                 (samples.spotProvider samples.spotFeedCleaned)
                 [] [samples.spotFirst] samples.spotGarbled [samples.spotUndated]
                 [inr (mkDescribeSpotPriceHistoryOutput [samples.spotLater])]).
    + reflexivity.
    + reflexivity.
    + left. reflexivity.
  - apply (Hlast (samples.spotProvider samples.spotFeed) samples.spotFeed
                 [samples.spotFirst; samples.spotGarbled; samples.spotUndated]
                 samples.spotLater []).
    + reflexivity.
    + reflexivity.
    + unfold spot_stores. repeat split. discriminate.
    + constructor.
Defined.

(** ** The Fargate fetch *)

Section FargateFetch.

Variable ParseFloat : string -> option float.
Variable Unmarshal_fargate : string -> error + fargatePriceItem.

Lemma foldl_err_app {A B : Type} (f : A -> B -> error + A) (a : A) (l1 l2 : list B) :
  foldl_err f a (l1 ++ l2) =
  match foldl_err f a l1 with
  | inl e => inl e
  | inr a' => foldl_err f a' l2
  end.
Proof.
  revert a. induction l1 as [ | b l1 IH ]; intros a; cbn; [ reflexivity | ].
  destruct (f a b); [ reflexivity | apply IH ].
Qed.

Lemma parseFargatePage_dimension_skipped name fargatePrice v :
  dimension_skipped ParseFloat v ->
  parseFargatePage_dimension ParseFloat name fargatePrice v = inr fargatePrice.
Proof.
  unfold parseFargatePage_dimension. intros [-> | (price & -> & ->)]; reflexivity.
Qed.

Lemma parseFargatePage_dimensions_skipped name fargatePrice dimensions :
  Forall (dimension_skipped ParseFloat) dimensions ->
  foldl_err (parseFargatePage_dimension ParseFloat name) fargatePrice dimensions
  = inr fargatePrice.
Proof.
  induction 1 as [ | v dimensions Hv _ IH ]; cbn; [ reflexivity | ].
  now rewrite (parseFargatePage_dimension_skipped _ _ _ Hv).
Qed.

Lemma parseFargatePage_terms_skipped name fargatePrice (terms : list (string * term)) :
  Forall (fun t => Forall (dimension_skipped ParseFloat) (PriceDimensions t.2)) terms ->
  foldl_err (fun fp t => foldl_err (parseFargatePage_dimension ParseFloat name) fp
                                   (PriceDimensions t.2))
            fargatePrice terms
  = inr fargatePrice.
Proof.
  induction 1 as [ | t terms Ht _ IH ]; cbn; [ reflexivity | ].
  now rewrite (parseFargatePage_dimensions_skipped _ _ _ Ht).
Qed.

Lemma parseFargatePage_item_unusable fargatePrice outer :
  fargate_unusable ParseFloat Unmarshal_fargate outer ->
  parseFargatePage_item ParseFloat Unmarshal_fargate fargatePrice outer = inr fargatePrice.
Proof.
  intros (pItem & Hdecode & Hnone). unfold parseFargatePage_item. rewrite Hdecode.
  destruct Hnone as [-> | Hskipped]; [ reflexivity | ].
  destruct (strings_Contains _ "Fargate"); cbn [negb]; [ | reflexivity ].
  now apply parseFargatePage_terms_skipped.
Qed.

(** C10. In [parseFargatePage] a price dimension whose price string does
    not parse or parses to zero is passed over before the usage type is
    looked at, whatever the usage type is. So a record about Fargate
    that has only such price dimensions, in a unit the parser does not
    know included, raises no error: the page parses as it does without
    that record. *)
Theorem parseFargatePage_skips_before_unit_check :
  (forall name fargatePrice v,
     dimension_skipped ParseFloat v ->
     parseFargatePage_dimension ParseFloat name fargatePrice v = inr fargatePrice) /\
  (forall fargatePrice before outer after pItem,
     Unmarshal_fargate outer = inr pItem ->
     fargate_relevant pItem ->
     unit_unrecognized (fg_UsageType pItem) ->
     Forall (fun t => Forall (dimension_skipped ParseFloat) (PriceDimensions t.2))
            (fg_OnDemand pItem) ->
     parseFargatePage ParseFloat Unmarshal_fargate fargatePrice
       (mkGetProductsOutput (before ++ outer :: after))
     = parseFargatePage ParseFloat Unmarshal_fargate fargatePrice
       (mkGetProductsOutput (before ++ after))).
Proof.
  split; [ exact parseFargatePage_dimension_skipped | ].
  intros fargatePrice before outer after pItem Hdecode _ _ Hskipped.
  unfold parseFargatePage. cbn [PriceList]. rewrite !foldl_err_app.
  destruct (foldl_err _ fargatePrice before) as [err | fargatePrice']; [ reflexivity | ].
  cbn [foldl_err].
  rewrite parseFargatePage_item_unusable; [ reflexivity | ].
  exists pItem. split; [ exact Hdecode | now right ].
Qed.

(** What the loops of [parseFargatePage] do on a record in a unit that
    the parser does not know: nothing, or the error. *)
Lemma parseFargatePage_dimensions_unrecognized name fargatePrice dimensions :
  unit_unrecognized name ->
  foldl_err (parseFargatePage_dimension ParseFloat name) fargatePrice dimensions
  = inr fargatePrice
  \/ foldl_err (parseFargatePage_dimension ParseFloat name) fargatePrice dimensions
  = inl (unsupported name).
Proof.
  intros [Hcpu Hgb]. induction dimensions as [ | v dimensions IH ]; cbn [foldl_err].
  - now left.
  - unfold parseFargatePage_dimension at 1 3. rewrite Hcpu, Hgb.
    destruct (ParseFloat (PricePerUnit_USD v.2)) as [price | ]; [ | exact IH ].
    destruct (PrimFloat.eqb price 0%float); [ exact IH | now right ].
Qed.

Lemma parseFargatePage_dimensions_priced name fargatePrice dimensions :
  unit_unrecognized name ->
  Exists (dimension_priced ParseFloat) dimensions ->
  foldl_err (parseFargatePage_dimension ParseFloat name) fargatePrice dimensions
  = inl (unsupported name).
Proof.
  intros [Hcpu Hgb] Hpriced.
  induction Hpriced as [ v dimensions (price & Hprice & Hnonzero) | v dimensions _ IH ];
    cbn [foldl_err]; unfold parseFargatePage_dimension at 1; rewrite Hcpu, Hgb.
  - now rewrite Hprice, Hnonzero.
  - destruct (ParseFloat (PricePerUnit_USD v.2)) as [price | ]; [ | exact IH ].
    destruct (PrimFloat.eqb price 0%float); [ exact IH | reflexivity ].
Qed.

Lemma parseFargatePage_terms_priced name fargatePrice (terms : list (string * term)) :
  unit_unrecognized name ->
  Exists (fun t => Exists (dimension_priced ParseFloat) (PriceDimensions t.2)) terms ->
  foldl_err (fun fp t => foldl_err (parseFargatePage_dimension ParseFloat name) fp
                                   (PriceDimensions t.2))
            fargatePrice terms
  = inl (unsupported name).
Proof.
  intros Hname Hpriced.
  induction Hpriced as [ t terms Ht | t terms _ IH ]; cbn [foldl_err].
  - now rewrite (parseFargatePage_dimensions_priced _ _ _ Hname Ht).
  - destruct (parseFargatePage_dimensions_unrecognized name fargatePrice
                (PriceDimensions t.2) Hname) as [-> | ->]; [ exact IH | reflexivity ].
Qed.

(** A record about Fargate, in a unit that the parser does not know, with
    a price: [parseFargatePage] gives up on the page that holds it, with a
    nil pointer and an error. *)
Lemma parseFargatePage_unrecognized_unit fargatePrice before outer after pItem :
  Unmarshal_fargate outer = inr pItem ->
  fargate_relevant pItem ->
  unit_unrecognized (fg_UsageType pItem) ->
  Exists (fun t => Exists (dimension_priced ParseFloat) (PriceDimensions t.2))
         (fg_OnDemand pItem) ->
  exists err,
    parseFargatePage ParseFloat Unmarshal_fargate fargatePrice
      (mkGetProductsOutput (before ++ outer :: after)) = (None, Some err).
Proof.
  intros Hdecode Hrelevant Hname Hpriced.
  unfold parseFargatePage. cbn [PriceList]. rewrite foldl_err_app.
  destruct (foldl_err _ fargatePrice before) as [err | fargatePrice']; [ now exists err | ].
  cbn [foldl_err]. unfold parseFargatePage_item at 1.
  rewrite Hdecode, Hrelevant. cbn [negb].
  rewrite (parseFargatePage_terms_priced _ _ _ Hname Hpriced).
  now exists (unsupported (fg_UsageType pItem)).
Qed.

(** [parseFargatePage] never answers with a pointer and an error. *)
Lemma parseFargatePage_results fargatePrice output :
  (exists err, parseFargatePage ParseFloat Unmarshal_fargate fargatePrice output
               = (None, Some err)) \/
  (exists fargatePrice', parseFargatePage ParseFloat Unmarshal_fargate fargatePrice output
                         = (Some fargatePrice', None)).
Proof.
  unfold parseFargatePage. destruct (foldl_err _ _ _) as [err | fargatePrice'];
    [ left; now exists err | right; now exists fargatePrice' ].
Qed.

(** The loop of [GetFargatePricing] on a feed whose pages all arrive and
    one of which [parseFargatePage] gives up on. *)
Lemma GetFargatePricing_pages_parse_error feed output rest :
  (forall fargatePrice, exists err,
     parseFargatePage ParseFloat Unmarshal_fargate fargatePrice output = (None, Some err)) ->
  forall price,
    GetFargatePricing_pages ParseFloat Unmarshal_fargate price
      ((inr <$> feed) ++ inr output :: rest)
    = Panics nil_dereference.
Proof.
  intros Hfails. induction feed as [ | earlier feed IH ]; intros price; cbn.
  - destruct (Hfails price) as [err ->]. reflexivity.
  - destruct (parseFargatePage_results price earlier) as [[err ->] | [price' ->]];
      [ reflexivity | apply IH ].
Qed.

(** C8, on the code. When every page of the Fargate query arrives and one
    of them holds a record about Fargate, in a unit that the parser does
    not know, with a price that parses and is not zero, [GetFargatePricing]
    does not return an error: [parseFargatePage] hands it a nil pointer
    with the error, and the [return *price, err] that follows panics. *)
Theorem GetFargatePricing_unrecognized_unit_panics
  (p : AWSProvider) (c : Context) feed before outer after rest pItem :
  PricingClient p c (GetFargatePricing_input p)
    = ((inr <$> feed) ++ inr (mkGetProductsOutput (before ++ outer :: after)) :: rest)%list ->
  Unmarshal_fargate outer = inr pItem ->
  fargate_relevant pItem ->
  unit_unrecognized (fg_UsageType pItem) ->
  Exists (fun t => Exists (dimension_priced ParseFloat) (PriceDimensions t.2))
         (fg_OnDemand pItem) ->
  AWSProvider_GetFargatePricing ParseFloat Unmarshal_fargate p c = Panics nil_dereference.
Proof.
  intros Hpages Hdecode Hrelevant Hname Hpriced.
  unfold AWSProvider_GetFargatePricing. rewrite Hpages.
  apply GetFargatePricing_pages_parse_error. intros fargatePrice.
  now apply (parseFargatePage_unrecognized_unit _ _ _ _ pItem).
Qed.

End FargateFetch.

Lemma parseFargatePage_skips_before_unit_check_witness :
  parseFargatePage samples.ParseFloat samples.Unmarshal_fargate FargatePrice_zero
    (mkGetProductsOutput ["fargate-vcpu"; "fargate-seconds-free"; "fargate-gb"])
  = parseFargatePage samples.ParseFloat samples.Unmarshal_fargate FargatePrice_zero
    (mkGetProductsOutput ["fargate-vcpu"; "fargate-gb"]).
Proof.
  destruct (parseFargatePage_skips_before_unit_check
              samples.ParseFloat samples.Unmarshal_fargate) as [_ Hrecord].
  apply (Hrecord FargatePrice_zero ["fargate-vcpu"] "fargate-seconds-free" ["fargate-gb"]
                 (mkFargatePriceItem "USE1-Fargate-Seconds"
                                     (samples.oneDimension "0.0000000000"))).
  - reflexivity.
  - reflexivity.
  - split; reflexivity.
  - constructor; [ | constructor ].
    constructor; [ | constructor ].
    right. exists 0%float. split; reflexivity.
Defined.

Lemma GetFargatePricing_unrecognized_unit_panics_witness :
  AWSProvider_GetFargatePricing samples.ParseFloat samples.Unmarshal_fargate
    samples.driftedCatalog samples.background
  = Panics nil_dereference.
Proof.
  apply (GetFargatePricing_unrecognized_unit_panics
           samples.ParseFloat samples.Unmarshal_fargate
           samples.driftedCatalog samples.background
           [] ["fargate-vcpu"; "fargate-gb"] "fargate-seconds" [] []
           (mkFargatePriceItem "USE1-Fargate-Seconds" (samples.oneDimension "0.05"))).
  - reflexivity.
  - reflexivity.
  - reflexivity.
  - split; reflexivity.
  - apply Exists_cons_hd. apply Exists_cons_hd.
    exists 0.05%float. split; reflexivity.
Defined.

(** ** Fetches that find nothing *)

Section EmptyResults.

Variable ParseFloat : string -> option float.
Variable Unmarshal_onDemand : string -> error + onDemandPriceItem.
Variable Unmarshal_fargate : string -> error + fargatePriceItem.

Lemma len_is_zero_empty {A} : len_is_zero (∅ : gmap string A) = true.
Proof. unfold len_is_zero. apply bool_decide_eq_true. apply map_size_empty. Qed.

Lemma len_is_zero_false {A} (m : gmap string A) : len_is_zero m = false -> m <> ∅.
Proof.
  unfold len_is_zero. intros Hsize%bool_decide_eq_false Hempty.
  apply Hsize. now apply map_size_empty_iff.
Qed.

Lemma GetSpotPricing_records_unusable prices records :
  Forall (spot_unusable ParseFloat) records ->
  foldl (GetSpotPricing_record ParseFloat) prices records = prices.
Proof.
  induction 1 as [ | sph records Hsph _ IH ]; cbn [foldl]; [ reflexivity | ].
  now rewrite (GetSpotPricing_record_unusable _ _ _ Hsph).
Qed.

Lemma parseFargatePage_unusable fargatePrice entries :
  Forall (fargate_unusable ParseFloat Unmarshal_fargate) entries ->
  foldl_err (parseFargatePage_item ParseFloat Unmarshal_fargate) fargatePrice entries
  = inr fargatePrice.
Proof.
  induction 1 as [ | outer entries Houter _ IH ]; cbn [foldl_err]; [ reflexivity | ].
  now rewrite (parseFargatePage_item_unusable _ _ _ _ Houter).
Qed.

Lemma GetFargatePricing_pages_unusable price (feed : list GetProductsOutput) :
  Forall (fargate_unusable ParseFloat Unmarshal_fargate) (concat (PriceList <$> feed)) ->
  GetFargatePricing_pages ParseFloat Unmarshal_fargate price (inr <$> feed)
  = Returns (price, None).
Proof.
  induction feed as [ | output feed IH ]; cbn; [ reflexivity | ].
  intros [Houtput Hfeed]%Forall_app. unfold parseFargatePage.
  rewrite (parseFargatePage_unusable _ _ Houtput). now apply IH.
Qed.

Lemma AWSProvider_GetOnDemandPricing_nonempty (p : AWSProvider) (c : Context) prices :
  AWSProvider_GetOnDemandPricing ParseFloat Unmarshal_onDemand p c = (prices, None) ->
  prices <> ∅.
Proof.
  unfold AWSProvider_GetOnDemandPricing.
  destruct (fetchOnDemandPricing _ _ p c sharedFilters) as [shared [err | ]];
    [ discriminate | ].
  destruct (fetchOnDemandPricing _ _ p c metalFilters) as [metal [err | ]];
    [ discriminate | ].
  destruct (len_is_zero shared) eqn:Hshared; [ discriminate | ].
  destruct (len_is_zero metal) eqn:Hmetal; [ discriminate | ].
  cbn [orb]. intros [= <-]. unfold lo_Assign.
  apply map_positive_l_alt. now apply len_is_zero_false.
Qed.

Lemma AWSProvider_GetSpotPricing_nonempty (p : AWSProvider) (now : Time) (c : Context) prices :
  AWSProvider_GetSpotPricing ParseFloat p now c = (prices, None) -> prices <> ∅.
Proof.
  unfold AWSProvider_GetSpotPricing.
  destruct (GetSpotPricing_pages _ _ _) as [found [err | ]]; [ discriminate | ].
  destruct (len_is_zero found) eqn:Hfound; [ discriminate | ].
  intros [= <-]. now apply len_is_zero_false.
Qed.

(** C3, amended. The live provider's on-demand fetch returns the error
    "no on-demand pricing found" when either of its two sub-queries ends
    with an empty table, and its spot fetch returns "no spot pricing
    found" when no record of the feed can be used; neither ever returns an
    empty table without an error. The Fargate fetch has no such test: when
    no record of the catalog yields a rate it returns the zero-valued unit
    prices and a nil error (the lookup then reports them as not found). *)
Theorem empty_result_policy (p : AWSProvider) (c : Context) (now : Time) :
  (forall shared metal,
     fetchOnDemandPricing ParseFloat Unmarshal_onDemand p c sharedFilters = (shared, None) ->
     fetchOnDemandPricing ParseFloat Unmarshal_onDemand p c metalFilters = (metal, None) ->
     shared = ∅ \/ metal = ∅ ->
     AWSProvider_GetOnDemandPricing ParseFloat Unmarshal_onDemand p c
     = (∅, Some (errorString "no on-demand pricing found"))) /\
  (forall prices,
     AWSProvider_GetOnDemandPricing ParseFloat Unmarshal_onDemand p c = (prices, None) ->
     prices <> ∅) /\
  (forall feed,
     EC2Client p c (GetSpotPricing_input now) = inr <$> feed ->
     Forall (spot_unusable ParseFloat) (concat (SpotPriceHistory <$> feed)) ->
     AWSProvider_GetSpotPricing ParseFloat p now c
     = (∅, Some (errorString "no spot pricing found"))) /\
  (forall prices,
     AWSProvider_GetSpotPricing ParseFloat p now c = (prices, None) -> prices <> ∅) /\
  (forall feed,
     PricingClient p c (GetFargatePricing_input p) = inr <$> feed ->
     Forall (fargate_unusable ParseFloat Unmarshal_fargate) (concat (PriceList <$> feed)) ->
     AWSProvider_GetFargatePricing ParseFloat Unmarshal_fargate p c
     = Returns (FargatePrice_zero, None)).
Proof.
  repeat split.
  - intros shared metal Hshared Hmetal Hempty. unfold AWSProvider_GetOnDemandPricing.
    rewrite Hshared, Hmetal.
    destruct Hempty as [-> | ->]; rewrite (@len_is_zero_empty float); [ reflexivity | ].
    now rewrite orb_true_r.
  - intros prices. apply AWSProvider_GetOnDemandPricing_nonempty.
  - intros feed Hfeed Hunusable. unfold AWSProvider_GetSpotPricing.
    rewrite Hfeed, GetSpotPricing_pages_ok, GetSpotPricing_records_unusable by exact Hunusable.
    now rewrite (@len_is_zero_empty (gmap string float)).
  - intros prices. apply AWSProvider_GetSpotPricing_nonempty.
  - intros feed Hfeed Hunusable. unfold AWSProvider_GetFargatePricing.
    rewrite Hfeed. now apply GetFargatePricing_pages_unusable.
Qed.

(** C4, amended. A successful refresh of a category stores the table
    that the provider returned and the clock reading of the refresh, so the
    category's timestamp strictly increases whenever the clock has moved
    past the previous one. With the live provider the on-demand table and
    the spot table stored by a successful refresh are not empty. (Nothing
    of the kind holds for the static provider's spot table or for the
    Fargate unit prices.) *)
Theorem successful_refresh (c : Context) (now : Time) (pr pr' : Repository) :
  (UpdateOnDemandPricing c now pr = Returns (pr', None) ->
   GetOnDemandPricing (pricingProvider pr) c = Returns (onDemandPrices pr', None) /\
   OnDemandLastUpdated pr' = now /\
   ((OnDemandLastUpdated pr < now)%Z -> (OnDemandLastUpdated pr < OnDemandLastUpdated pr')%Z) /\
   (forall p t,
      pricingProvider pr
      = AWSProvider_Provider ParseFloat Unmarshal_onDemand Unmarshal_fargate p t ->
      onDemandPrices pr' <> ∅)) /\
  (UpdateSpotPricing c now pr = Returns (pr', None) ->
   GetSpotPricing (pricingProvider pr) c = Returns (spotPrices pr', None) /\
   SpotLastUpdated pr' = now /\
   ((SpotLastUpdated pr < now)%Z -> (SpotLastUpdated pr < SpotLastUpdated pr')%Z) /\
   (forall p t,
      pricingProvider pr
      = AWSProvider_Provider ParseFloat Unmarshal_onDemand Unmarshal_fargate p t ->
      spotPrices pr' <> ∅)) /\
  (UpdateFargatePricing c now pr = Returns (pr', None) ->
   GetFargatePricing (pricingProvider pr) c = Returns (fargatePrice pr', None) /\
   FargateLastUpdated pr' = now /\
   ((FargateLastUpdated pr < now)%Z -> (FargateLastUpdated pr < FargateLastUpdated pr')%Z)).
Proof.
  split; [ | split ].
  - unfold UpdateOnDemandPricing.
    destruct (GetOnDemandPricing (pricingProvider pr) c) as [[pricing [err | ]] | msg] eqn:Hfetch;
      [ discriminate | | discriminate ].
    intros [= <-]. cbn. repeat split; [ easy | ].
    intros p t Hlive. rewrite Hlive in Hfetch. cbn in Hfetch.
    injection Hfetch as Hfetch. now apply AWSProvider_GetOnDemandPricing_nonempty in Hfetch.
  - unfold UpdateSpotPricing.
    destruct (GetSpotPricing (pricingProvider pr) c) as [[pricing [err | ]] | msg] eqn:Hfetch;
      [ discriminate | | discriminate ].
    intros [= <-]. cbn. repeat split; [ easy | ].
    intros p t Hlive. rewrite Hlive in Hfetch. cbn in Hfetch.
    injection Hfetch as Hfetch. now apply AWSProvider_GetSpotPricing_nonempty in Hfetch.
  - unfold UpdateFargatePricing.
    destruct (GetFargatePricing (pricingProvider pr) c) as [[pricing [err | ]] | msg] eqn:Hfetch;
      [ discriminate | | discriminate ].
    intros [= <-]. cbn. repeat split. easy.
Qed.

End EmptyResults.

(** C3, as stated, on a catalog whose Fargate query yields one record
    that is not about Fargate: the fetch completes with no usable record
    and returns no error. *)
Lemma GetFargatePricing_without_rates_returns_no_error :
  AWSProvider_GetFargatePricing samples.ParseFloat samples.Unmarshal_fargate
    samples.sparseCatalog samples.background
  = Returns (FargatePrice_zero, None).
Proof. reflexivity. Qed.

Lemma empty_result_policy_witness :
  AWSProvider_GetOnDemandPricing samples.ParseFloat samples.Unmarshal_onDemand
    samples.sparseCatalog samples.background
  = (∅, Some (errorString "no on-demand pricing found")) /\
  AWSProvider_GetSpotPricing samples.ParseFloat (samples.spotProvider samples.spotFeedUnusable)
    50%Z samples.background
  = (∅, Some (errorString "no spot pricing found")) /\
  AWSProvider_GetFargatePricing samples.ParseFloat samples.Unmarshal_fargate
    samples.sparseCatalog samples.background
  = Returns (FargatePrice_zero, None).
Proof.
  split; [ | split ].
  - destruct (empty_result_policy samples.ParseFloat samples.Unmarshal_onDemand
                samples.Unmarshal_fargate samples.sparseCatalog samples.background 50%Z)
      as (Hod & _).
    apply (Hod {[ "m5.large" := 0.096%float ]} ∅).
    + reflexivity.
    + reflexivity.
    + now right.
  - destruct (empty_result_policy samples.ParseFloat samples.Unmarshal_onDemand
                samples.Unmarshal_fargate (samples.spotProvider samples.spotFeedUnusable)
                samples.background 50%Z)
      as (_ & _ & Hspot & _).
    apply (Hspot samples.spotFeedUnusable).
    + reflexivity.
    + constructor; [ left; reflexivity | ].
      constructor; [ right; reflexivity | constructor ].
  - destruct (empty_result_policy samples.ParseFloat samples.Unmarshal_onDemand
                samples.Unmarshal_fargate samples.sparseCatalog samples.background 50%Z)
      as (_ & _ & _ & _ & Hfargate).
    apply (Hfargate [mkGetProductsOutput ["cluster-hours"]]).
    + reflexivity.
    + constructor; [ | constructor ].
      exists (mkFargatePriceItem "USE1-AmazonEKS-Hours:perCluster" (samples.oneDimension "0.05")).
      split; [ reflexivity | left; reflexivity ].
Defined.

(** C4, as stated, on the static provider: the spot refresh succeeds, the
    timestamp moves from 20 to 40, and the table it stores is empty. *)
Lemma StaticProvider_spot_refresh_stores_empty_table :
  exists pr',
    UpdateSpotPricing samples.background 40%Z
      (samples.filled (StaticProvider samples.onDemandTable)) = Returns (pr', None) /\
    SpotLastUpdated pr' = 40%Z /\
    spotPrices pr' = ∅.
Proof. eexists. repeat split. Qed.

Lemma successful_refresh_witness :
  let live := AWSProvider_Provider samples.ParseFloat samples.Unmarshal_onDemand
                samples.Unmarshal_fargate samples.plainCatalog 35%Z in
  let pr' := {| pricingProvider := live;
                onDemandUpdateTime := 40%Z;
                onDemandPrices := {[ "m5.large" := 0.096%float; "m5.metal" := 4.608%float ]};
                spotUpdateTime := 20%Z; spotPrices := samples.spotTable;
                fargateUpdateTime := 30%Z; fargatePrice := samples.fargateRates |} in
  UpdateOnDemandPricing samples.background 40%Z (samples.filled live) = Returns (pr', None) /\
  (OnDemandLastUpdated (samples.filled live) < OnDemandLastUpdated pr')%Z /\
  onDemandPrices pr' <> ∅.
Proof.
  intros live pr'.
  assert (Hrefresh : UpdateOnDemandPricing samples.background 40%Z (samples.filled live)
                     = Returns (pr', None)) by reflexivity.
  destruct (successful_refresh samples.ParseFloat samples.Unmarshal_onDemand
              samples.Unmarshal_fargate samples.background 40%Z (samples.filled live) pr')
    as [Hod _].
  destruct (Hod Hrefresh) as (_ & _ & Hlater & Hnonempty).
  split; [ exact Hrefresh | split ].
  - apply Hlater. reflexivity.
  - apply (Hnonempty samples.plainCatalog 35%Z). reflexivity.
Defined.

(** ** [UpdatePricing] *)

(** Nothing makes the caller wait: on the schedule on which it runs
    first, [UpdatePricing] returns nil whatever the provider does, with
    three goroutines started, none finished, and the repository as it
    was. *)
Lemma UpdatePricing_caller_first (c : Context) (pr : Repository) (clock : Time) :
  exists s,
    UpdatePricing_run c caller_first_schedule (UpdatePricing_init pr clock) = Some s /\
    st_result s = Some None /\
    st_repo s = pr /\
    st_finished s = [] /\
    st_wg s = 3%Z.
Proof. eexists. repeat split. Qed.

(** On the schedule that a join would enforce, one failing category and
    two succeeding ones give what the specification describes: the error
    of the failing category, and the two other tables replaced. *)
Lemma UpdatePricing_joined (c : Context) (pr : Repository) (clock : Time)
  (onDemand : OnDemandPriceList) (fargate : FargatePrice) (err : error) :
  GetOnDemandPricing (pricingProvider pr) c = Returns (onDemand, None) ->
  GetSpotPricing (pricingProvider pr) c = Returns (∅, Some err) ->
  GetFargatePricing (pricingProvider pr) c = Returns (fargate, None) ->
  exists s,
    UpdatePricing_run c joined_schedule (UpdatePricing_init pr clock) = Some s /\
    st_result s = Some (Some err) /\
    onDemandPrices (st_repo s) = onDemand /\
    OnDemandLastUpdated (st_repo s) = (clock + 1)%Z /\
    spotPrices (st_repo s) = spotPrices pr /\
    SpotLastUpdated (st_repo s) = SpotLastUpdated pr /\
    fargatePrice (st_repo s) = fargate /\
    FargateLastUpdated (st_repo s) = (clock + 3)%Z.
Proof.
  intros Hod Hspot Hfg. unfold joined_schedule, UpdatePricing_init.
  cbn [UpdatePricing_run step st_panic caller_step st_pc spawn].
  unfold goroutine_step at 1. cbn. unfold UpdateOnDemandPricing. rewrite Hod.
  unfold step at 1. cbn. unfold UpdateSpotPricing. cbn. rewrite Hspot.
  unfold step at 1. cbn. unfold UpdateFargatePricing. cbn. rewrite Hfg.
  cbn. eexists. repeat split.
  unfold FargateLastUpdated. cbn. lia.
Qed.

(** C1, on the code. The repository is filled, its provider's spot fetch
    fails and the two other fetches succeed. On the schedule on which the
    caller runs first, [UpdatePricing] has returned nil before any
    goroutine has run: no error is reported and no table is updated at
    that point. The goroutines run afterwards; the error of the spot
    refresh ends in a slice that nobody reads any more. *)
Theorem UpdatePricing_returns_before_its_goroutines :
  let pr := samples.filled samples.spotFailingProvider in
  let start := UpdatePricing_init pr 40%Z in
  (exists s,
     UpdatePricing_run samples.background caller_first_schedule start = Some s /\
     st_result s = Some None /\
     st_repo s = pr /\
     st_finished s = []) /\
  (exists s,
     UpdatePricing_run samples.background
       (caller_first_schedule ++
        [Goroutine catOnDemand; Goroutine catSpot; Goroutine catFargate]) start = Some s /\
     st_result s = Some None /\
     st_errs s = [samples.timeout_error] /\
     OnDemandLastUpdated (st_repo s) = 41%Z /\
     SpotLastUpdated (st_repo s) = 20%Z /\
     FargateLastUpdated (st_repo s) = 43%Z).
Proof. split; eexists; repeat split. Qed.

(** * Further properties of the code *)

(** ** The repository *)

Lemma lo_Union_from_spec (seen : gset string) (l : list string) :
  (forall x, x ∈ lo_Union_from seen l <-> x ∈ l /\ x ∉ seen) /\
  NoDup (lo_Union_from seen l).
Proof.
  revert seen. induction l as [ | e l IH ]; intros seen; cbn [lo_Union_from].
  - split; [ intros x; rewrite elem_of_nil; tauto | constructor ].
  - destruct (decide (e ∈ seen)) as [Hseen | Hnew].
    + destruct (IH seen) as [Hin Hnodup]. split; [ | exact Hnodup ].
      intros x. rewrite Hin, elem_of_cons. split; [ tauto | ].
      intros [[-> | Hx] Hnot]; tauto.
    + destruct (IH ({[ e ]} ∪ seen)) as [Hin Hnodup]. split.
      * intros x. rewrite !elem_of_cons, Hin, not_elem_of_union, not_elem_of_singleton.
        destruct (decide (x = e)) as [-> | Hne]; tauto.
      * apply NoDup_cons. split; [ | exact Hnodup ].
        rewrite Hin. intros [_ Hnot]. apply Hnot.
        apply elem_of_union_l, elem_of_singleton. reflexivity.
Qed.

Lemma lo_Keys_spec {A} (m : gmap string A) (k : string) :
  k ∈ lo_Keys m <-> is_Some (m !! k).
Proof.
  unfold lo_Keys. rewrite list_elem_of_fmap. split.
  - intros ([k' a] & -> & Hin). apply elem_of_map_to_list in Hin. now exists a.
  - intros [a Ha]. exists (k, a). split; [ reflexivity | now apply elem_of_map_to_list ].
Qed.

(** X1. [InstanceTypes] lists exactly the instance types that have an
    on-demand price or a spot price, each of them once. *)
Theorem InstanceTypes_spec (pr : Repository) :
  (forall instanceType,
     instanceType ∈ InstanceTypes pr <->
     is_Some (onDemandPrices pr !! instanceType) \/ is_Some (spotPrices pr !! instanceType)) /\
  NoDup (InstanceTypes pr).
Proof.
  unfold InstanceTypes, lo_Union.
  destruct (lo_Union_from_spec ∅ (lo_Keys (onDemandPrices pr) ++ lo_Keys (spotPrices pr)))
    as [Hin Hnodup].
  split; [ | exact Hnodup ].
  intros instanceType. rewrite Hin, elem_of_app, !lo_Keys_spec.
  split; [ tauto | ]. intros Hsome. split; [ exact Hsome | apply not_elem_of_empty ].
Qed.

(** X2. A refresh of one category, successful or not, never touches the
    provider, the table or the timestamp of another category. *)
Theorem refresh_frame (k : category) (c : Context) (now : Time) (pr pr' : Repository)
  (err : option error) :
  refresh k c now pr = Returns (pr', err) ->
  pricingProvider pr' = pricingProvider pr /\
  (k <> catOnDemand ->
   onDemandPrices pr' = onDemandPrices pr /\ OnDemandLastUpdated pr' = OnDemandLastUpdated pr) /\
  (k <> catSpot ->
   spotPrices pr' = spotPrices pr /\ SpotLastUpdated pr' = SpotLastUpdated pr) /\
  (k <> catFargate ->
   fargatePrice pr' = fargatePrice pr /\ FargateLastUpdated pr' = FargateLastUpdated pr).
Proof.
  destruct k; cbn [refresh];
    [ unfold UpdateOnDemandPricing;
      destruct (GetOnDemandPricing (pricingProvider pr) c) as [[pricing [e | ]] | msg]
    | unfold UpdateSpotPricing;
      destruct (GetSpotPricing (pricingProvider pr) c) as [[pricing [e | ]] | msg]
    | unfold UpdateFargatePricing;
      destruct (GetFargatePricing (pricingProvider pr) c) as [[pricing [e | ]] | msg] ];
    intros [= <- <-] || discriminate; cbn; repeat split; congruence.
Qed.

Lemma refresh_frame_witness :
  exists pr',
    refresh catOnDemand samples.background 40%Z (samples.filled samples.spotFailingProvider)
    = Returns (pr', None) /\
    spotPrices pr' = samples.spotTable /\ SpotLastUpdated pr' = 20%Z /\
    fargatePrice pr' = samples.fargateRates /\ FargateLastUpdated pr' = 30%Z.
Proof.
  eexists. split; [ reflexivity | ].
  destruct (refresh_frame catOnDemand samples.background 40%Z
              (samples.filled samples.spotFailingProvider) _ None eq_refl)
    as (_ & _ & Hspot & Hfargate).
  destruct (Hspot ltac:(discriminate)) as [Hs Hst].
  destruct (Hfargate ltac:(discriminate)) as [Hf Hft].
  repeat split; assumption.
Defined.

(** X3. Refreshes of two different categories commute: run in either
    order, with the same clock reading for each, they report the same two
    results and leave the same repository. *)
Theorem refresh_commute (k1 k2 : category) (c : Context) (t1 t2 : Time)
  (pr pr1 pr12 : Repository) (e1 e2 : option error) :
  k1 <> k2 ->
  refresh k1 c t1 pr = Returns (pr1, e1) ->
  refresh k2 c t2 pr1 = Returns (pr12, e2) ->
  exists pr2,
    refresh k2 c t2 pr = Returns (pr2, e2) /\
    refresh k1 c t1 pr2 = Returns (pr12, e1).
Proof.
  intros Hne H1 H2.
  destruct (GetOnDemandPricing (pricingProvider pr) c) as [[od [eod | ]] | m1] eqn:Hod;
    destruct (GetSpotPricing (pricingProvider pr) c) as [[sp [esp | ]] | m2] eqn:Hsp;
    destruct (GetFargatePricing (pricingProvider pr) c) as [[fg [efg | ]] | m3] eqn:Hfg;
    destruct k1, k2; try congruence; cbn [refresh] in *;
    unfold UpdateOnDemandPricing, UpdateSpotPricing, UpdateFargatePricing in *;
    rewrite ?Hod, ?Hsp, ?Hfg in H1; try discriminate H1; injection H1 as <- <-;
    cbn in H2; rewrite ?Hod, ?Hsp, ?Hfg in H2; try discriminate H2; injection H2 as <- <-;
    eexists;
    (split; [ rewrite ?Hod, ?Hsp, ?Hfg; reflexivity
            | cbn; rewrite ?Hod, ?Hsp, ?Hfg; reflexivity ]).
Qed.

Lemma refresh_commute_witness :
  exists pr1 pr2 pr12,
    refresh catSpot samples.background 40%Z (samples.filled samples.spotFailingProvider)
    = Returns (pr1, Some samples.timeout_error) /\
    refresh catOnDemand samples.background 41%Z pr1 = Returns (pr12, None) /\
    refresh catOnDemand samples.background 41%Z (samples.filled samples.spotFailingProvider)
    = Returns (pr2, None) /\
    refresh catSpot samples.background 40%Z pr2 = Returns (pr12, Some samples.timeout_error).
Proof.
  eexists _, _, _.
  assert (H1 : refresh catSpot samples.background 40%Z
                 (samples.filled samples.spotFailingProvider)
               = Returns (samples.filled samples.spotFailingProvider,
                          Some samples.timeout_error)) by reflexivity.
  split; [ exact H1 | ]. split; [ reflexivity | ].
  destruct (refresh_commute catSpot catOnDemand samples.background 40%Z 41%Z _ _ _ _ _
              ltac:(discriminate) H1 eq_refl) as (pr2 & H2 & H3).
  cbn in H2. injection H2 as <-. split; [ reflexivity | exact H3 ].
Defined.

(** X4. With the static provider the three refreshes succeed; afterwards
    the on-demand lookup answers from the built-in table, and the spot
    lookup and the Fargate lookup still report "not found" for every key
    and every shape. *)
Theorem StaticProvider_refreshes (initialOnDemandPrices : OnDemandPriceList)
  (c : Context) (t1 t2 t3 : Time) (pr : Repository) :
  pricingProvider pr = StaticProvider initialOnDemandPrices ->
  exists pr1 pr2 pr3,
    UpdateOnDemandPricing c t1 pr = Returns (pr1, None) /\
    UpdateSpotPricing c t2 pr1 = Returns (pr2, None) /\
    UpdateFargatePricing c t3 pr2 = Returns (pr3, None) /\
    (forall instanceType,
       OnDemandPrice pr3 instanceType
       = match initialOnDemandPrices !! instanceType with
         | Some price => (price, true)
         | None => (0%float, false)
         end) /\
    (forall instanceType zone, SpotPrice pr3 instanceType zone = (0%float, false)) /\
    (forall cpu memory, Repository_FargatePrice pr3 cpu memory = (0%float, false)).
Proof.
  intros Hstatic.
  set (pr1 := {| pricingProvider := pricingProvider pr;
                 onDemandUpdateTime := t1; onDemandPrices := initialOnDemandPrices;
                 spotUpdateTime := spotUpdateTime pr; spotPrices := spotPrices pr;
                 fargateUpdateTime := fargateUpdateTime pr;
                 fargatePrice := fargatePrice pr |}).
  set (pr2 := {| pricingProvider := pricingProvider pr;
                 onDemandUpdateTime := t1; onDemandPrices := initialOnDemandPrices;
                 spotUpdateTime := t2; spotPrices := ∅;
                 fargateUpdateTime := fargateUpdateTime pr;
                 fargatePrice := fargatePrice pr |}).
  set (pr3 := {| pricingProvider := pricingProvider pr;
                 onDemandUpdateTime := t1; onDemandPrices := initialOnDemandPrices;
                 spotUpdateTime := t2; spotPrices := ∅;
                 fargateUpdateTime := t3; fargatePrice := FargatePrice_zero |}).
  exists pr1, pr2, pr3.
  unfold UpdateOnDemandPricing, UpdateSpotPricing, UpdateFargatePricing.
  cbn [pricingProvider pr1 pr2]. rewrite Hstatic. cbn.
  repeat split; subst pr1 pr2 pr3; rewrite ?Hstatic; reflexivity.
Qed.

Lemma StaticProvider_refreshes_witness :
  exists pr3,
    OnDemandPrice pr3 "m5.large" = (0.096%float, true) /\
    SpotPrice pr3 "m5.large" "us-east-1a" = (0%float, false) /\
    Repository_FargatePrice pr3 0.5%float 1%float = (0%float, false).
Proof.
  destruct (StaticProvider_refreshes samples.onDemandTable samples.background 40%Z 41%Z 42%Z
              (samples.filled (StaticProvider samples.onDemandTable)) eq_refl)
    as (pr1 & pr2 & pr3 & _ & _ & _ & Hod & Hspot & Hfargate).
  exists pr3. split; [ | split ].
  - rewrite Hod. reflexivity.
  - apply Hspot.
  - apply Hfargate.
Defined.

(** ** The on-demand fetch *)

Section OnDemandFetch.

Variable ParseFloat : string -> option float.
Variable Unmarshal_onDemand : string -> error + onDemandPriceItem.

Lemma parseOnDemandPage_dimensions_sound instanceType dimensions prices k v :
  foldl (parseOnDemandPage_dimension ParseFloat instanceType) prices dimensions !! k = Some v ->
  prices !! k = Some v \/
  (k = instanceType /\
   exists d, d ∈ dimensions /\ ParseFloat (PricePerUnit_USD d.2) = Some v /\
             PrimFloat.eqb v 0%float = false).
Proof.
  revert prices. induction dimensions as [ | d dimensions IH ]; intros prices; cbn [foldl].
  - now left.
  - intros [Hhead | (-> & d' & Hd' & Hprice)]%IH.
    + unfold parseOnDemandPage_dimension in Hhead.
      destruct (ParseFloat (PricePerUnit_USD d.2)) as [price | ] eqn:Hprice; [ | now left ].
      destruct (PrimFloat.eqb price 0%float) eqn:Hzero; [ now left | ].
      destruct (decide (instanceType = k)) as [-> | Hne].
      * rewrite lookup_insert_eq in Hhead. injection Hhead as ->.
        right. split; [ reflexivity | ]. exists d. split; [ apply elem_of_cons; now left | easy ].
      * rewrite lookup_insert_ne in Hhead by exact Hne. now left.
    + right. split; [ reflexivity | ]. exists d'. split; [ apply elem_of_cons; now right | easy ].
Qed.

Lemma parseOnDemandPage_terms_sound instanceType (terms : list (string * term)) prices k v :
  foldl (fun prices t =>
           foldl (parseOnDemandPage_dimension ParseFloat instanceType) prices
                 (PriceDimensions t.2))
        prices terms !! k = Some v ->
  prices !! k = Some v \/
  (k = instanceType /\
   exists t d, t ∈ terms /\ d ∈ PriceDimensions t.2 /\
               ParseFloat (PricePerUnit_USD d.2) = Some v /\
               PrimFloat.eqb v 0%float = false).
Proof.
  revert prices. induction terms as [ | t terms IH ]; intros prices; cbn [foldl].
  - now left.
  - intros [Hhead | (-> & t' & d & Ht' & Hd)]%IH.
    + apply parseOnDemandPage_dimensions_sound in Hhead as [Hold | (-> & d & Hd & Hprice)];
        [ now left | ].
      right. split; [ reflexivity | ]. exists t, d. split; [ apply elem_of_cons; now left | easy ].
    + right. split; [ reflexivity | ].
      exists t', d. split; [ apply elem_of_cons; now right | easy ].
Qed.

Lemma parseOnDemandPage_list_sound priceList prices found err k v :
  parseOnDemandPage_list ParseFloat Unmarshal_onDemand prices priceList = (found, err) ->
  found !! k = Some v ->
  prices !! k = Some v \/
  exists outer, outer ∈ priceList /\ onDemand_offers ParseFloat Unmarshal_onDemand outer k v.
Proof.
  revert prices. induction priceList as [ | outer priceList IH ]; intros prices;
    cbn [parseOnDemandPage_list].
  - intros [= <- <-] Hk. now left.
  - destruct (Unmarshal_onDemand outer) as [cause | pItem] eqn:Hdecode.
    + intros [= <- <-] Hk. now left.
    + intros Hrest Hk. destruct (IH _ Hrest Hk) as [Hitem | (outer' & Hin & Hoffers)].
      * unfold parseOnDemandPage_item in Hitem.
        destruct (String.eqb (od_InstanceType pItem) "") eqn:Hempty; [ now left | ].
        apply parseOnDemandPage_terms_sound in Hitem as [Hold | (-> & t & d & Ht & Hd & Hprice)];
          [ now left | ].
        right. exists outer. split; [ apply elem_of_cons; now left | ].
        exists pItem, t, d. apply String.eqb_neq in Hempty. easy.
      * right. exists outer'. split; [ apply elem_of_cons; now right | exact Hoffers ].
Qed.

Lemma fetchOnDemandPricing_pages_sound pages prices found k v :
  fetchOnDemandPricing_pages ParseFloat Unmarshal_onDemand prices pages = (found, None) ->
  found !! k = Some v ->
  prices !! k = Some v \/
  exists output outer,
    inr output ∈ pages /\ outer ∈ PriceList output /\
    onDemand_offers ParseFloat Unmarshal_onDemand outer k v.
Proof.
  revert prices. induction pages as [ | [err | output] pages IH ]; intros prices;
    cbn [fetchOnDemandPricing_pages].
  - intros [= <-] Hk. now left.
  - discriminate.
  - unfold parseOnDemandPage.
    destruct (parseOnDemandPage_list _ _ prices (PriceList output))
      as [prices' [err | ]] eqn:Hpage; [ discriminate | ].
    intros Hrest Hk. destruct (IH _ Hrest Hk) as [Hhere | (output' & outer & Hin & Hrest')].
    + destruct (parseOnDemandPage_list_sound _ _ _ _ _ _ Hpage Hhere)
        as [Hold | (outer & Hin & Hoffers)]; [ now left | ].
      right. exists output, outer. split; [ apply elem_of_cons; now left | easy ].
    + right. exists output', outer. split; [ apply elem_of_cons; now right | exact Hrest' ].
Qed.

(** X5. Every price in the table that the live provider's on-demand fetch
    returns was offered by a record of the shared-tenancy query or of the
    bare-metal query for that instance type: the record names the
    instance type, and one of its price dimensions parses to that price,
    which is not zero. *)
Theorem GetOnDemandPricing_sound (p : AWSProvider) (c : Context)
  (prices : OnDemandPriceList) (instanceType : string) (price : float) :
  AWSProvider_GetOnDemandPricing ParseFloat Unmarshal_onDemand p c = (prices, None) ->
  prices !! instanceType = Some price ->
  exists filters output outer,
    (filters = sharedFilters \/ filters = metalFilters) /\
    inr output ∈ PricingClient p c (fetchOnDemandPricing_input p filters) /\
    outer ∈ PriceList output /\
    onDemand_offers ParseFloat Unmarshal_onDemand outer instanceType price.
Proof.
  unfold AWSProvider_GetOnDemandPricing.
  destruct (fetchOnDemandPricing _ _ p c sharedFilters) as [shared [err | ]] eqn:Hshared;
    [ discriminate | ].
  destruct (fetchOnDemandPricing _ _ p c metalFilters) as [metal [err | ]] eqn:Hmetal;
    [ discriminate | ].
  destruct (len_is_zero shared || len_is_zero metal); [ discriminate | ].
  intros [= <-]. unfold lo_Assign. rewrite lookup_union_Some_raw.
  intros [Hk | [_ Hk]].
  - destruct (fetchOnDemandPricing_pages_sound _ _ _ _ _ Hmetal Hk)
      as [Hempty | (output & outer & Hin & Hout & Hoffers)].
    + rewrite lookup_empty in Hempty. discriminate Hempty.
    + exists metalFilters, output, outer. split; [ now right | easy ].
  - destruct (fetchOnDemandPricing_pages_sound _ _ _ _ _ Hshared Hk)
      as [Hempty | (output & outer & Hin & Hout & Hoffers)].
    + rewrite lookup_empty in Hempty. discriminate Hempty.
    + exists sharedFilters, output, outer. split; [ now left | easy ].
Qed.

(** X6. When the two queries both price an instance type, the table that
    the on-demand fetch returns holds the price of the bare-metal query;
    otherwise it holds the price of whichever query has one. *)
Theorem GetOnDemandPricing_merge (p : AWSProvider) (c : Context) (prices : OnDemandPriceList) :
  AWSProvider_GetOnDemandPricing ParseFloat Unmarshal_onDemand p c = (prices, None) ->
  exists shared metal,
    fetchOnDemandPricing ParseFloat Unmarshal_onDemand p c sharedFilters = (shared, None) /\
    fetchOnDemandPricing ParseFloat Unmarshal_onDemand p c metalFilters = (metal, None) /\
    forall instanceType,
      prices !! instanceType
      = match metal !! instanceType with
        | Some price => Some price
        | None => shared !! instanceType
        end.
Proof.
  unfold AWSProvider_GetOnDemandPricing.
  destruct (fetchOnDemandPricing _ _ p c sharedFilters) as [shared [err | ]];
    [ discriminate | ].
  destruct (fetchOnDemandPricing _ _ p c metalFilters) as [metal [err | ]];
    [ discriminate | ].
  destruct (len_is_zero shared || len_is_zero metal); [ discriminate | ].
  intros [= <-]. exists shared, metal. repeat split.
  intros instanceType. unfold lo_Assign. rewrite lookup_union.
  now destruct (metal !! instanceType), (shared !! instanceType).
Qed.

Lemma parseOnDemandPage_list_error priceList prices found err :
  parseOnDemandPage_list ParseFloat Unmarshal_onDemand prices priceList = (found, Some err) ->
  exists outer cause,
    outer ∈ priceList /\ Unmarshal_onDemand outer = inl cause /\
    err = wrapError "decoding: " cause.
Proof.
  revert prices. induction priceList as [ | outer priceList IH ]; intros prices;
    cbn [parseOnDemandPage_list]; [ discriminate | ].
  destruct (Unmarshal_onDemand outer) as [cause | pItem] eqn:Hdecode.
  - intros [= _ <-]. exists outer, cause. split; [ apply elem_of_cons; now left | easy ].
  - intros (outer' & cause & Hin & Hrest)%IH.
    exists outer', cause. split; [ apply elem_of_cons; now right | exact Hrest ].
Qed.

Lemma parseOnDemandPage_list_decodes priceList prices :
  Forall (onDemand_decodes Unmarshal_onDemand) priceList ->
  exists found,
    parseOnDemandPage_list ParseFloat Unmarshal_onDemand prices priceList = (found, None).
Proof.
  intros Hall. revert prices.
  induction Hall as [ | outer priceList [pItem Hdecode] _ IH ]; intros prices;
    cbn [parseOnDemandPage_list].
  - now exists prices.
  - rewrite Hdecode. apply IH.
Qed.

(** X7. [fetchOnDemandPricing] is all or nothing. When every page arrives
    and every entry decodes it returns a table and no error. Otherwise it
    returns no table (nil) and the error of a page that failed, unchanged,
    or the error of an entry that did not decode, wrapped as "decoding: ". *)
Theorem fetchOnDemandPricing_all_or_nothing (p : AWSProvider) (c : Context)
  (additionalFilters : list Filter) :
  let pages := PricingClient p c (fetchOnDemandPricing_input p additionalFilters) in
  let result := fetchOnDemandPricing ParseFloat Unmarshal_onDemand p c additionalFilters in
  (Forall (onDemand_page_decodes Unmarshal_onDemand) pages -> result.2 = None) /\
  (forall err, result.2 = Some err ->
     result.1 = ∅ /\ onDemand_failure Unmarshal_onDemand pages err).
Proof.
  cbv zeta. unfold fetchOnDemandPricing.
  generalize (PricingClient p c (fetchOnDemandPricing_input p additionalFilters)) as pages.
  generalize (∅ : OnDemandPriceList) at 1 2 3 as prices.
  intros prices pages. revert prices. induction pages as [ | [err | output] pages IH ];
    intros prices; cbn [fetchOnDemandPricing_pages].
  - split; [ reflexivity | discriminate ].
  - split.
    + intros Hall. apply Forall_cons in Hall as [(output & Hpage & _) _]. discriminate Hpage.
    + cbn. intros err' [= <-]. split; [ reflexivity | ]. left. apply elem_of_cons. now left.
  - unfold parseOnDemandPage.
    destruct (parseOnDemandPage_list _ _ prices (PriceList output))
      as [prices' [err | ]] eqn:Hpage.
    + split.
      * intros Hall. apply Forall_cons in Hall as [(output' & [= <-] & Hdecodes) _].
        destruct (parseOnDemandPage_list_decodes _ prices Hdecodes) as [found Hfound].
        rewrite Hfound in Hpage. discriminate Hpage.
      * cbn. intros err' [= ->]. split; [ reflexivity | ].
        apply parseOnDemandPage_list_error in Hpage as (outer & cause & Hin & Hdecode & ->).
        right. exists output, outer, cause. split; [ apply elem_of_cons; now left | easy ].
    + destruct (IH prices') as [Hok Herr]. split.
      * intros Hall. apply Forall_cons in Hall as [_ Hall]. now apply Hok.
      * intros err Hresult. destruct (Herr err Hresult) as [Hnil Hfailure].
        split; [ exact Hnil | ].
        destruct Hfailure as [Hin | (output' & outer & cause & Hin & Hrest)].
        -- left. apply elem_of_cons. now right.
        -- right. exists output', outer, cause.
           split; [ apply elem_of_cons; now right | exact Hrest ].
Qed.

Lemma parseOnDemandPage_item_unusable prices outer pItem :
  Unmarshal_onDemand outer = inr pItem ->
  od_InstanceType pItem = "" \/
  Forall (fun t => Forall (dimension_skipped ParseFloat) (PriceDimensions t.2))
         (od_OnDemand pItem) ->
  parseOnDemandPage_item ParseFloat prices pItem = prices.
Proof.
  intros _ [Hempty | Hskipped]; unfold parseOnDemandPage_item.
  - now rewrite Hempty.
  - destruct (String.eqb (od_InstanceType pItem) ""); [ reflexivity | ].
    induction Hskipped as [ | t terms Ht _ IH ]; cbn [foldl]; [ reflexivity | ].
    rewrite <- IH at 2. f_equal.
    induction Ht as [ | d dimensions Hd _ IHd ]; cbn [foldl]; [ reflexivity | ].
    rewrite <- IHd at 2. f_equal.
    unfold parseOnDemandPage_dimension. now destruct Hd as [-> | (price & -> & ->)].
Qed.

(** X8. [parseOnDemandPage] takes nothing from an entry that names no
    instance type, nor from one whose price dimensions all fail to parse
    or parse to zero: the page parses as it does without that entry. *)
Theorem parseOnDemandPage_skips_unusable prices before outer after :
  onDemand_unusable ParseFloat Unmarshal_onDemand outer ->
  parseOnDemandPage ParseFloat Unmarshal_onDemand prices
    (mkGetProductsOutput (before ++ outer :: after))
  = parseOnDemandPage ParseFloat Unmarshal_onDemand prices
    (mkGetProductsOutput (before ++ after)).
Proof.
  intros (pItem & Hdecode & Hunusable). unfold parseOnDemandPage. cbn [PriceList].
  revert prices. induction before as [ | entry before IH ]; intros prices;
    cbn [app parseOnDemandPage_list].
  - now rewrite Hdecode, (parseOnDemandPage_item_unusable _ _ _ Hdecode Hunusable).
  - destruct (Unmarshal_onDemand entry); [ reflexivity | apply IH ].
Qed.

End OnDemandFetch.

Lemma GetOnDemandPricing_sound_witness :
  exists filters output outer,
    (filters = sharedFilters \/ filters = metalFilters) /\
    inr output ∈ PricingClient samples.plainCatalog samples.background
                   (fetchOnDemandPricing_input samples.plainCatalog filters) /\
    outer ∈ PriceList output /\
    onDemand_offers samples.ParseFloat samples.Unmarshal_onDemand outer "m5.metal" 4.608%float.
Proof.
  apply (GetOnDemandPricing_sound samples.ParseFloat samples.Unmarshal_onDemand
           samples.plainCatalog samples.background
           {[ "m5.large" := 0.096%float; "m5.metal" := 4.608%float ]}).
  - reflexivity.
  - reflexivity.
Defined.

Lemma GetOnDemandPricing_merge_witness :
  exists prices,
    AWSProvider_GetOnDemandPricing samples.ParseFloat samples.Unmarshal_onDemand_more
      samples.overlappingCatalog samples.background = (prices, None) /\
    prices !! "m5.large" = Some 4.608%float /\
    prices !! "c5.large" = Some 0.05%float.
Proof.
  exists {[ "m5.large" := 4.608%float; "c5.large" := 0.05%float ]}.
  assert (Hfetch : AWSProvider_GetOnDemandPricing samples.ParseFloat
                     samples.Unmarshal_onDemand_more samples.overlappingCatalog
                     samples.background
                   = ({[ "m5.large" := 4.608%float; "c5.large" := 0.05%float ]}, None))
    by reflexivity.
  split; [ exact Hfetch | ].
  destruct (GetOnDemandPricing_merge samples.ParseFloat samples.Unmarshal_onDemand_more
              samples.overlappingCatalog samples.background _ Hfetch)
    as (shared & metal & Hshared & Hmetal & Hlookup).
  injection Hshared as <-. injection Hmetal as <-.
  split; rewrite Hlookup; reflexivity.
Defined.

Lemma fetchOnDemandPricing_all_or_nothing_witness :
  fetchOnDemandPricing samples.ParseFloat samples.Unmarshal_onDemand
    samples.plainCatalog samples.background sharedFilters
  = ({[ "m5.large" := 0.096%float ]}, None) /\
  fetchOnDemandPricing samples.ParseFloat samples.Unmarshal_onDemand
    samples.interruptedCatalog samples.background sharedFilters
  = (∅, Some samples.timeout_error) /\
  fetchOnDemandPricing samples.ParseFloat samples.Unmarshal_onDemand
    samples.garbledCatalog samples.background sharedFilters
  = (∅, Some (wrapError "decoding: " samples.syntax_error)).
Proof.
  split; [ | split ].
  - destruct (fetchOnDemandPricing_all_or_nothing samples.ParseFloat
                samples.Unmarshal_onDemand samples.plainCatalog samples.background
                sharedFilters) as [Hok _].
    assert (Hnone : (fetchOnDemandPricing samples.ParseFloat samples.Unmarshal_onDemand
                       samples.plainCatalog samples.background sharedFilters).2 = None).
    { apply Hok. constructor; [ | constructor ].
      eexists. split; [ reflexivity | ].
      constructor; [ | constructor ]. eexists. reflexivity. }
    reflexivity.
  - destruct (fetchOnDemandPricing_all_or_nothing samples.ParseFloat
                samples.Unmarshal_onDemand samples.interruptedCatalog samples.background
                sharedFilters) as [_ Herr].
    destruct (Herr samples.timeout_error eq_refl) as [Hnil _].
    reflexivity.
  - destruct (fetchOnDemandPricing_all_or_nothing samples.ParseFloat
                samples.Unmarshal_onDemand samples.garbledCatalog samples.background
                sharedFilters) as [_ Herr].
    destruct (Herr (wrapError "decoding: " samples.syntax_error) eq_refl) as [Hnil _].
    reflexivity.
Defined.

Lemma parseOnDemandPage_skips_unusable_witness :
  parseOnDemandPage samples.ParseFloat samples.Unmarshal_onDemand_more ∅
    (mkGetProductsOutput ["m5.large/shared"; "untyped"; "t2.free"; "c5.large/shared"])
  = ({[ "m5.large" := 0.096%float; "c5.large" := 0.05%float ]}, None).
Proof.
  rewrite (parseOnDemandPage_skips_unusable samples.ParseFloat samples.Unmarshal_onDemand_more
             ∅ ["m5.large/shared"] "untyped" ["t2.free"; "c5.large/shared"]).
  - rewrite (parseOnDemandPage_skips_unusable samples.ParseFloat
               samples.Unmarshal_onDemand_more
               ∅ ["m5.large/shared"] "t2.free" ["c5.large/shared"]).
    + reflexivity.
    + eexists. split; [ reflexivity | ]. right.
      constructor; [ | constructor ]. constructor; [ | constructor ].
      right. exists 0%float. split; reflexivity.
  - eexists. split; [ reflexivity | ]. left. reflexivity.
Defined.

(** ** The spot fetch, continued *)

Section SpotFetchMore.

Variable ParseFloat : string -> option float.

Lemma GetSpotPricing_pages_failed prices feed err rest :
  GetSpotPricing_pages ParseFloat prices ((inr <$> feed) ++ inl err :: rest) = (∅, Some err).
Proof.
  revert prices. induction feed as [ | output feed IH ]; intros prices; cbn; [ reflexivity | ].
  apply IH.
Qed.

(** X9. When a page of the spot feed fails, the spot fetch returns the
    error of that page and no table: the records of the pages that had
    arrived before are dropped. *)
Theorem GetSpotPricing_page_failure (p : AWSProvider) (now : Time) (c : Context)
  feed err rest :
  EC2Client p c (GetSpotPricing_input now) = ((inr <$> feed) ++ inl err :: rest)%list ->
  AWSProvider_GetSpotPricing ParseFloat p now c = (∅, Some err).
Proof.
  intros Hpages. unfold AWSProvider_GetSpotPricing.
  now rewrite Hpages, GetSpotPricing_pages_failed.
Qed.

Lemma GetSpotPricing_record_sound prices sph instanceType az price :
  spot_entry (GetSpotPricing_record ParseFloat prices sph) instanceType az = Some price ->
  spot_entry prices instanceType az = Some price \/
  spot_stores ParseFloat sph instanceType az price.
Proof.
  unfold GetSpotPricing_record, spot_entry, spot_stores.
  destruct (ParseFloat _) as [spotPrice | ]; [ | now left ].
  destruct (sph_Timestamp sph) as [ts | ]; [ | now left ].
  cbv zeta.
  destruct (decide (sph_InstanceType sph = instanceType)) as [Hit | Hit].
  - rewrite Hit, lookup_insert_eq.
    destruct (decide (aws_ToString (sph_AvailabilityZone sph) = az)) as [Haz | Haz].
    + rewrite Haz, lookup_insert_eq. intros [= ->]. right. easy.
    + rewrite lookup_insert_ne by exact Haz.
      destruct (prices !! instanceType); [ now left | ].
      rewrite lookup_empty. discriminate.
  - rewrite lookup_insert_ne by exact Hit. now left.
Qed.

Lemma GetSpotPricing_records_sound records prices instanceType az price :
  spot_entry (foldl (GetSpotPricing_record ParseFloat) prices records) instanceType az
  = Some price ->
  spot_entry prices instanceType az = Some price \/
  exists sph, sph ∈ records /\ spot_stores ParseFloat sph instanceType az price.
Proof.
  revert prices. induction records as [ | sph records IH ]; intros prices; cbn [foldl].
  - now left.
  - intros [Hhead | (sph' & Hin & Hstores)]%IH.
    + apply GetSpotPricing_record_sound in Hhead as [Hold | Hstores]; [ now left | ].
      right. exists sph. split; [ apply elem_of_cons; now left | exact Hstores ].
    + right. exists sph'. split; [ apply elem_of_cons; now right | exact Hstores ].
Qed.

Lemma GetSpotPricing_pages_sound pages prices found instanceType az price :
  GetSpotPricing_pages ParseFloat prices pages = (found, None) ->
  spot_entry found instanceType az = Some price ->
  spot_entry prices instanceType az = Some price \/
  exists output sph,
    inr output ∈ pages /\ sph ∈ SpotPriceHistory output /\
    spot_stores ParseFloat sph instanceType az price.
Proof.
  revert prices. induction pages as [ | [err | output] pages IH ]; intros prices;
    cbn [GetSpotPricing_pages].
  - intros [= <-] Hentry. now left.
  - discriminate.
  - intros Hrest Hentry.
    destruct (IH _ Hrest Hentry) as [Hhere | (output' & sph & Hin & Hrest')].
    + apply GetSpotPricing_records_sound in Hhere as [Hold | (sph & Hin & Hstores)];
        [ now left | ].
      right. exists output, sph. split; [ apply elem_of_cons; now left | easy ].
    + right. exists output', sph. split; [ apply elem_of_cons; now right | exact Hrest' ].
Qed.

Lemma GetSpotPricing_record_zones prices sph :
  zones_nonempty prices -> zones_nonempty (GetSpotPricing_record ParseFloat prices sph).
Proof.
  intros Hprices. unfold GetSpotPricing_record.
  destruct (ParseFloat _) as [spotPrice | ]; [ | exact Hprices ].
  destruct (sph_Timestamp sph) as [ts | ]; [ | exact Hprices ].
  cbv zeta. intros instanceType zones.
  destruct (decide (sph_InstanceType sph = instanceType)) as [Hit | Hit].
  - rewrite Hit, lookup_insert_eq. intros [= <-]. apply insert_non_empty.
  - rewrite lookup_insert_ne by exact Hit. apply Hprices.
Qed.

Lemma GetSpotPricing_pages_zones pages prices found :
  zones_nonempty prices ->
  GetSpotPricing_pages ParseFloat prices pages = (found, None) ->
  zones_nonempty found.
Proof.
  revert prices. induction pages as [ | [err | output] pages IH ]; intros prices Hprices;
    cbn [GetSpotPricing_pages].
  - now intros [= <-].
  - discriminate.
  - apply IH. generalize (SpotPriceHistory output) as records. intros records.
    revert prices Hprices. induction records as [ | sph records IHr ]; intros prices Hprices;
      cbn [foldl]; [ exact Hprices | ].
    apply IHr. now apply GetSpotPricing_record_zones.
Qed.

(** X10. The table that the spot fetch returns holds nothing but what the
    feed said: every price in it is the parsed price of a record of the
    feed that has a timestamp and carries that instance type and zone. And
    every instance type in the table has at least one zone. *)
Theorem GetSpotPricing_sound (p : AWSProvider) (now : Time) (c : Context)
  (prices : SpotPriceList) :
  AWSProvider_GetSpotPricing ParseFloat p now c = (prices, None) ->
  (forall instanceType az price,
     spot_entry prices instanceType az = Some price ->
     exists output sph,
       inr output ∈ EC2Client p c (GetSpotPricing_input now) /\
       sph ∈ SpotPriceHistory output /\
       spot_stores ParseFloat sph instanceType az price) /\
  (forall instanceType zones, prices !! instanceType = Some zones -> zones <> ∅).
Proof.
  unfold AWSProvider_GetSpotPricing.
  destruct (GetSpotPricing_pages _ _ _) as [found [err | ]] eqn:Hpages; [ discriminate | ].
  destruct (len_is_zero found); [ discriminate | ].
  intros [= <-]. split.
  - intros instanceType az price Hentry.
    destruct (GetSpotPricing_pages_sound _ _ _ _ _ _ Hpages Hentry) as [Hempty | Hfound];
      [ | exact Hfound ].
    unfold spot_entry in Hempty. rewrite lookup_empty in Hempty. discriminate Hempty.
  - eapply GetSpotPricing_pages_zones; [ | exact Hpages ].
    intros instanceType zones. rewrite lookup_empty. discriminate.
Qed.

End SpotFetchMore.

Lemma GetSpotPricing_page_failure_witness :
  AWSProvider_GetSpotPricing samples.ParseFloat samples.interruptedSpotProvider
    50%Z samples.background
  = (∅, Some samples.timeout_error).
Proof.
  apply (GetSpotPricing_page_failure samples.ParseFloat samples.interruptedSpotProvider
           50%Z samples.background
           [mkDescribeSpotPriceHistoryOutput [samples.spotFirst]] samples.timeout_error
           [inr (mkDescribeSpotPriceHistoryOutput [samples.spotLater])]).
  reflexivity.
Defined.

Lemma GetSpotPricing_sound_witness :
  exists output sph,
    inr output ∈ EC2Client (samples.spotProvider samples.spotFeed) samples.background
                   (GetSpotPricing_input 50%Z) /\
    sph ∈ SpotPriceHistory output /\
    spot_stores samples.ParseFloat sph "m5.large" "us-east-1a" 0.031%float.
Proof.
  destruct (GetSpotPricing_sound samples.ParseFloat (samples.spotProvider samples.spotFeed)
              50%Z samples.background
              {[ "m5.large" := ({[ "us-east-1a" := 0.031%float ]} : gmap string float) ]}
              eq_refl)
    as [Hsound _].
  apply Hsound. reflexivity.
Defined.

(** ** The Fargate fetch, continued *)

Section FargateFetchMore.

Variable ParseFloat : string -> option float.
Variable Unmarshal_fargate : string -> error + fargatePriceItem.

Lemma GetFargatePricing_pages_app price price' feed pages :
  GetFargatePricing_pages ParseFloat Unmarshal_fargate price (inr <$> feed)
  = Returns (price', None) ->
  GetFargatePricing_pages ParseFloat Unmarshal_fargate price ((inr <$> feed) ++ pages)
  = GetFargatePricing_pages ParseFloat Unmarshal_fargate price' pages.
Proof.
  revert price. induction feed as [ | output feed IH ]; intros price; cbn.
  - now intros [= ->].
  - destruct (parseFargatePage _ _ price output) as [[next | ] [err | ]];
      try discriminate. apply IH.
Qed.

(** X11. When a page of the Fargate query fails after pages that parsed,
    [GetFargatePricing] returns the error of that page together with the
    rates found so far, and a refresh from it leaves the repository as it
    was. *)
Theorem GetFargatePricing_page_failure (p : AWSProvider) (c : Context)
  feed err rest price :
  PricingClient p c (GetFargatePricing_input p) = ((inr <$> feed) ++ inl err :: rest)%list ->
  GetFargatePricing_pages ParseFloat Unmarshal_fargate FargatePrice_zero (inr <$> feed)
  = Returns (price, None) ->
  AWSProvider_GetFargatePricing ParseFloat Unmarshal_fargate p c = Returns (price, Some err) /\
  forall Unmarshal_onDemand now t pr,
    pricingProvider pr
    = AWSProvider_Provider ParseFloat Unmarshal_onDemand Unmarshal_fargate p t ->
    UpdateFargatePricing c now pr = Returns (pr, Some err).
Proof.
  intros Hpages Hfeed.
  assert (Hfetch : AWSProvider_GetFargatePricing ParseFloat Unmarshal_fargate p c
                   = Returns (price, Some err)).
  { unfold AWSProvider_GetFargatePricing.
    now rewrite Hpages, (GetFargatePricing_pages_app _ _ _ _ Hfeed). }
  split; [ exact Hfetch | ].
  intros Unmarshal_onDemand now t pr Hlive. unfold UpdateFargatePricing.
  rewrite Hlive. cbn. now rewrite Hfetch.
Qed.

(** X12. When an entry of a page of the Fargate query does not decode,
    and the pages before it had arrived, [GetFargatePricing] does not
    return the decoding error: [parseFargatePage] hands back a nil
    pointer with it and the fetch panics on [*price]. *)
Theorem GetFargatePricing_decoding_error_panics (p : AWSProvider) (c : Context)
  feed before outer after rest cause :
  PricingClient p c (GetFargatePricing_input p)
    = ((inr <$> feed) ++ inr (mkGetProductsOutput (before ++ outer :: after)) :: rest)%list ->
  Unmarshal_fargate outer = inl cause ->
  AWSProvider_GetFargatePricing ParseFloat Unmarshal_fargate p c = Panics nil_dereference.
Proof.
  intros Hpages Hdecode. unfold AWSProvider_GetFargatePricing. rewrite Hpages.
  apply GetFargatePricing_pages_parse_error. intros fargatePrice.
  unfold parseFargatePage. cbn [PriceList]. rewrite foldl_err_app.
  destruct (foldl_err _ fargatePrice before) as [err | fargatePrice']; [ now exists err | ].
  cbn [foldl_err]. unfold parseFargatePage_item at 1. rewrite Hdecode.
  now exists (wrapError "decoding: " cause).
Qed.

End FargateFetchMore.

Lemma GetFargatePricing_page_failure_witness :
  AWSProvider_GetFargatePricing samples.ParseFloat samples.Unmarshal_fargate
    samples.interruptedFargateCatalog samples.background
  = Returns (mkFargatePrice 0.04048%float 0%float, Some samples.timeout_error).
Proof.
  apply (GetFargatePricing_page_failure samples.ParseFloat samples.Unmarshal_fargate
           samples.interruptedFargateCatalog samples.background
           [mkGetProductsOutput ["fargate-vcpu"]] samples.timeout_error
           [samples.page ["fargate-gb"]]).
  - reflexivity.
  - reflexivity.
Defined.

Lemma GetFargatePricing_decoding_error_panics_witness :
  AWSProvider_GetFargatePricing samples.ParseFloat samples.Unmarshal_fargate
    samples.garbledCatalog samples.background
  = Panics nil_dereference.
Proof.
  apply (GetFargatePricing_decoding_error_panics samples.ParseFloat samples.Unmarshal_fargate
           samples.garbledCatalog samples.background [] [] "<html>" [] [] samples.syntax_error).
  - reflexivity.
  - reflexivity.
Defined.

(** ** Where the Fargate rates come from *)

Section FargateRates.

Variable ParseFloat : string -> option float.
Variable Unmarshal_fargate : string -> error + fargatePriceItem.

(** One of the two rates, with the marker of its unit. *)
Variable rate : FargatePrice -> float.
Variable marker : string.

Hypothesis rate_dimension :
  forall name fargatePrice v fargatePrice',
    parseFargatePage_dimension ParseFloat name fargatePrice v = inr fargatePrice' ->
    rate fargatePrice' = rate fargatePrice \/
    (strings_Contains name marker = true /\
     ParseFloat (PricePerUnit_USD v.2) = Some (rate fargatePrice') /\
     PrimFloat.eqb (rate fargatePrice') 0%float = false).

Lemma rate_dimensions name dimensions fargatePrice fargatePrice' :
  foldl_err (parseFargatePage_dimension ParseFloat name) fargatePrice dimensions
  = inr fargatePrice' ->
  rate fargatePrice' = rate fargatePrice \/
  (strings_Contains name marker = true /\
   exists v, v ∈ dimensions /\
             ParseFloat (PricePerUnit_USD v.2) = Some (rate fargatePrice') /\
             PrimFloat.eqb (rate fargatePrice') 0%float = false).
Proof.
  revert fargatePrice. induction dimensions as [ | v dimensions IH ]; intros fargatePrice;
    cbn [foldl_err].
  - intros [= ->]. now left.
  - destruct (parseFargatePage_dimension ParseFloat name fargatePrice v)
      as [err | next] eqn:Hhead; [ discriminate | ].
    intros [Hsame | (Hname & v' & Hin & Hprice)]%IH.
    + rewrite Hsame. destruct (rate_dimension _ _ _ _ Hhead) as [Hold | (Hname & Hprice)];
        [ now left | ].
      right. split; [ exact Hname | ].
      exists v. split; [ apply elem_of_cons; now left | exact Hprice ].
    + right. split; [ exact Hname | ].
      exists v'. split; [ apply elem_of_cons; now right | exact Hprice ].
Qed.

Lemma rate_terms name (terms : list (string * term)) fargatePrice fargatePrice' :
  foldl_err (fun fp t => foldl_err (parseFargatePage_dimension ParseFloat name) fp
                                   (PriceDimensions t.2))
            fargatePrice terms
  = inr fargatePrice' ->
  rate fargatePrice' = rate fargatePrice \/
  (strings_Contains name marker = true /\
   exists t v, t ∈ terms /\ v ∈ PriceDimensions t.2 /\
               ParseFloat (PricePerUnit_USD v.2) = Some (rate fargatePrice') /\
               PrimFloat.eqb (rate fargatePrice') 0%float = false).
Proof.
  revert fargatePrice. induction terms as [ | t terms IH ]; intros fargatePrice;
    cbn [foldl_err].
  - intros [= ->]. now left.
  - destruct (foldl_err _ fargatePrice (PriceDimensions t.2)) as [err | next] eqn:Hhead;
      [ discriminate | ].
    intros [Hsame | (Hname & t' & v & Hin & Hrest)]%IH.
    + rewrite Hsame. destruct (rate_dimensions _ _ _ _ Hhead) as [Hold | (Hname & v & Hin & Hprice)];
        [ now left | ].
      right. split; [ exact Hname | ].
      exists t, v. split; [ apply elem_of_cons; now left | easy ].
    + right. split; [ exact Hname | ].
      exists t', v. split; [ apply elem_of_cons; now right | exact Hrest ].
Qed.

Lemma rate_entries entries fargatePrice fargatePrice' :
  foldl_err (parseFargatePage_item ParseFloat Unmarshal_fargate) fargatePrice entries
  = inr fargatePrice' ->
  rate fargatePrice' = rate fargatePrice \/
  exists outer, outer ∈ entries /\
    fargate_offers ParseFloat Unmarshal_fargate outer marker (rate fargatePrice').
Proof.
  revert fargatePrice. induction entries as [ | outer entries IH ]; intros fargatePrice;
    cbn [foldl_err].
  - intros [= ->]. now left.
  - destruct (parseFargatePage_item _ _ fargatePrice outer) as [err | next] eqn:Hhead;
      [ discriminate | ].
    intros [Hsame | (outer' & Hin & Hoffers)]%IH.
    + rewrite Hsame. unfold parseFargatePage_item in Hhead.
      destruct (Unmarshal_fargate outer) as [cause | pItem] eqn:Hdecode; [ discriminate | ].
      destruct (strings_Contains (fg_UsageType pItem) "Fargate") eqn:Hrelevant; cbn [negb] in Hhead.
      * destruct (rate_terms _ _ _ _ Hhead) as [Hold | (Hname & t & v & Ht & Hv & Hprice)];
          [ now left | ].
        right. exists outer. split; [ apply elem_of_cons; now left | ].
        exists pItem, t, v. easy.
      * injection Hhead as ->. now left.
    + right. exists outer'. split; [ apply elem_of_cons; now right | exact Hoffers ].
Qed.

Lemma rate_pages pages price price' :
  GetFargatePricing_pages ParseFloat Unmarshal_fargate price pages = Returns (price', None) ->
  rate price' = rate price \/
  exists output outer,
    inr output ∈ pages /\ outer ∈ PriceList output /\
    fargate_offers ParseFloat Unmarshal_fargate outer marker (rate price').
Proof.
  revert price. induction pages as [ | [err | output] pages IH ]; intros price;
    cbn [GetFargatePricing_pages].
  - intros [= ->]. now left.
  - discriminate.
  - unfold parseFargatePage.
    destruct (foldl_err _ price (PriceList output)) as [err | next] eqn:Hpage;
      [ discriminate | ].
    intros [Hsame | (output' & outer & Hin & Hrest)]%IH.
    + rewrite Hsame. destruct (rate_entries _ _ _ Hpage) as [Hold | (outer & Hin & Hoffers)];
        [ now left | ].
      right. exists output, outer. split; [ apply elem_of_cons; now left | easy ].
    + right. exists output', outer. split; [ apply elem_of_cons; now right | exact Hrest ].
Qed.

End FargateRates.

Section FargateSound.

Variable ParseFloat : string -> option float.
Variable Unmarshal_fargate : string -> error + fargatePriceItem.

Lemma VCPUPerHour_dimension name fargatePrice v fargatePrice' :
  parseFargatePage_dimension ParseFloat name fargatePrice v = inr fargatePrice' ->
  VCPUPerHour fargatePrice' = VCPUPerHour fargatePrice \/
  (strings_Contains name "vCPU-Hours" = true /\
   ParseFloat (PricePerUnit_USD v.2) = Some (VCPUPerHour fargatePrice') /\
   PrimFloat.eqb (VCPUPerHour fargatePrice') 0%float = false).
Proof.
  unfold parseFargatePage_dimension.
  destruct (ParseFloat _) as [price | ]; [ | intros [= <-]; now left ].
  destruct (PrimFloat.eqb price 0%float) eqn:Hzero; [ intros [= <-]; now left | ].
  destruct (strings_Contains name "vCPU-Hours"); [ intros [= <-]; now right | ].
  destruct (strings_Contains name "GB-Hours"); [ intros [= <-]; now left | discriminate ].
Qed.

Lemma GBPerHour_dimension name fargatePrice v fargatePrice' :
  parseFargatePage_dimension ParseFloat name fargatePrice v = inr fargatePrice' ->
  GBPerHour fargatePrice' = GBPerHour fargatePrice \/
  (strings_Contains name "GB-Hours" = true /\
   ParseFloat (PricePerUnit_USD v.2) = Some (GBPerHour fargatePrice') /\
   PrimFloat.eqb (GBPerHour fargatePrice') 0%float = false).
Proof.
  unfold parseFargatePage_dimension.
  destruct (ParseFloat _) as [price | ]; [ | intros [= <-]; now left ].
  destruct (PrimFloat.eqb price 0%float) eqn:Hzero; [ intros [= <-]; now left | ].
  destruct (strings_Contains name "vCPU-Hours"); [ intros [= <-]; now left | ].
  destruct (strings_Contains name "GB-Hours"); [ intros [= <-]; now right | discriminate ].
Qed.

(** X13. Each of the two rates that a successful Fargate fetch returns is
    either still the zero it started from, or the price of a record of
    the catalog about Fargate whose usage type holds the marker of that
    unit ("vCPU-Hours", "GB-Hours"); such a price parses and is not zero. *)
Theorem GetFargatePricing_sound (p : AWSProvider) (c : Context) (price : FargatePrice) :
  AWSProvider_GetFargatePricing ParseFloat Unmarshal_fargate p c = Returns (price, None) ->
  (VCPUPerHour price = 0%float \/
   exists output outer,
     inr output ∈ PricingClient p c (GetFargatePricing_input p) /\
     outer ∈ PriceList output /\
     fargate_offers ParseFloat Unmarshal_fargate outer "vCPU-Hours" (VCPUPerHour price)) /\
  (GBPerHour price = 0%float \/
   exists output outer,
     inr output ∈ PricingClient p c (GetFargatePricing_input p) /\
     outer ∈ PriceList output /\
     fargate_offers ParseFloat Unmarshal_fargate outer "GB-Hours" (GBPerHour price)).
Proof.
  unfold AWSProvider_GetFargatePricing. intros Hfetch. split.
  - exact (rate_pages ParseFloat Unmarshal_fargate VCPUPerHour "vCPU-Hours"
             VCPUPerHour_dimension _ _ _ Hfetch).
  - exact (rate_pages ParseFloat Unmarshal_fargate GBPerHour "GB-Hours"
             GBPerHour_dimension _ _ _ Hfetch).
Qed.

End FargateSound.

Lemma GetFargatePricing_sound_witness :
  exists output outer,
    inr output ∈ PricingClient samples.plainCatalog samples.background
                   (GetFargatePricing_input samples.plainCatalog) /\
    outer ∈ PriceList output /\
    fargate_offers samples.ParseFloat samples.Unmarshal_fargate outer "GB-Hours" 0.004445%float.
Proof.
  destruct (GetFargatePricing_sound samples.ParseFloat samples.Unmarshal_fargate
              samples.plainCatalog samples.background samples.fargateRates eq_refl)
    as [_ [Hzero | Hoffered]].
  - exfalso.
    assert (Heq : PrimFloat.eqb (GBPerHour samples.fargateRates) 0%float = true)
      by (now rewrite Hzero).
    vm_compute in Heq. discriminate Heq.
  - exact Hoffered.
Defined.

(** ** Price resolution *)

Section Resolution.

Context {Pod : Type}.
Variable FargateCapacityProvisioned : Pod -> float * float * bool.
Variable Sprintf_shape : float -> float -> string.

(** X14. [UpdatePrice] resolves a node from the table of its
    classification and from nothing else. An on-demand node gets the
    on-demand price of its instance type; a spot node gets the spot price
    of its instance type in its own zone, with no fallback to another
    zone or to the on-demand table; a Fargate node with exactly one pod,
    which has a provisioned shape, gets cpu * VCPUPerHour + memory *
    GBPerHour unless a rate is zero. Where the table has no entry the
    price is NaN. *)
Theorem UpdatePrice_resolves (pricingRepository : Repository) (n : Node Pod) :
  let n' := UpdatePrice FargateCapacityProvisioned Sprintf_shape pricingRepository n in
  let instanceType := InstanceType FargateCapacityProvisioned Sprintf_shape n in
  (CapacityType n = NodeOnDemand ->
   Price n' = match onDemandPrices pricingRepository !! instanceType with
              | Some price => price
              | None => nan
              end) /\
  (CapacityType n = NodeSpot ->
   Price n' = match spot_entry (spotPrices pricingRepository) instanceType (Zone n) with
              | Some price => price
              | None => nan
              end) /\
  (CapacityType n = NodeFargate ->
   forall p cpu mem,
     Pods n = [p] -> FargateCapacityProvisioned p = (cpu, mem, true) ->
     Price n' = if PrimFloat.eqb (GBPerHour (fargatePrice pricingRepository)) 0%float
                   || PrimFloat.eqb (VCPUPerHour (fargatePrice pricingRepository)) 0%float
                then nan
                else (cpu * VCPUPerHour (fargatePrice pricingRepository)
                      + mem * GBPerHour (fargatePrice pricingRepository))%float).
Proof.
  cbv zeta. unfold UpdatePrice.
  change (IsOnDemand (setPrice n nan)) with (IsOnDemand n).
  change (IsSpot (setPrice n nan)) with (IsSpot n).
  change (IsFargate (setPrice n nan)) with (IsFargate n).
  change (Pods (setPrice n nan)) with (Pods n).
  change (Zone (setPrice n nan)) with (Zone n).
  change (InstanceType FargateCapacityProvisioned Sprintf_shape (setPrice n nan))
    with (InstanceType FargateCapacityProvisioned Sprintf_shape n).
  unfold CapacityType. split; [ | split ].
  - destruct (IsOnDemand n); [ intros _ | destruct (IsSpot n), (IsFargate n); discriminate ].
    unfold OnDemandPrice. now destruct (onDemandPrices pricingRepository !! _).
  - destruct (IsOnDemand n); [ discriminate | ].
    destruct (IsSpot n); [ intros _ | destruct (IsFargate n); discriminate ].
    unfold SpotPrice, spot_entry.
    destruct (spotPrices pricingRepository !! _) as [zones | ]; [ | reflexivity ].
    now destruct (zones !! Zone n).
  - destruct (IsOnDemand n); [ discriminate | ].
    destruct (IsSpot n); [ discriminate | ].
    destruct (IsFargate n); [ intros _ | discriminate ].
    intros p cpu mem -> Hshape. cbn [length Nat.eqb andb]. rewrite Hshape.
    unfold Repository_FargatePrice. now destruct (_ || _).
Qed.

(** X15. [UpdatePrice] changes nothing but the price: labels, pods and
    classification stay. The price it sets does not depend on the price
    the node had, so resolving twice gives what resolving once gives. *)
Theorem UpdatePrice_only_price (pricingRepository : Repository) (n : Node Pod) :
  let resolve := UpdatePrice FargateCapacityProvisioned Sprintf_shape pricingRepository in
  Labels (resolve n) = Labels n /\
  pods (resolve n) = pods n /\
  CapacityType (resolve n) = CapacityType n /\
  (forall price, resolve (setPrice n price) = resolve n) /\
  resolve (resolve n) = resolve n.
Proof.
  cbv zeta.
  assert (Hshape : exists price,
            UpdatePrice FargateCapacityProvisioned Sprintf_shape pricingRepository n
            = setPrice n price).
  { unfold UpdatePrice.
    destruct (IsOnDemand _); [ destruct (OnDemandPrice _ _) as [price []]; eauto | ].
    destruct (IsSpot _); [ destruct (SpotPrice _ _ _) as [price []]; eauto | ].
    destruct (_ && _); [ | eauto ].
    destruct (Pods _) as [ | p ps ]; [ eauto | ].
    destruct (FargateCapacityProvisioned p) as [[cpu mem] []]; [ | eauto ].
    destruct (Repository_FargatePrice _ _ _) as [price []]; eauto. }
  assert (Hprevious : forall price,
            UpdatePrice FargateCapacityProvisioned Sprintf_shape pricingRepository
              (setPrice n price)
            = UpdatePrice FargateCapacityProvisioned Sprintf_shape pricingRepository n)
    by reflexivity.
  destruct Hshape as [price Hresolved].
  split; [ now rewrite Hresolved | ]. split; [ now rewrite Hresolved | ].
  split; [ now rewrite Hresolved | ]. split; [ exact Hprevious | ].
  rewrite Hresolved at 1. apply Hprevious.
Qed.

End Resolution.

Lemma UpdatePrice_resolves_witness :
  let resolve := UpdatePrice samples.FargateCapacityProvisioned samples.Sprintf_shape
                   (samples.filled samples.failingProvider) in
  Price (resolve samples.spotNode) = 0.03%float /\
  HasPrice (resolve samples.spotNodeElsewhere) = false /\
  Price (resolve samples.fargateNode) = 0.024685000000000002%float.
Proof.
  intros resolve. split; [ | split ].
  - destruct (UpdatePrice_resolves samples.FargateCapacityProvisioned samples.Sprintf_shape
                (samples.filled samples.failingProvider) samples.spotNode)
      as (_ & Hspot & _).
    unfold resolve. rewrite Hspot; reflexivity.
  - destruct (UpdatePrice_resolves samples.FargateCapacityProvisioned samples.Sprintf_shape
                (samples.filled samples.failingProvider) samples.spotNodeElsewhere)
      as (_ & Hspot & _).
    unfold resolve, HasPrice. rewrite Hspot; reflexivity.
  - destruct (UpdatePrice_resolves samples.FargateCapacityProvisioned samples.Sprintf_shape
                (samples.filled samples.failingProvider) samples.fargateNode)
      as (_ & _ & Hfargate).
    unfold resolve.
    rewrite (Hfargate eq_refl (0.5%float, 1%float, true) 0.5%float 1%float eq_refl eq_refl).
    reflexivity.
Defined.

(** ** Pods bound to a node *)

Section AccountingProperties.

Context {Pod Quantity : Type}.
Variable Namespace Name : Pod -> string.
Variable Quantity_zero : Quantity.
Variable Quantity_Add Quantity_Sub : Quantity -> Quantity -> Quantity.
Variable Requested : Pod -> gmap string Quantity.

Lemma account_list op (used : gmap string Quantity) (requests : list (string * Quantity)) rn :
  NoDup requests.*1 ->
  quantity Quantity_zero (account Quantity_zero op used requests) rn
  = match (list_to_map requests : gmap string Quantity) !! rn with
    | Some q => op (quantity Quantity_zero used rn) q
    | None => quantity Quantity_zero used rn
    end.
Proof.
  unfold account. revert used.
  induction requests as [ | [r q] requests IH ]; intros used Hnodup; cbn [foldl].
  - now rewrite list_to_map_nil, lookup_empty.
  - cbn [fmap list_fmap fst] in Hnodup. apply NoDup_cons in Hnodup as [Hfresh Hnodup].
    rewrite (IH _ Hnodup), list_to_map_cons. cbn [fst snd].
    destruct (decide (r = rn)) as [-> | Hne].
    + rewrite lookup_insert_eq, (not_elem_of_list_to_map_1 _ _ Hfresh).
      unfold quantity at 1. now rewrite lookup_insert_eq.
    + rewrite lookup_insert_ne by exact Hne.
      unfold quantity at 1 3. rewrite lookup_insert_ne by exact Hne.
      reflexivity.
Qed.

(** What the loops of [BindPod] and [DeletePod] do to one resource. *)
Lemma account_requests op (used requests : gmap string Quantity) rn :
  quantity Quantity_zero (account Quantity_zero op used (map_to_list requests)) rn
  = match requests !! rn with
    | Some q => op (quantity Quantity_zero used rn) q
    | None => quantity Quantity_zero used rn
    end.
Proof.
  rewrite account_list by apply NoDup_fst_map_to_list. now rewrite list_to_map_to_list.
Qed.

(** X16. [BindPod] binds the pod under (namespace, name). For a key that
    was free, the node has one pod more and each resource the pod requests
    grows by the request; for a key that was taken, the stored pod is
    replaced and nothing is counted again. *)
Theorem BindPod_spec (n : Node Pod) (used : gmap string Quantity) (pod : Pod) :
  let key := (Namespace pod, Name pod) in
  let n' := (BindPod Namespace Name Quantity_zero Quantity_Add Requested n used pod).1 in
  let used' := (BindPod Namespace Name Quantity_zero Quantity_Add Requested n used pod).2 in
  pods n' !! key = Some pod /\
  (forall key', key' <> key -> pods n' !! key' = pods n !! key') /\
  (pods n !! key = None ->
   NumPods n' = S (NumPods n) /\
   forall rn, quantity Quantity_zero used' rn
              = match Requested pod !! rn with
                | Some q => Quantity_Add (quantity Quantity_zero used rn) q
                | None => quantity Quantity_zero used rn
                end) /\
  (is_Some (pods n !! key) -> NumPods n' = NumPods n /\ used' = used).
Proof.
  cbv zeta. unfold BindPod, NumPods.
  destruct (pods n !! (Namespace pod, Name pod)) as [old | ] eqn:Hbound; cbn [fst snd pods].
  - split; [ apply lookup_insert_eq | ].
    split; [ intros key' Hne; now apply lookup_insert_ne | ].
    split; [ discriminate | ].
    intros _. split; [ | reflexivity ]. apply map_size_insert_Some. now exists old.
  - split; [ apply lookup_insert_eq | ].
    split; [ intros key' Hne; now apply lookup_insert_ne | ].
    split; [ | intros [old Hold]; discriminate Hold ].
    intros _. split; [ now apply map_size_insert_None | ].
    intros rn. apply account_requests.
Qed.

(** X17. [DeletePod] of a key that is not bound changes nothing. For a
    bound key it removes the pod, the node has one pod less, and each
    resource that the stored pod requests shrinks by the request. *)
Theorem DeletePod_spec (n : Node Pod) (used : gmap string Quantity) (namespace name : string) :
  let n' := (DeletePod Quantity_zero Quantity_Sub Requested n used namespace name).1 in
  let used' := (DeletePod Quantity_zero Quantity_Sub Requested n used namespace name).2 in
  (pods n !! (namespace, name) = None -> n' = n /\ used' = used) /\
  (forall pod,
     pods n !! (namespace, name) = Some pod ->
     pods n' = delete (namespace, name) (pods n) /\
     NumPods n' = pred (NumPods n) /\
     forall rn, quantity Quantity_zero used' rn
                = match Requested pod !! rn with
                  | Some q => Quantity_Sub (quantity Quantity_zero used rn) q
                  | None => quantity Quantity_zero used rn
                  end).
Proof.
  cbv zeta. unfold DeletePod, NumPods.
  destruct (pods n !! (namespace, name)) as [stored | ] eqn:Hbound; cbn [fst snd pods].
  - split; [ discriminate | ]. intros pod [= <-].
    split; [ reflexivity | ].
    split; [ apply map_size_delete_Some; now exists stored | ].
    intros rn. apply account_requests.
  - split; [ easy | discriminate ].
Qed.

(** X18. Binding a pod under a free key and deleting it again gives back
    the node and, resource by resource, the quantities in use, as long as
    subtracting a quantity undoes adding it. *)
Theorem BindPod_DeletePod (n : Node Pod) (used : gmap string Quantity) (pod : Pod) :
  (forall a q, Quantity_Sub (Quantity_Add a q) q = a) ->
  pods n !! (Namespace pod, Name pod) = None ->
  let bound := BindPod Namespace Name Quantity_zero Quantity_Add Requested n used pod in
  let deleted := DeletePod Quantity_zero Quantity_Sub Requested bound.1 bound.2
                   (Namespace pod) (Name pod) in
  deleted.1 = n /\
  forall rn, quantity Quantity_zero deleted.2 rn = quantity Quantity_zero used rn.
Proof.
  intros Hundo Hfree. cbv zeta. unfold BindPod. rewrite Hfree. cbn [fst snd].
  unfold DeletePod. cbn [pods Labels Price]. rewrite lookup_insert_eq. cbn [fst snd].
  split.
  - rewrite (delete_insert_id _ _ _ Hfree). now destruct n.
  - intros rn. rewrite !account_requests.
    destruct (Requested pod !! rn); [ apply Hundo | reflexivity ].
Qed.

End AccountingProperties.

Lemma BindPod_spec_witness :
  let bound := BindPod samples.Namespace samples.Name 0%Z Z.add samples.Requested
                 samples.emptyNode ∅ samples.webPod in
  let again := BindPod samples.Namespace samples.Name 0%Z Z.add samples.Requested
                 bound.1 bound.2 samples.webPodGrown in
  NumPods bound.1 = 1 /\
  quantity 0%Z bound.2 "cpu" = 250%Z /\
  NumPods again.1 = 1 /\
  again.2 = bound.2 /\
  pods again.1 !! ("default", "web") = Some samples.webPodGrown.
Proof.
  intros bound again.
  destruct (BindPod_spec samples.Namespace samples.Name 0%Z Z.add samples.Requested
              samples.emptyNode ∅ samples.webPod) as (_ & _ & Hfree & _).
  destruct (Hfree eq_refl) as [Hnum Hused].
  destruct (BindPod_spec samples.Namespace samples.Name 0%Z Z.add samples.Requested
              bound.1 bound.2 samples.webPodGrown) as (Hstored & _ & _ & Htaken).
  destruct (Htaken ltac:(eexists; reflexivity)) as [Hnum' Hused'].
  subst again bound.
  split; [ exact Hnum | ].
  split; [ rewrite (Hused "cpu"); reflexivity | ].
  split; [ rewrite Hnum'; exact Hnum | ].
  split; [ exact Hused' | exact Hstored ].
Defined.

Lemma DeletePod_spec_witness :
  let bound := BindPod samples.Namespace samples.Name 0%Z Z.add samples.Requested
                 samples.emptyNode ∅ samples.webPod in
  let again := BindPod samples.Namespace samples.Name 0%Z Z.add samples.Requested
                 bound.1 bound.2 samples.webPodGrown in
  let deleted := DeletePod 0%Z Z.sub samples.Requested again.1 again.2 "default" "web" in
  NumPods deleted.1 = 0 /\
  quantity 0%Z deleted.2 "cpu" = (-250)%Z /\
  DeletePod 0%Z Z.sub samples.Requested deleted.1 deleted.2 "default" "web" = deleted.
Proof.
  intros bound again deleted.
  destruct (DeletePod_spec 0%Z Z.sub samples.Requested again.1 again.2 "default" "web")
    as [_ Hbound].
  destruct (Hbound samples.webPodGrown eq_refl) as (_ & Hnum & Hused).
  destruct (DeletePod_spec 0%Z Z.sub samples.Requested deleted.1 deleted.2 "default" "web")
    as [Hfree _].
  destruct (Hfree eq_refl) as [Hnode Hsame].
  subst deleted again bound.
  split; [ exact Hnum | ].
  split; [ rewrite (Hused "cpu"); reflexivity | ].
  rewrite (surjective_pairing (DeletePod _ _ _ _ _ _ _)), Hnode, Hsame.
  now rewrite <- surjective_pairing.
Defined.

Lemma BindPod_DeletePod_witness :
  let bound := BindPod samples.Namespace samples.Name 0%Z Z.add samples.Requested
                 samples.emptyNode ∅ samples.webPod in
  let deleted := DeletePod 0%Z Z.sub samples.Requested bound.1 bound.2 "default" "web" in
  deleted.1 = samples.emptyNode /\
  quantity 0%Z deleted.2 "cpu" = 0%Z /\
  quantity 0%Z deleted.2 "memory" = 0%Z.
Proof.
  intros bound deleted.
  destruct (BindPod_DeletePod samples.Namespace samples.Name 0%Z Z.add Z.sub samples.Requested
              samples.emptyNode ∅ samples.webPod) as [Hnode Hused].
  - intros a q. lia.
  - reflexivity.
  - subst deleted bound.
    split; [ exact Hnode | ]. split; [ apply (Hused "cpu") | apply (Hused "memory") ].
Defined.

(** ** The paginator *)

Section PaginatorProperties.

Import k8spaginator.

Context {V : Type}.

Lemma Get_loop_token (f g : ListFunc V) (c : Context) fuel call result :
  (forall call, f call c "" = g call c "") ->
  Get_loop f c "" fuel call result = Get_loop g c "" fuel call result.
Proof.
  intros Hagree. revert call result.
  induction fuel as [ | fuel IH ]; intros call result; cbn [Get_loop]; [ reflexivity | ].
  rewrite Hagree. destruct (g call c "") as [[items cont'] [err | ]]; [ reflexivity | ].
  destruct (String.eqb cont' ""); [ reflexivity | apply IH ].
Qed.

(** X19. [Get] hands the empty continuation token to every call of the
    list function: what the list function would answer to any other token
    has no influence on the result. *)
Theorem Get_token_never_forwarded (f g : ListFunc V) (c : Context) (fuel : nat) :
  (forall call, f call c "" = g call c "") ->
  Get f c fuel = Get g c fuel.
Proof. intros Hagree. unfold Get. now apply Get_loop_token. Qed.

Lemma Get_loop_stops (f : ListFunc V) (c : Context) k :
  forall call result fuel items cont err,
    (forall i, i < k -> exists items' cont',
        f (call + i) c "" = (items', cont', None) /\ cont' <> "") ->
    f (call + k) c "" = (items, cont, err) ->
    err <> None \/ cont = "" ->
    k < fuel ->
    Get_loop f c "" fuel call result
    = Some ((result ++ concat (map (fun i => (f i c "").1.1) (seq call k))
                    ++ match err with Some _ => [] | None => items end)%list,
            err).
Proof.
  induction k as [ | k IH ]; intros call result fuel items cont err Hgo Hstop Hlast Hfuel.
  - destruct fuel as [ | fuel ]; [ lia | ]. cbn [Get_loop seq map concat app].
    rewrite Nat.add_0_r in Hstop. rewrite Hstop.
    destruct err as [e | ]; [ now rewrite app_nil_r | ].
    destruct Hlast as [Herr | ->]; [ congruence | reflexivity ].
  - destruct fuel as [ | fuel ]; [ lia | ]. cbn [Get_loop seq map concat].
    destruct (Hgo 0 ltac:(lia)) as (items' & cont' & Hfirst & Hmore).
    rewrite Nat.add_0_r in Hfirst. rewrite Hfirst. cbn [fst].
    apply String.eqb_neq in Hmore. rewrite Hmore.
    rewrite (IH (S call) (result ++ items')%list fuel items cont err).
    + now rewrite <- !app_assoc.
    + intros i Hi. replace (S call + i) with (call + S i) by lia. apply Hgo. lia.
    + now replace (S call + k) with (call + S k) by lia.
    + exact Hlast.
    + lia.
Qed.

(** X20. [Get] calls the list function until a call fails or answers
    with an empty continuation token. It returns the items of the calls
    before that one, followed by the items of the last call when that
    call succeeded; when it failed, its error is returned with the items
    collected so far and its own items are dropped. *)
Theorem Get_result (f : ListFunc V) (c : Context) (k fuel : nat)
  (items : list V) (cont : string) (err : option error) :
  (forall i, i < k -> exists items' cont', f i c "" = (items', cont', None) /\ cont' <> "") ->
  f k c "" = (items, cont, err) ->
  err <> None \/ cont = "" ->
  k < fuel ->
  Get f c fuel
  = Some ((concat (map (fun i => (f i c "").1.1) (seq 0 k))
           ++ match err with Some _ => [] | None => items end)%list,
          err).
Proof.
  intros Hgo Hstop Hlast Hfuel. unfold Get.
  now rewrite (Get_loop_stops f c k 0 [] fuel items cont err).
Qed.

Lemma Get_loop_runs_on (f : ListFunc V) (c : Context) fuel :
  (forall call, exists items cont, f call c "" = (items, cont, None) /\ cont <> "") ->
  forall call result, Get_loop f c "" fuel call result = None.
Proof.
  intros Hmore. induction fuel as [ | fuel IH ]; intros call result; cbn [Get_loop];
    [ reflexivity | ].
  destruct (Hmore call) as (items & cont & -> & Hcont).
  apply String.eqb_neq in Hcont. rewrite Hcont. apply IH.
Qed.

(** X21. When the list function answers the empty token with items and a
    continuation token on every call, as a stateless listing with more
    than one page does, [Get] never returns: whatever the number of calls
    allowed, the loop is still running. *)
Theorem Get_never_returns (f : ListFunc V) (c : Context) :
  (forall call, exists items cont, f call c "" = (items, cont, None) /\ cont <> "") ->
  forall fuel, Get f c fuel = None.
Proof. intros Hmore fuel. unfold Get. now apply Get_loop_runs_on. Qed.

End PaginatorProperties.

Lemma Get_token_never_forwarded_witness :
  k8spaginator.Get samples.twoPages samples.background 5
  = k8spaginator.Get (fun _ _ _ => ([1; 2], "page-2", None)) samples.background 5.
Proof.
  apply (Get_token_never_forwarded samples.twoPages (fun _ _ _ => ([1; 2], "page-2", None))
           samples.background 5).
  intros call. reflexivity.
Defined.

Lemma Get_result_witness :
  k8spaginator.Get samples.ownCursor samples.background 5
  = Some ([1; 2; 3], Some samples.timeout_error).
Proof.
  apply (Get_result samples.ownCursor samples.background 2 5 [4] "" (Some samples.timeout_error)).
  - intros [ | [ | i ] ] Hi; [ | | lia ]; eexists _, _; (split; [ reflexivity | discriminate ]).
  - reflexivity.
  - left. discriminate.
  - lia.
Defined.

Lemma Get_never_returns_witness :
  k8spaginator.Get samples.twoPages samples.background 1000 = None.
Proof.
  apply (Get_never_returns samples.twoPages samples.background).
  intros call. eexists _, _. split; [ reflexivity | discriminate ].
Defined.

(** ** [UpdatePricing], on every interleaving of its statements *)

Lemma commit_provider (f : fetched) (now : Time) (pr : Repository) :
  pricingProvider (commit f now pr) = pricingProvider pr.
Proof. now destruct f. Qed.

Lemma Interleaving_init_invariant (pr : Repository) (clock : Time) :
  Interleaving_invariant pr (Interleaving_init pr clock).
Proof.
  unfold Interleaving_invariant, Interleaving_init. cbn.
  repeat split; try lia; try reflexivity.
Qed.

Lemma statement_invariant (c : Context) (pr : Repository) (m : mover)
  (s s' : Interleaving_state) :
  Interleaving_invariant pr s -> statement c m s = Some s' -> Interleaving_invariant pr s'.
Proof.
  intros (Hpc & Hod & Hspot & Hfargate & Hwg & Hprovider & Hresult).
  unfold statement. destruct (il_panic s); [ discriminate | ].
  destruct s as [repo clock errs wg [od spot fargate] pc result panic]. cbn in *.
  destruct m as [ | k ].
  - unfold caller_statement. cbn.
    destruct pc as [ | [ | [ | [ | [ | [ | [ | [ | pc ] ] ] ] ] ] ] ]; [ | | | | | | | | discriminate ];
      try destruct errs; intros [= <-]; unfold Interleaving_invariant, dones in *; cbn in *;
      rewrite ?Hod, ?Hspot, ?Hfargate in * by lia; cbn in *;
      (repeat split; try lia; try assumption; try discriminate; try reflexivity;
       try (intros; apply Hresult; lia); try (intros; lia)).
  - unfold goroutine_statement. cbn.
    destruct k; cbn;
      [ destruct od as [ [ | f | [e | ] | snapshot e | | msg | ] | ]
      | destruct spot as [ [ | f | [e | ] | snapshot e | | msg | ] | ]
      | destruct fargate as [ [ | f | [e | ] | snapshot e | | msg | ] | ] ];
      try discriminate; intros [= <-];
      unfold Interleaving_invariant, dones in *; cbn in *;
      rewrite ?commit_provider;
      (repeat split; try lia; try assumption; try discriminate;
       try (intros Hlt; specialize (Hod Hlt); discriminate);
       try (intros Hlt; specialize (Hspot Hlt); discriminate);
       try (intros Hlt; specialize (Hfargate Hlt); discriminate);
       try (apply Hresult); try (intros; apply Hresult; assumption);
       try (match goal with
            | |- context [match ?get (pricingProvider repo) c with _ => _ end] =>
                destruct (get (pricingProvider repo) c) as [[? [? | ]] | ?]
            end; cbn; lia)).
Qed.

Lemma UpdatePricing_interleave_invariant (c : Context) (pr : Repository) schedule :
  forall s s',
    Interleaving_invariant pr s ->
    UpdatePricing_interleave c schedule s = Some s' ->
    Interleaving_invariant pr s'.
Proof.
  induction schedule as [ | m schedule IH ]; intros s s' Hs; cbn [UpdatePricing_interleave].
  - now intros [= <-].
  - destruct (statement c m s) as [next | ] eqn:Hstatement; [ | discriminate ].
    apply IH. now apply (statement_invariant c pr m s).
Qed.

(** X22. On every interleaving of the statements of [UpdatePricing] and
    of its three goroutines, in every state reached: the [WaitGroup]
    counter is the number of [wg.Add(1)] the caller has run minus the
    number of [wg.Done()] the goroutines have run, so it is never negative
    and at most three; once the caller has run its three [wg.Add(1)], the
    counter is zero exactly when the three goroutines have ended; the
    repository keeps its provider; and [UpdatePricing] has a result
    exactly when the caller has passed its return. *)
Theorem UpdatePricing_counter (c : Context) (pr : Repository) (clock : Time)
  (schedule : list mover) (s : Interleaving_state) :
  UpdatePricing_interleave c schedule (Interleaving_init pr clock) = Some s ->
  (0 <= il_wg s <= 3)%Z /\
  il_wg s = (adds_at (il_pc s) - dones (il_goroutines s))%Z /\
  (5 <= il_pc s ->
   il_wg s = 0%Z <-> forall k, goroutine_of k (il_goroutines s) = Some atEnd) /\
  pricingProvider (il_repo s) = pricingProvider pr /\
  (il_result s = None <-> il_pc s < 8).
Proof.
  intros Hrun.
  destruct (UpdatePricing_interleave_invariant c pr schedule _ _
              (Interleaving_init_invariant pr clock) Hrun)
    as (Hpc & Hod & Hspot & Hfargate & Hwg & Hprovider & Hresult).
  destruct s as [repo now errs wg [od spot fargate] pc result panic].
  unfold dones in *. cbn in *.
  assert (Hended : forall g, ended g = true <-> g = Some atEnd).
  { intros [ [ ] | ]; cbn; split; congruence. }
  split; [ | split; [ exact Hwg | split; [ | split; assumption ] ] ].
  - destruct pc as [ | [ | [ | [ | [ | [ | pc ] ] ] ] ] ]; cbn in Hwg;
      rewrite ?Hod, ?Hspot, ?Hfargate in Hwg by lia; cbn in Hwg;
      destruct (ended od), (ended spot), (ended fargate); cbn in Hwg; lia.
  - intros Hfive.
    assert (Hadds : adds_at pc = 3%Z).
    { destruct pc as [ | [ | [ | [ | [ | pc ] ] ] ] ]; try lia; reflexivity. }
    rewrite Hadds in Hwg. split.
    + intros Hzero k.
      destruct (ended od) eqn:Ho, (ended spot) eqn:Hs, (ended fargate) eqn:Hf;
        cbn in Hwg; try lia.
      apply Hended in Ho, Hs, Hf. now destruct k.
    + intros Hall.
      rewrite (proj2 (Hended od) (Hall catOnDemand)), (proj2 (Hended spot) (Hall catSpot)),
        (proj2 (Hended fargate) (Hall catFargate)) in Hwg.
      cbn in Hwg. lia.
Qed.

(** On the sample repository whose spot fetch fails, the spot goroutine
    alone runs up to its write of [errs]: the slice holds the error while
    no goroutine has ended and the counter still stands at three. *)
Lemma UpdatePricing_counter_witness :
  exists s,
    UpdatePricing_interleave samples.background
      [Caller; Caller; Caller; Caller; Caller; Caller;
       Goroutine catSpot; Goroutine catSpot; Goroutine catSpot]
      (Interleaving_init (samples.filled samples.spotFailingProvider) 40%Z) = Some s /\
    il_errs s = [samples.timeout_error] /\
    il_wg s = 3%Z /\
    (0 <= il_wg s <= 3)%Z.
Proof.
  exists (mkInterleaving (samples.filled samples.spotFailingProvider) 41%Z
            [samples.timeout_error] 3%Z
            (mkGoroutines (Some atFetch) (Some atDone) (Some atFetch)) 6 None None).
  assert (Hrun :
    UpdatePricing_interleave samples.background
      [Caller; Caller; Caller; Caller; Caller; Caller;
       Goroutine catSpot; Goroutine catSpot; Goroutine catSpot]
      (Interleaving_init (samples.filled samples.spotFailingProvider) 40%Z) =
    Some (mkInterleaving (samples.filled samples.spotFailingProvider) 41%Z
            [samples.timeout_error] 3%Z
            (mkGoroutines (Some atFetch) (Some atDone) (Some atFetch)) 6 None None))
    by (vm_compute; reflexivity).
  destruct (UpdatePricing_counter _ _ _ _ _ Hrun) as (Hbounds & _).
  split; [ exact Hrun | ].
  split; [ reflexivity | ]. split; [ reflexivity | exact Hbounds ].
Defined.

(** ** The two models of [UpdatePricing] *)

Lemma refresh_fetch_commit (k : category) (c : Context) (now : Time) (pr : Repository) :
  refresh k c now pr =
  match fetch k c (pricingProvider pr) with
  | Panics msg => Panics msg
  | Returns (_, Some e) => Returns (pr, Some e)
  | Returns (f, None) => Returns (commit f now pr, None)
  end.
Proof.
  destruct k; cbn;
    [ unfold UpdateOnDemandPricing; destruct (GetOnDemandPricing (pricingProvider pr) c) as [[? [? | ]] | ?]
    | unfold UpdateSpotPricing; destruct (GetSpotPricing (pricingProvider pr) c) as [[? [? | ]] | ?]
    | unfold UpdateFargatePricing; destruct (GetFargatePricing (pricingProvider pr) c) as [[? [? | ]] | ?] ];
    reflexivity.
Qed.

Lemma UpdatePricing_interleave_app (c : Context) (first rest : list mover) :
  forall s,
    UpdatePricing_interleave c (first ++ rest)%list s =
    match UpdatePricing_interleave c first s with
    | Some s' => UpdatePricing_interleave c rest s'
    | None => None
    end.
Proof.
  induction first as [ | m first IH ]; intros s; cbn; [ reflexivity | ].
  destruct (statement c m s); [ apply IH | reflexivity ].
Qed.

Lemma UpdatePricing_init_well_started (pr : Repository) (clock : Time) :
  well_started (UpdatePricing_init pr clock).
Proof.
  unfold well_started. cbn. repeat split; try lia; discriminate.
Qed.

Lemma step_well_started (c : Context) (m : mover) (s s' : UpdatePricing_state) :
  well_started s -> step c m s = Some s' -> well_started s'.
Proof.
  intros (Hpc & Hstarted & Hfinished). unfold step.
  destruct (st_panic s); [ discriminate | ].
  destruct m as [ | k ].
  - unfold caller_step.
    destruct (st_pc s) as [ | [ | [ | [ | pc ] ] ] ] eqn:Hat; [ | | | | discriminate ];
      intros [= <-]; unfold well_started; cbn; rewrite ?Hat, ?Hstarted; cbn;
      (split; [ lia | split; [ reflexivity | ] ]);
      intros k Hk; specialize (Hfinished k Hk); rewrite Hstarted in Hfinished;
      cbn in Hfinished |- *; first [ rewrite Hfinished, ?orb_true_r; reflexivity | discriminate | assumption ].
  - unfold goroutine_step.
    destruct (has k (st_started s) && negb (has k (st_finished s))) eqn:Henabled;
      [ | discriminate ].
    apply andb_true_iff in Henabled as [Hk _].
    assert (Hkeeps : forall k', has k' (k :: st_finished s) = true -> has k' (st_started s) = true).
    { intros k'. cbn. intros [Heq | Hin]%orb_true_iff; [ | now apply Hfinished ].
      now destruct k', k. }
    destruct (refresh k c (st_clock s + 1)%Z (st_repo s)) as [[pr' err] | msg];
      intros [= <-]; unfold well_started; cbn; auto.
Qed.

Lemma step_simulated (c : Context) (m : mover) (s s' : UpdatePricing_state) :
  well_started s -> step c m s = Some s' ->
  UpdatePricing_interleave c (statements_of c m s) (embed s) = Some (embed s').
Proof.
  intros (Hpc & Hstarted & Hfinished). unfold step.
  destruct s as [repo clock errs wg started finished pc result panic]. cbn in *.
  destruct panic; [ discriminate | ]. subst started.
  assert (Hod := Hfinished catOnDemand).
  assert (Hspot := Hfinished catSpot).
  assert (Hfargate := Hfinished catFargate).
  clear Hfinished.
  destruct m as [ | k ].
  - unfold caller_step. cbn.
    destruct pc as [ | [ | [ | [ | pc ] ] ] ]; [ | | | | discriminate ];
      try destruct errs; intros [= <-]; cbn in *;
      unfold embed, embed_goroutine, statement, caller_statement, has in *; cbn;
      destruct (existsb (category_eqb catOnDemand) finished),
        (existsb (category_eqb catSpot) finished),
        (existsb (category_eqb catFargate) finished);
      try discriminate (Hod eq_refl); try discriminate (Hspot eq_refl);
      try discriminate (Hfargate eq_refl); reflexivity.
  - unfold goroutine_step, statements_of. cbn [st_started st_finished st_clock st_repo].
    rewrite refresh_fetch_commit.
    destruct (has k (started_at pc) && negb (has k finished)) eqn:Henabled; [ | discriminate ].
    apply andb_true_iff in Henabled as [Hk Hnot]. apply negb_true_iff in Hnot.
    assert (Hpcs : pc = 0 \/ pc = 1 \/ pc = 2 \/ pc = 3 \/ pc = 4) by lia.
    unfold embed, embed_goroutine, statement, goroutine_statement, has in *.
    destruct k; cbn in *;
      destruct Hpcs as [-> | [-> | [-> | [-> | ->]]]]; cbn in *; try discriminate;
      rewrite Hnot; cbn.
    all: match goal with
         | |- context [match ?get (pricingProvider ?pr) ?c with _ => _ end] =>
             destruct (get (pricingProvider pr) c) as [[pricing [e | ]] | msg] eqn:Hget
         end;
      intros [= <-]; cbn; rewrite ?Hget; cbn;
      destruct (existsb (category_eqb catOnDemand) finished),
        (existsb (category_eqb catSpot) finished),
        (existsb (category_eqb catFargate) finished);
      try discriminate (Hod eq_refl); try discriminate (Hspot eq_refl);
      try discriminate (Hfargate eq_refl); try discriminate; reflexivity.
Qed.

Lemma UpdatePricing_run_simulated (c : Context) (schedule : list mover) :
  forall s s',
    well_started s ->
    UpdatePricing_run c schedule s = Some s' ->
    UpdatePricing_interleave c (UpdatePricing_refine c schedule s) (embed s) = Some (embed s').
Proof.
  induction schedule as [ | m schedule IH ]; intros s s' Hs;
    cbn [UpdatePricing_run UpdatePricing_refine].
  - now intros [= <-].
  - destruct (step c m s) as [next | ] eqn:Hstep; [ | discriminate ].
    intros Hrun. rewrite UpdatePricing_interleave_app, (step_simulated c m s next Hs Hstep).
    apply IH; [ | exact Hrun ]. now apply (step_well_started c m s).
Qed.

(** X23. Every schedule of the model of [UpdatePricing] whose goroutines
    move in one piece is a schedule of its statements: the state that it
    reaches from the start of [UpdatePricing] is reached, statement by
    statement, by the schedule in which each move is replaced by the
    statements it stands for. *)
Theorem UpdatePricing_run_is_interleaving (c : Context) (pr : Repository) (clock : Time)
  (schedule : list mover) (s : UpdatePricing_state) :
  UpdatePricing_run c schedule (UpdatePricing_init pr clock) = Some s ->
  UpdatePricing_interleave c
    (UpdatePricing_refine c schedule (UpdatePricing_init pr clock))
    (Interleaving_init pr clock) = Some (embed s).
Proof.
  intros Hrun.
  exact (UpdatePricing_run_simulated c schedule _ _
           (UpdatePricing_init_well_started pr clock) Hrun).
Qed.

(** On the sample repository whose spot fetch fails: the caller starts
    the three goroutines, the spot goroutine runs, the caller returns. *)
Lemma UpdatePricing_run_is_interleaving_witness :
  UpdatePricing_run samples.background
    [Caller; Caller; Caller; Goroutine catSpot; Caller]
    (UpdatePricing_init (samples.filled samples.spotFailingProvider) 40%Z) =
  Some (mkState (samples.filled samples.spotFailingProvider) 41%Z
          [samples.timeout_error] 2%Z [catFargate; catSpot; catOnDemand] [catSpot] 4
          (Some (Some samples.timeout_error)) None) /\
  UpdatePricing_interleave samples.background
    [Caller; Caller; Caller; Caller; Caller; Caller;
     Goroutine catSpot; Goroutine catSpot; Goroutine catSpot; Goroutine catSpot;
     Caller; Caller]
    (Interleaving_init (samples.filled samples.spotFailingProvider) 40%Z) =
  Some (embed (mkState (samples.filled samples.spotFailingProvider) 41%Z
                 [samples.timeout_error] 2%Z [catFargate; catSpot; catOnDemand] [catSpot] 4
                 (Some (Some samples.timeout_error)) None)).
Proof.
  assert (Hrun :
    UpdatePricing_run samples.background
      [Caller; Caller; Caller; Goroutine catSpot; Caller]
      (UpdatePricing_init (samples.filled samples.spotFailingProvider) 40%Z) =
    Some (mkState (samples.filled samples.spotFailingProvider) 41%Z
            [samples.timeout_error] 2%Z [catFargate; catSpot; catOnDemand] [catSpot] 4
            (Some (Some samples.timeout_error)) None))
    by (vm_compute; reflexivity).
  split; [ exact Hrun | ].
  pose proof (UpdatePricing_run_is_interleaving _ _ _ _ _ Hrun) as Hstatements.
  vm_compute in Hstatements. vm_compute. exact Hstatements.
Defined.
